(** * Luxury-housing pipeline: a shallow embedding and its checked properties

    The repository holds two programs that share their feature rules:

    - [housing_data_cleaner.py], class [HousingDataCleaner]: reads a CSV file
      into a pandas frame and runs five cleaning stages over it;
    - [data_loader.py], class [HousingDataLoader]: reads the cleaned file and
      derives, row by row, the values it inserts into the database.

    Modelling conventions.

    - Text is [string], a sequence of 8-bit characters.  Case mapping, [\d],
      [\s] and [[a-zA-Z]] are the ASCII ones; the only character outside ASCII
      that the source names, the rupee sign of the first price pattern, is
      its three UTF-8 bytes.
    - A binary64 number is the rational it denotes, or one of [+inf], [-inf],
      [nan] ([pyfloat]).  Comparisons are exact, as they are on binary64;
      rounding, overflow and the sign of zero are not modelled: a product, a
      sum or a numeral too large for binary64 is the exact number here and
      an infinity (or, for a numeral, a value that does not parse) in
      pandas, and an integer cell is the integer it denotes, without the
      wrap-around of 64-bit arithmetic.
    - A pandas column is the list of its cells; a frame is its row count (the
      index) and its columns in order.  An in-place [fillna] on a column
      writes through to the frame, as it does in the pandas releases the
      source was written for.
    - A Python exception is the [Raise] outcome of a computation over the
      object state; [try]/[except] is a match on the outcome. *)

From Stdlib Require Import ZArith QArith Qreduction Lia Lqa Bool Ascii String List.
From Stdlib Require Import Sorted Permutation.
From stdpp Require Import base option list strings gmap.

Local Open Scope Z_scope.

(** ** Python text *)

Module PyStr.

Definition code (c : ascii) : N := N_of_ascii c.

Definition between (lo hi : N) (c : ascii) : bool :=
  ((lo <=? code c) && (code c <=? hi))%N.

(** [\d] and [str.isdigit] on ASCII. *)
Definition is_digit : ascii -> bool := between 48 57.
Definition is_lower : ascii -> bool := between 97 122.
Definition is_upper : ascii -> bool := between 65 90.
(** [[a-zA-Z]]. *)
Definition is_alpha (c : ascii) : bool := is_lower c || is_upper c.
(** [\s] and [str.isspace] on ASCII: tab to carriage return, the four
    separators 28 to 31, and the space. *)
Definition is_space (c : ascii) : bool := between 9 13 c || between 28 32 c.

Definition to_upper (c : ascii) : ascii :=
  if is_lower c then ascii_of_N (code c - 32) else c.
Definition to_lower (c : ascii) : ascii :=
  if is_upper c then ascii_of_N (code c + 32) else c.

Fixpoint map_chars (f : ascii -> ascii) (s : string) : string :=
  match s with
  | EmptyString => EmptyString
  | String c s' => String (f c) (map_chars f s')
  end.

(** [s.upper()] and [s.lower()]. *)
Definition upper : string -> string := map_chars to_upper.
Definition lower : string -> string := map_chars to_lower.

(** [s.title()]: a cased character is upper-cased when the character before
    it is not cased, and lower-cased otherwise. *)
Fixpoint title_from (previous_is_cased : bool) (s : string) : string :=
  match s with
  | EmptyString => EmptyString
  | String c s' =>
      if is_alpha c
      then String (if previous_is_cased then to_lower c else to_upper c)
                  (title_from true s')
      else String c (title_from false s')
  end.
Definition title : string -> string := title_from false.

Fixpoint lstrip (s : string) : string :=
  match s with
  | String c s' => if is_space c then lstrip s' else s
  | EmptyString => EmptyString
  end.

(** The characters of [s] up to its last character that is not a space. *)
Fixpoint rstrip (s : string) : string :=
  match s with
  | EmptyString => EmptyString
  | String c s' =>
      match rstrip s' with
      | EmptyString => if is_space c then EmptyString else String c EmptyString
      | r => String c r
      end
  end.

(** [s.strip()]. *)
Definition strip (s : string) : string := rstrip (lstrip s).

(** [s.startswith(p)]. *)
Definition startswith (p s : string) : bool := String.prefix p s.

(** [p in s] for two strings: [p] occurs in [s] as a substring. *)
Fixpoint contains (p s : string) : bool :=
  startswith p s ||
  match s with
  | EmptyString => false
  | String _ s' => contains p s'
  end.

Definition all_chars (f : ascii -> bool) (s : string) : bool :=
  forallb f (list_ascii_of_string s).

Definition digit_value (c : ascii) : Z := Z.of_N (code c) - 48.

(** The value of a run of decimal digits read after the value [acc]. *)
Fixpoint digits_value (acc : Z) (s : string) : Z :=
  match s with
  | EmptyString => acc
  | String c s' => digits_value (10 * acc + digit_value c) s'
  end.

(** [int(s)] for the texts the source converts: a non-empty run of decimal
    digits is its value; any other text is a [ValueError], here [None].
    (Python also takes a sign, surrounding blanks and grouping underscores;
    the source only ever converts what [\d] matched.) *)
Definition py_int (s : string) : option Z :=
  match s with
  | EmptyString => None
  | _ => if all_chars is_digit s then Some (digits_value 0 s) else None
  end.

(** [x in l] for a text and a list of texts. *)
Definition in_list (x : string) (l : list string) : bool :=
  existsb (String.eqb x) l.

End PyStr.

(** ** The fragment of [re] the source uses

    Every pattern of the source is a sequence of one-character classes, each
    taken once or under [?], [*] or [+], some of them inside a capture group;
    the first price pattern is an alternation of such sequences once the
    rupee sign is spelled in bytes.  Matching is Python's: leftmost start,
    greedy quantifiers, backtracking. *)

Module Re.
Import PyStr.

Definition cls := ascii -> bool.

(** A literal character, the same under [re.IGNORECASE], and [[...]]. *)
Definition lit (c : ascii) : cls := fun a => Ascii.eqb a c.
Definition ilit (c : ascii) : cls := fun a => Ascii.eqb (to_lower a) (to_lower c).
Definition set_of (members : string) : cls :=
  fun a => existsb (Ascii.eqb a) (list_ascii_of_string members).

Inductive piece :=
| One (c : cls)      (* c  *)
| Opt (c : cls)      (* c? *)
| Star (c : cls)     (* c* *)
| Plus (c : cls).    (* c+ *)

Inductive elem :=
| P (p : piece)              (* outside any group *)
| Grp (ps : list piece).     (* ( ... ) *)

Definition regex := list elem.

(** [\d{4}]. *)
Definition d4 : list piece :=
  [One PyStr.is_digit; One PyStr.is_digit; One PyStr.is_digit; One PyStr.is_digit].

Definition pieces_of (r : regex) : list piece :=
  flat_map (fun e => match e with P p => [p] | Grp ps => ps end) r.

(** The outcome of matching a sequence of pieces at the start of a text: the
    text each piece consumed, in order, and what is left. *)
Definition outcome := option (list string * string).

Definition took (x : string) (o : outcome) : outcome :=
  match o with
  | Some (l, rest) => Some (x :: l, rest)
  | None => None
  end.

(** Greedy [c*] followed by the continuation [k]: take a character and go on;
    when that fails, stop here and let [k] try. *)
Fixpoint star (c : cls) (k : string -> outcome) (s : string) : outcome :=
  match s with
  | String a s' =>
      if c a then
        match star c k s' with
        | Some (x :: l, rest) => Some (String a x :: l, rest)
        | _ => took EmptyString (k s)
        end
      else took EmptyString (k s)
  | EmptyString => took EmptyString (k s)
  end.

Fixpoint match_pieces (ps : list piece) (s : string) : outcome :=
  match ps with
  | [] => Some ([], s)
  | One c :: ps' =>
      match s with
      | String a s' =>
          if c a then took (String a EmptyString) (match_pieces ps' s') else None
      | EmptyString => None
      end
  | Opt c :: ps' =>
      match s with
      | String a s' =>
          if c a then
            match match_pieces ps' s' with
            | Some (l, rest) => Some (String a EmptyString :: l, rest)
            | None => took EmptyString (match_pieces ps' s)
            end
          else took EmptyString (match_pieces ps' s)
      | EmptyString => took EmptyString (match_pieces ps' s)
      end
  | Star c :: ps' => star c (match_pieces ps') s
  | Plus c :: ps' =>
      match s with
      | String a s' =>
          if c a then
            match star c (match_pieces ps') s' with
            | Some (x :: l, rest) => Some (String a x :: l, rest)
            | _ => None
            end
          else None
      | EmptyString => None
      end
  end.

(** [match.groups()]: the text of each capture group, from the text each
    piece consumed. *)
Fixpoint groups_of (r : regex) (consumed : list string) : list string :=
  match r with
  | [] => []
  | P _ :: r' => groups_of r' (drop 1 consumed)
  | Grp ps :: r' =>
      String.concat EmptyString (take (length ps) consumed)
        :: groups_of r' (drop (length ps) consumed)
  end.

Record found := { groups : list string; width : nat; after : string }.

(** [re.match(r, s)]: a match that starts at the first character of [s]. *)
Definition re_match (r : regex) (s : string) : option found :=
  match match_pieces (pieces_of r) s with
  | Some (consumed, rest) =>
      Some {| groups := groups_of r consumed;
              width := String.length (String.concat EmptyString consumed);
              after := rest |}
  | None => None
  end.

(** [re.search(r, s)]: the match at the leftmost position that has one. *)
Fixpoint re_search (r : regex) (s : string) : option found :=
  match re_match r s with
  | Some m => Some m
  | None =>
      match s with
      | String _ s' => re_search r s'
      | EmptyString => None
      end
  end.

(** The first alternative that matches at the start of [s]. *)
Fixpoint match_alt (alts : list regex) (s : string) : option found :=
  match alts with
  | [] => None
  | r :: alts' =>
      match re_match r s with
      | Some m => Some m
      | None => match_alt alts' s
      end
  end.

(** [re.sub] for [r1|r2|...] with the replacement computed from the groups:
    scan from the left, replace each match and resume after it.  [skip]
    counts the characters of the last match still to pass.  No pattern of the
    source matches the empty text, and a match of width 0 is not replaced. *)
Fixpoint sub_from (alts : list regex) (repl : list string -> string)
    (skip : nat) (s : string) : string :=
  match s with
  | EmptyString => EmptyString
  | String a s' =>
      match skip with
      | S k => sub_from alts repl k s'
      | O =>
          match match_alt alts s with
          | Some m =>
              match width m with
              | S k => repl (groups m) +:+ sub_from alts repl k s'
              | O => String a (sub_from alts repl O s')
              end
          | None => String a (sub_from alts repl O s')
          end
      end
  end.

Definition re_sub (alts : list regex) (repl : list string -> string)
    (s : string) : string :=
  sub_from alts repl O s.

End Re.

(** ** Numbers and cells *)

Module PyFloat.

Inductive pyfloat :=
| Fin (q : Q)
| PInf
| NInf
| NaN.

Definition of_Z (z : Z) : pyfloat := Fin (inject_Z z).

Definition isnan (x : pyfloat) : bool :=
  match x with NaN => true | _ => false end.

(** [x <= y] and [x < y]: false as soon as one side is [nan]. *)
Definition le (x y : pyfloat) : bool :=
  match x, y with
  | NaN, _ | _, NaN => false
  | NInf, _ | _, PInf => true
  | Fin a, Fin b => Qle_bool a b
  | _, _ => false
  end.

Definition lt (x y : pyfloat) : bool :=
  match x, y with
  | NaN, _ | _, NaN => false
  | Fin a, Fin b => negb (Qle_bool b a)
  | PInf, _ | _, NInf => false
  | _, _ => true
  end.

Definition sign (q : Q) : comparison := (Qnum q ?= 0)%Z.

Definition neg (x : pyfloat) : pyfloat :=
  match x with
  | Fin q => Fin (Qred (- q))
  | PInf => NInf
  | NInf => PInf
  | NaN => NaN
  end.

(** An infinity of the sign [c], [nan] when there is none. *)
Definition inf_of (c : comparison) : pyfloat :=
  match c with Gt => PInf | Lt => NInf | Eq => NaN end.

Definition sign_of (x : pyfloat) : comparison :=
  match x with
  | Fin q => sign q
  | PInf => Gt
  | NInf => Lt
  | NaN => Eq
  end.

Definition sign_mul (a b : comparison) : comparison :=
  match a, b with
  | Eq, _ | _, Eq => Eq
  | Gt, c | c, Gt => c
  | Lt, Lt => Gt
  end.

Definition add (x y : pyfloat) : pyfloat :=
  match x, y with
  | NaN, _ | _, NaN => NaN
  | Fin a, Fin b => Fin (Qred (a + b))
  | PInf, NInf | NInf, PInf => NaN
  | PInf, _ | _, PInf => PInf
  | NInf, _ | _, NInf => NInf
  end.

Definition mul (x y : pyfloat) : pyfloat :=
  match x, y with
  | NaN, _ | _, NaN => NaN
  | Fin a, Fin b => Fin (Qred (a * b))
  | _, _ => inf_of (sign_mul (sign_of x) (sign_of y))
  end.

(** Division as numpy and pandas do it on binary64: a zero divisor gives an
    infinity of the sign of the dividend, or [nan] for [0/0]; nothing is
    raised. *)
Definition div (x y : pyfloat) : pyfloat :=
  match x, y with
  | NaN, _ | _, NaN => NaN
  | Fin a, Fin b =>
      match sign b with
      | Eq => inf_of (sign a)
      | _ => Fin (Qred (a / b))
      end
  | Fin _, _ => Fin 0
  | _, Fin b =>
      match sign b with
      | Lt => neg x
      | _ => x
      end
  | _, _ => NaN
  end.

End PyFloat.
Export PyFloat.

(** A scalar as a frame cell or a row entry holds it. *)
Inductive cell :=
| CNone                  (* None *)
| CStr (s : string)
| CInt (z : Z)
| CFloat (x : pyfloat).  (* a missing number is CFloat NaN *)

(** [pd.isna(v)] on a scalar. *)
Definition isna (v : cell) : bool :=
  match v with
  | CNone | CFloat NaN => true
  | _ => false
  end.

Module Repr.
Import PyStr.

Definition digit_char (d : Z) : ascii := ascii_of_N (Z.to_N (48 + d)).

(** [str(z)] for a non-negative integer; [fuel] bounds the number of digits. *)
Fixpoint nat_digits (fuel : nat) (z : Z) (acc : string) : string :=
  match fuel with
  | O => acc
  | S fuel' =>
      let acc' := String (digit_char (z mod 10)) acc in
      if z <? 10 then acc' else nat_digits fuel' (z / 10) acc'
  end.

Definition str_nat (z : Z) : string :=
  nat_digits (S (Z.to_nat (Z.log2 z))) z EmptyString.

(** [str(z)] for an [int]. *)
Definition str_int (z : Z) : string :=
  if z <? 0 then String "-" (str_nat (- z)) else str_nat z.

(** The decimal digits of [r/d], for [0 <= r < d], until the expansion ends
    or [fuel] digits are out. *)
Fixpoint frac_digits (fuel : nat) (r d : Z) : string :=
  match fuel with
  | O => EmptyString
  | S fuel' =>
      if r =? 0 then EmptyString
      else String (digit_char (10 * r / d)) (frac_digits fuel' (10 * r mod d) d)
  end.

(** The decimal exponent [e] with [10^e <= n/d < 10^(e+1)], for [n/d > 0]. *)
Fixpoint exponent_up (fuel : nat) (n d e : Z) : Z :=
  match fuel with
  | O => e
  | S fuel' => if n <? 10 * d then e else exponent_up fuel' n (10 * d) (e + 1)
  end.
Fixpoint exponent_down (fuel : nat) (n d e : Z) : Z :=
  match fuel with
  | O => e
  | S fuel' => if d <=? n then e else exponent_down fuel' (10 * n) d (e - 1)
  end.
Definition exponent (n d : Z) : Z :=
  if d <=? n then exponent_up 400 n d 0 else exponent_down 400 n d 0.

Definition two_digits (z : Z) : string :=
  if z <? 10 then String "0" (str_nat z) else str_nat z.

(** [repr] of a positive number [n/d]: positional from [1e-4] up to [1e16],
    scientific outside.  It is exact where the decimal expansion ends within
    seventeen digits, and cut there otherwise. *)
Definition repr_pos (n d : Z) : string :=
  let e := exponent n d in
  if (-4 <=? e) && (e <? 16) then
    let f := frac_digits 17 (n mod d) d in
    str_nat (n / d) +:+ "." +:+ (if String.eqb f "" then "0" else f)
  else
    let '(n', d') := if 0 <=? e then (n, d * 10 ^ e) else (n * 10 ^ (- e), d) in
    let f := frac_digits 17 (n' mod d') d' in
    str_nat (n' / d') +:+ (if String.eqb f "" then "" else "." +:+ f)
      +:+ "e" +:+ (if 0 <=? e then "+" else "-") +:+ two_digits (Z.abs e).

(** [str(x)] for a [float]. *)
Definition str_float (x : pyfloat) : string :=
  match x with
  | NaN => "nan"
  | PInf => "inf"
  | NInf => "-inf"
  | Fin q =>
      let n := Qnum q in
      let d := Z.pos (Qden q) in
      if n =? 0 then "0.0"
      else if n <? 0 then String "-" (repr_pos (- n) d)
      else repr_pos n d
  end.

(** [str(v)]. *)
Definition py_str (v : cell) : string :=
  match v with
  | CNone => "None"
  | CStr s => s
  | CInt z => str_int z
  | CFloat x => str_float x
  end.

End Repr.
Export Repr.

(** ** Outcomes of Python computations *)

Inductive res (A : Type) :=
| Ok (a : A)
| Raise (e : string).
Arguments Ok {A} a.
Arguments Raise {A} e.

Definition res_bind {A B} (m : res A) (k : A -> res B) : res B :=
  match m with
  | Ok a => k a
  | Raise e => Raise e
  end.

(** ** [data_loader.py]: class [HousingDataLoader] *)

Module HousingDataLoader.
Import PyStr Re.

(** The alias table of [analyze_data_structure], in the order it is written. *)
Definition column_mapping : list (string * list string) :=
  [ ("price", ["Ticket_Price_Cr"; "Price"; "price"; "ticket_price"; "Price_Cr"; "price_cr"]);
    ("amenity", ["Amenity_Score"; "Amenity"; "amenity_score"; "AmenityScore"; "amenity"]);
    ("configuration", ["Configuration"; "configuration"; "config"; "BHK"; "bhk"; "unit_type"]);
    ("micro_market", ["Micro_Market"; "micro_market"; "Location"; "Area"; "Market"; "location"; "area"]);
    ("builder", ["Builder"; "builder"; "Developer"; "developer"; "builder_name"]);
    ("booking_status", ["Booking_Status"; "booking_status"; "Status"; "status"; "Booking"; "booking"]);
    ("purchase_quarter", ["Purchase_Quarter"; "purchase_quarter"; "Quarter"; "quarter"; "Time_Period"; "period"]);
    ("project_id", ["Project_ID"; "project_id"; "ID"; "id"; "Property_ID"]) ].

(** [self.column_map] as [analyze_data_structure] builds it: each standard
    name is bound to its first alias among the columns, and left out when it
    has none. *)
Definition analyze_data_structure (columns : list string) : gmap string string :=
  fold_left
    (fun column_map '(standard_name, possible_names) =>
       match find (fun possible_name => in_list possible_name columns) possible_names with
       | Some possible_name => <[standard_name := possible_name]> column_map
       | None => column_map
       end)
    column_mapping ∅.

(** A row of the frame, [pd.Series]: its values by column name. *)
Definition get_column_value (column_map : gmap string string)
    (row : gmap string cell) (column_type : string) (default_value : cell) : cell :=
  match column_map !! column_type with
  | Some column_name =>
      match row !! column_name with
      | Some value => if isna value then default_value else value
      | None => default_value
      end
  | None => default_value
  end.

(** [area_map] of [calculate_carpet_area]; a [dict] is walked in the order
    its entries were written. *)
Definition area_map : list (string * Z) :=
  [ ("1BHK", 650); ("2BHK", 950); ("3BHK", 1250); ("4BHK", 1600);
    ("5BHK", 2100); ("STUDIO", 400); ("1RK", 350); ("2BHK+STUDY", 1100);
    ("3BHK+STUDY", 1400); ("4BHK+STUDY", 1800) ].

(** The [for] loop of [calculate_carpet_area] over the entries left. *)
Fixpoint area_loop (items : list (string * Z)) (config_upper : string) : Z :=
  match items with
  | [] => 1000
  | (config_pattern, area) :: items' =>
      if contains config_pattern config_upper then area
      else area_loop items' config_upper
  end.

Definition calculate_carpet_area (configuration : cell) : Z :=
  let config_upper := upper (py_str configuration) in
  area_loop area_map config_upper.

Definition calculate_price_per_sqft (ticket_price : pyfloat) (carpet_area : Z) : pyfloat :=
  if 0 <? carpet_area
  then div (mul ticket_price (of_Z 10000000)) (of_Z carpet_area)
  else Fin 0.

(** A pattern of [extract_quarter_year]: its text, which the code inspects
    with [startswith], and what the text denotes. *)
Record pattern := { source : string; compiled : regex }.

Definition patterns : list pattern :=
  [ {| source := "Q(\d)[_\-]?(\d{4})";
       compiled := [P (One (lit "Q")); Grp [One is_digit]; P (Opt (set_of "_-")); Grp d4] |};
    {| source := "(\d{4})[_\-]?Q(\d)";
       compiled := [Grp d4; P (Opt (set_of "_-")); P (One (lit "Q")); Grp [One is_digit]] |};
    {| source := "(\d{4})";
       compiled := [Grp d4] |} ].

Definition int (s : string) : res Z :=
  match py_int s with
  | Some z => Ok z
  | None => Raise "ValueError"
  end.

(** The [for] loop inside the [try] of [extract_quarter_year], over the
    patterns left. *)
Fixpoint pattern_loop (ps : list pattern) (text : string) : res (Z * Z) :=
  match ps with
  | [] => Ok (1, 2023)
  | p :: ps' =>
      match re_search (compiled p) text with
      | Some m =>
          match groups m with
          | [g0; g1] =>
              if startswith "Q" (source p)
              then res_bind (int g0) (fun q => res_bind (int g1) (fun y => Ok (q, y)))
              else res_bind (int g1) (fun q => res_bind (int g0) (fun y => Ok (q, y)))
          | [g0] => res_bind (int g0) (fun y => Ok (1, y))
          | _ => pattern_loop ps' text
          end
      | None => pattern_loop ps' text
      end
  end.

(** The body of the [try]; [text] is the outcome of [str(purchase_quarter)],
    which is all the body sees of its argument. *)
Definition extract_quarter_year_try (text : res string) : res (Z * Z) :=
  res_bind text (pattern_loop patterns).

(** [try: ... except: return 1, 2023]. *)
Definition extract_quarter_year_of (text : res string) : Z * Z :=
  match extract_quarter_year_try text with
  | Ok r => r
  | Raise _ => (1, 2023)
  end.

Definition extract_quarter_year (purchase_quarter : cell) : Z * Z :=
  extract_quarter_year_of (Ok (py_str purchase_quarter)).

Definition booked_statuses : list string :=
  ["booked"; "confirmed"; "sold"; "yes"; "true"; "1"].

Definition calculate_booking_flag (booking_status : cell) : Z :=
  let status_lower := lower (py_str booking_status) in
  if in_list status_lower booked_statuses then 1 else 0.

Definition categorize_price (ticket_price : pyfloat) : string :=
  if le ticket_price (of_Z 2) then "0-2Cr"
  else if le ticket_price (of_Z 5) then "2-5Cr"
  else if le ticket_price (of_Z 10) then "5-10Cr"
  else if le ticket_price (of_Z 20) then "10-20Cr"
  else "20Cr+".

Definition determine_season (quarter_number : Z) : string :=
  match quarter_number with
  | 1 => "Winter"
  | 2 => "Spring"
  | 3 => "Summer"
  | 4 => "Monsoon"
  | _ => "Winter"
  end.

End HousingDataLoader.

(** ** pandas columns *)

Module Pandas.
Import PyStr Re.

Definition Series := list cell.

(** [s.astype(str)]. *)
Definition astype_str (s : Series) : Series :=
  map (fun v => CStr (py_str v)) s.

(** An elementwise [.str] method: a text cell is transformed, any other cell
    comes out missing. *)
Definition str_map (f : string -> string) (s : Series) : Series :=
  map (fun v => match v with CStr x => CStr (f x) | _ => CFloat NaN end) s.

(** The leading run of digits of a text, and what follows it. *)
Fixpoint span_digits (s : string) : string * string :=
  match s with
  | String c s' =>
      if is_digit c
      then let '(ds, rest) := span_digits s' in (String c ds, rest)
      else (EmptyString, s)
  | EmptyString => (EmptyString, EmptyString)
  end.

(** The number a text denotes for [pd.to_numeric(..., errors='coerce')]: an
    optional sign, digits, an optional point and digits, with a digit
    somewhere and nothing else; [nan] for any other text.  (The exponent
    form and the words [inf] and [nan] need a letter; the source parses
    texts from which it has removed the letters, and runs of digits.) *)
Definition to_double (s : string) : pyfloat :=
  let '(negative, body) :=
    match s with
    | String "-" r => (true, r)
    | String "+" r => (false, r)
    | _ => (false, s)
    end in
  let '(ip, rest) := span_digits body in
  let '(fp, rest') :=
    match rest with
    | String "." r => span_digits r
    | _ => (EmptyString, rest)
    end in
  match rest', ip +:+ fp with
  | EmptyString, String _ _ =>
      let n := digits_value 0 (ip +:+ fp) in
      let d := Z.to_pos (10 ^ Z.of_nat (String.length fp)) in
      Fin (Qred (Qmake (if negative then - n else n) d))
  | _, _ => NaN
  end.

(** [pd.to_numeric(s, errors='coerce')]. *)
Definition to_numeric (s : Series) : Series :=
  map (fun v =>
         match v with
         | CStr x => CFloat (to_double x)
         | CInt z => CFloat (of_Z z)
         | CFloat x => CFloat x
         | CNone => CFloat NaN
         end) s.

(** [s.isnull().sum()]. *)
Definition null_count (s : Series) : nat :=
  length (filter (fun v => isna v = true) s).

(** [s.fillna(value)]. *)
Definition fillna (value : cell) (s : Series) : Series :=
  map (fun v => if isna v then value else v) s.

(** The numbers of a column, the missing ones left out; a text cell makes the
    reduction a [TypeError]. *)
Fixpoint numbers (s : Series) : res (list pyfloat) :=
  match s with
  | [] => Ok []
  | v :: s' =>
      res_bind (numbers s') (fun xs =>
        match v with
        | CStr _ => Raise "TypeError"
        | CInt z => Ok (of_Z z :: xs)
        | CFloat x => Ok (if isnan x then xs else x :: xs)
        | CNone => Ok xs
        end)
  end.

Fixpoint insert_sorted (x : pyfloat) (l : list pyfloat) : list pyfloat :=
  match l with
  | [] => [x]
  | y :: l' => if le x y then x :: l else y :: insert_sorted x l'
  end.

Definition sorted (l : list pyfloat) : list pyfloat :=
  fold_right insert_sorted [] l.

(** The median of the values given: the middle one in sorted order, the mean
    of the two middle ones when their number is even, [nan] when there is
    none. *)
Definition median_of (xs : list pyfloat) : pyfloat :=
  let l := sorted xs in
  let n := length l in
  match n with
  | O => NaN
  | _ =>
      if Nat.even n
      then div (add (nth (n / 2 - 1) l NaN) (nth (n / 2) l NaN)) (of_Z 2)
      else nth (n / 2) l NaN
  end.

(** [s.median()]. *)
Definition median (s : Series) : res pyfloat :=
  res_bind (numbers s) (fun xs => Ok (median_of xs)).

(** Equality and order of cells as sorting and counting see them: numbers by
    value, texts by their characters; a number sorts before a text. *)
Definition number_of (v : cell) : option pyfloat :=
  match v with
  | CInt z => Some (of_Z z)
  | CFloat x => Some x
  | _ => None
  end.

Definition cell_le (a b : cell) : bool :=
  match number_of a, number_of b with
  | Some x, Some y => le x y
  | Some _, None => true
  | None, Some _ => false
  | None, None => String.leb (py_str a) (py_str b)
  end.

Definition cell_eqb (a b : cell) : bool := cell_le a b && cell_le b a.

Definition count_of (v : cell) (s : Series) : nat :=
  length (filter (fun w => cell_eqb v w = true) s).

(** [s.mode()]: the values present most often among those not missing, in
    increasing order. *)
Fixpoint insert_cell (x : cell) (l : list cell) : list cell :=
  match l with
  | [] => [x]
  | y :: l' =>
      if cell_le x y then (if cell_le y x then l else x :: l)
      else y :: insert_cell x l'
  end.

Definition mode (s : Series) : list cell :=
  let present := filter (fun v => isna v = false) s in
  let top := fold_right (fun v m => Nat.max (count_of v present) m) O present in
  fold_right insert_cell []
    (filter (fun v => Nat.eqb (count_of v present) top = true) present).

(** The dtype of a column, read off its cells: [float64] or [int64] when all
    of them are numbers, [object] otherwise; a column with no cell is
    [object], as [read_csv] leaves it. *)
Definition is_number (v : cell) : bool :=
  match v with CInt _ | CFloat _ => true | _ => false end.

Definition numeric_dtype (s : Series) : bool :=
  match s with
  | [] => false
  | _ => forallb is_number s
  end.

End Pandas.

(** ** [housing_data_cleaner.py]: class [HousingDataCleaner] *)

Module HousingDataCleaner.
Import PyStr Re Pandas.

(** A frame: [index] is the number of rows, [len(df)]; a column is its name
    and its cells. *)
Record DataFrame := { index : nat; columns : list (string * Series) }.

Definition len (df : DataFrame) : nat := index df.
Definition shape (df : DataFrame) : nat * nat := (index df, length (columns df)).
Definition column_names (df : DataFrame) : list string := map fst (columns df).

Fixpoint assoc {A} (k : string) (l : list (string * A)) : option A :=
  match l with
  | [] => None
  | (k', v) :: l' => if String.eqb k k' then Some v else assoc k l'
  end.

(** [d[k] = v] on a [dict] kept in insertion order, and [df[k] = v] on the
    columns: an entry that exists keeps its place, a new one goes last. *)
Fixpoint assoc_set {A} (k : string) (v : A) (l : list (string * A)) : list (string * A) :=
  match l with
  | [] => [(k, v)]
  | (k', v') :: l' =>
      if String.eqb k k' then (k, v) :: l' else (k', v') :: assoc_set k v l'
  end.

Inductive status :=
| success
| failed (e : string).

(** The values [cleaning_report] holds: a shape, the record of a step, the
    null counts that validation found. *)
Inductive report_value :=
| Shape (sh : nat * nat)
| Step (rows_affected : Z) (st : status)
| Validation (remaining_nulls : list (string * nat)).

(** The attributes of the object that the cleaning reads or writes. *)
Record self := {
  df : DataFrame;
  column_map : list (string * string);
  cleaning_report : gmap string report_value
}.

(** A method body: from the state of the object to its outcome and the state
    it leaves; what was written before an exception stays written. *)
Definition M (A : Type) : Type := self -> res A * self.

#[global] Instance M_ret : MRet M := fun A a s => (Ok a, s).
#[global] Instance M_bind : MBind M := fun A B k m s =>
  match m s with
  | (Ok a, s') => k a s'
  | (Raise e, s') => (Raise e, s')
  end.

Definition raise {A} (e : string) : M A := fun s => (Raise e, s).
Definition get_df : M DataFrame := fun s => (Ok (df s), s).
Definition put_df (d : DataFrame) : M unit := fun s =>
  (Ok tt, {| df := d; column_map := column_map s; cleaning_report := cleaning_report s |}).
Definition report_set (k : string) (v : report_value) : M unit := fun s =>
  (Ok tt, {| df := df s; column_map := column_map s;
             cleaning_report := <[k := v]> (cleaning_report s) |}).
(** [self.cleaning_report[k]]. *)
Definition report_get (k : string) : M report_value := fun s =>
  match cleaning_report s !! k with
  | Some v => (Ok v, s)
  | None => (Raise "KeyError", s)
  end.

Fixpoint for_each {A} (l : list A) (body : A -> M unit) : M unit :=
  match l with
  | [] => mret tt
  | a :: l' => body a ;; for_each l' body
  end.

(** [self.df[name]]. *)
Definition df_get (name : string) : M Series :=
  d ← get_df;
  match assoc name (columns d) with
  | Some s => mret s
  | None => raise "KeyError"
  end.

(** [self.df[name] = s] for a column [s] computed from columns of the frame. *)
Definition df_set (name : string) (s : Series) : M unit :=
  d ← get_df;
  put_df {| index := index d; columns := assoc_set name s (columns d) |}.

(** [self.df[name] = v] for a scalar [v]: one copy for each row. *)
Definition df_set_scalar (name : string) (v : cell) : M unit :=
  d ← get_df;
  df_set name (repeat v (index d)).

(** [name in self.df.columns]. *)
Definition has_column (name : string) : M bool :=
  d ← get_df;
  mret (in_list name (column_names d)).

(** The alias table of [_identify_columns]. *)
Definition column_mapping : list (string * list string) :=
  [ ("price", ["Ticket_Price_Cr"; "Price"; "price"; "ticket_price"; "Price_Cr"]);
    ("amenity", ["Amenity_Score"; "Amenity"; "amenity_score"; "AmenityScore"]);
    ("configuration", ["Configuration"; "configuration"; "config"; "BHK"]);
    ("micro_market", ["Micro_Market"; "micro_market"; "Location"; "Area"; "Market"]);
    ("builder", ["Builder"; "builder"; "Developer"; "developer"]);
    ("booking_status", ["Booking_Status"; "booking_status"; "Status"; "status"; "Booking"]);
    ("purchase_quarter", ["Purchase_Quarter"; "purchase_quarter"; "Quarter"; "quarter"; "Time_Period"]) ].

(** [self.column_map] as [_identify_columns] builds it from the columns of
    the frame. *)
Definition _identify_columns (d : DataFrame) : list (string * string) :=
  fold_left
    (fun column_map '(standard_name, possible_names) =>
       match find (fun possible_name => in_list possible_name (column_names d))
                  possible_names with
       | Some possible_name => assoc_set standard_name possible_name column_map
       | None => column_map
       end)
    column_mapping [].

Definition get_column_map : M (list (string * string)) := fun s =>
  (Ok (column_map s), s).

(** [self.get_column(standard_name)]: [self.column_map.get(standard_name)]. *)
Definition get_column (standard_name : string) : M (option string) := fun s =>
  (Ok (assoc standard_name (column_map s)), s).

(** A name that passes [if name:]. *)
Definition truthy (name : option string) : option string :=
  match name with
  | Some EmptyString | None => None
  | Some n => Some n
  end.

Definition lits (s : string) : regex :=
  map (fun c => P (One (lit c))) (list_ascii_of_string s).

(** The rupee sign, U+20B9, in UTF-8. *)
Definition rupee : string :=
  String (ascii_of_N 226) (String (ascii_of_N 130) (String (ascii_of_N 185) EmptyString)).

(** [price_cleaning_patterns]; every replacement is the empty text.  The two
    unit patterns carry [re.IGNORECASE]. *)
Definition price_cleaning_patterns : list (list regex) :=
  [ [lits rupee; [P (One (set_of "$,"))]];                          (* [₹$,]    *)
    [[P (One (ilit "c")); P (One (ilit "r")); P (Opt (lit "."))]];  (* cr\.?    *)
    [[P (One (ilit "l")); P (One (ilit "a")); P (One (ilit "c")); P (Opt (lit "."))]];
                                                                    (* lac\.?   *)
    [[P (Plus is_space)]];                                          (* \s+      *)
    [[P (One is_alpha)]] ].                                         (* [a-zA-Z] *)

Definition clean_price_column : M unit :=
  price_col ← get_column "price";
  match truthy price_col with
  | None => mret tt
  | Some price_col =>
      original_prices ← df_get price_col;
      s ← df_get price_col;
      df_set price_col (astype_str s);;
      for_each price_cleaning_patterns (fun pattern =>
        s ← df_get price_col;
        df_set price_col (str_map (re_sub pattern (fun _ => EmptyString)) s));;
      s ← df_get price_col;
      df_set price_col (to_numeric s);;
      s ← df_get price_col;
      match median s with
      | Raise e => raise e
      | Ok price_median =>
          s ← df_get price_col;
          df_set price_col (fillna (CFloat price_median) s);;
          if String.eqb price_col "Ticket_Price_Cr" then mret tt
          else
            s ← df_get price_col;
            df_set "Ticket_Price_Cr" s;;
            df_set ("original_" +:+ price_col) original_prices
      end
  end.

(** The fill of one mapped column in [handle_missing_values]. *)
Definition fill_mapped (standard_name actual_name : string) : M unit :=
  present ← has_column actual_name;
  if negb present then mret tt
  else
    s ← df_get actual_name;
    if (null_count s =? 0)%nat then mret tt
    else if in_list standard_name ["price"; "amenity"] then
      match median s with
      | Raise e => raise e
      | Ok median_val => df_set actual_name (fillna (CFloat median_val) s)
      end
    else if String.eqb standard_name "booking_status" then
      df_set actual_name (fillna (CStr "Not Booked") s)
    else
      match mode s with
      | mode_val :: _ => df_set actual_name (fillna mode_val s)
      | [] => df_set actual_name (fillna (CStr "Unknown") s)
      end.

(** The fill of one column outside the mapping. *)
Definition fill_other (col : string) : M unit :=
  s ← df_get col;
  if (null_count s =? 0)%nat then mret tt
  else if numeric_dtype s then
    match median s with
    | Raise e => raise e
    | Ok median_val => df_set col (fillna (CFloat median_val) s)
    end
  else df_set col (fillna (CStr "Unknown") s).

Definition handle_missing_values : M unit :=
  column_map ← get_column_map;
  for_each column_map (fun '(standard_name, actual_name) =>
    fill_mapped standard_name actual_name);;
  d ← get_df;
  for_each (column_names d) (fun col =>
    if in_list col (map snd column_map) then mret tt
    else fill_other col).

(** [(\d)\s*BHK], replaced by [\1BHK]. *)
Definition bhk_pattern : regex :=
  [Grp [One is_digit]; P (Star is_space);
   P (One (lit "B")); P (One (lit "H")); P (One (lit "K"))].

Definition bhk_replacement (groups : list string) : string :=
  String.concat EmptyString (take 1 groups) +:+ "BHK".

Definition normalize_text_fields : M unit :=
  let text_columns := ["configuration"; "micro_market"; "builder"; "booking_status"] in
  for_each text_columns (fun std_name =>
    actual_name ← get_column std_name;
    match truthy actual_name with
    | None => mret tt
    | Some actual_name =>
        present ← has_column actual_name;
        if negb present then mret tt
        else
          s ← df_get actual_name;
          df_set actual_name (str_map strip (str_map title (astype_str s)));;
          if String.eqb std_name "configuration" then
            s ← df_get actual_name;
            df_set actual_name (str_map upper s);;
            s ← df_get actual_name;
            df_set actual_name (str_map (re_sub [bhk_pattern] bhk_replacement) s)
          else mret tt
    end).

(** The column a name stands for when it passes [if name and name in
    self.df.columns]. *)
Definition usable (name : option string) : M (option string) :=
  match truthy name with
  | None => mret None
  | Some n => present ← has_column n; mret (if (present : bool) then Some n else None)
  end.

(** The [lambda] behind [Booking_Flag]. *)
Definition booking_flag (x : cell) : cell :=
  if in_list (lower (py_str x)) ["booked"; "confirmed"; "sold"; "yes"]
  then CInt 1 else CInt 0.

(** [area_map] of [create_new_features]. *)
Definition area_map : list (string * Z) :=
  [ ("1BHK", 650); ("2BHK", 950); ("3BHK", 1250); ("4BHK", 1600);
    ("5BHK", 2100); ("STUDIO", 400); ("1RK", 350); ("2BHK+STUDY", 1100);
    ("3BHK+STUDY", 1400); ("4BHK+STUDY", 1800); ("UNKNOWN", 1000) ].

(** [s.map(d)] for a [dict] keyed by text: the value under a cell that is a
    key, missing for any other cell. *)
Definition map_dict {A} (d : list (string * A)) (inj : A -> cell) (s : Series) : Series :=
  map (fun v =>
         match v with
         | CStr k => match assoc k d with Some a => inj a | None => CFloat NaN end
         | _ => CFloat NaN
         end) s.

Definition as_float (v : cell) : res pyfloat :=
  match v with
  | CInt z => Ok (of_Z z)
  | CFloat x => Ok x
  | _ => Raise "TypeError"
  end.

(** [(price * 10000000) / area], cell by cell. *)
Fixpoint price_per_sqft (price area : Series) : res Series :=
  match price, area with
  | p :: price', a :: area' =>
      res_bind (as_float p) (fun x =>
      res_bind (as_float a) (fun y =>
      res_bind (price_per_sqft price' area') (fun rest =>
      Ok (CFloat (div (mul x (of_Z 10000000)) y) :: rest))))
  | _, _ => Ok []
  end.

(** [Q(\d)[_\-]?(\d{4})] and [(\d{4})]. *)
Definition quarter_year_pattern : regex :=
  [P (One (lit "Q")); Grp [One is_digit]; P (Opt (set_of "_-")); Grp d4].
Definition alternative_pattern : regex := [Grp d4].

(** The accessor [.str] exists on [object] columns only. *)
Definition str_accessor (s : Series) : res Series :=
  if numeric_dtype s then Raise "AttributeError" else Ok s.

(** Column [i] of [s.str.extract(r)]: group [i] of the first match in a text
    cell, missing where there is no match or no text. *)
Definition str_extract (r : regex) (i : nat) (s : Series) : Series :=
  map (fun v =>
         match v with
         | CStr x =>
             match re_search r x with
             | Some m => match groups m !! i with Some g => CStr g | None => CFloat NaN end
             | None => CFloat NaN
             end
         | _ => CFloat NaN
         end) s.

(** [pd.cut(s, bins=[0, 2, 5, 10, 20, inf], labels=..., right=False)] on one
    value: the half-open bin [lo <= x < hi] it falls in, missing outside. *)
Definition price_bins : list (pyfloat * pyfloat * string) :=
  [ (of_Z 0, of_Z 2, "0-2Cr"); (of_Z 2, of_Z 5, "2-5Cr"); (of_Z 5, of_Z 10, "5-10Cr");
    (of_Z 10, of_Z 20, "10-20Cr"); (of_Z 20, PInf, "20Cr+") ].

Fixpoint cut_value (bins : list (pyfloat * pyfloat * string)) (x : pyfloat) : cell :=
  match bins with
  | [] => CFloat NaN
  | (lo, hi, label) :: bins' =>
      if le lo x && lt x hi then CStr label else cut_value bins' x
  end.

Fixpoint cut (s : Series) : res Series :=
  match s with
  | [] => Ok []
  | v :: s' =>
      res_bind (as_float v) (fun x =>
      res_bind (cut s') (fun rest => Ok (cut_value price_bins x :: rest)))
  end.

(** [s.map(season_map)] on one value. *)
Definition season_of (v : cell) : cell :=
  match number_of v with
  | Some (Fin q) =>
      if Qeq_bool q 1 then CStr "Winter"
      else if Qeq_bool q 2 then CStr "Spring"
      else if Qeq_bool q 3 then CStr "Summer"
      else if Qeq_bool q 4 then CStr "Monsoon"
      else CFloat NaN
  | _ => CFloat NaN
  end.

Definition lift {A} (r : res A) : M A :=
  match r with
  | Ok a => mret a
  | Raise e => raise e
  end.

Definition create_new_features : M unit :=
  (* 1. Booking_Flag *)
  booking_col ← get_column "booking_status" ≫= usable;
  match booking_col with
  | Some booking_col =>
      s ← df_get booking_col;
      df_set "Booking_Flag" (map booking_flag s)
  | None => df_set_scalar "Booking_Flag" (CInt 0)
  end;;
  (* 2. Carpet_Area_Sqft *)
  has_area ← has_column "Carpet_Area_Sqft";
  (if (has_area : bool) then mret tt
   else
     config_col ← get_column "configuration" ≫= usable;
     match config_col with
     | Some config_col =>
         s ← df_get config_col;
         df_set "Carpet_Area_Sqft"
           (fillna (CInt 1000) (map_dict area_map (fun a => CFloat (of_Z a)) s))
     | None => df_set_scalar "Carpet_Area_Sqft" (CInt 1000)
     end);;
  (* 3. Price_per_Sqft *)
  has_price ← has_column "Ticket_Price_Cr";
  has_area ← has_column "Carpet_Area_Sqft";
  (if has_price && has_area then
     price ← df_get "Ticket_Price_Cr";
     area ← df_get "Carpet_Area_Sqft";
     r ← lift (price_per_sqft price area);
     df_set "Price_per_Sqft" r
   else mret tt);;
  (* 4. Quarter_Number and Year *)
  quarter_col ← get_column "purchase_quarter" ≫= usable;
  match quarter_col with
  | Some quarter_col =>
      s ← df_get quarter_col;
      s ← lift (str_accessor s);
      match s with
      | _ :: _ =>
          df_set "Quarter_Number"
            (fillna (CInt 1) (to_numeric (str_extract quarter_year_pattern 0 s)));;
          df_set "Year"
            (fillna (CInt 2023) (to_numeric (str_extract quarter_year_pattern 1 s)))
      | [] =>
          (* [extracted.empty]: the alternative is tried on a column with no
             row, where [year_extracted.empty] holds as well *)
          s ← df_get quarter_col;
          s ← lift (str_accessor s);
          match str_extract alternative_pattern 0 s with
          | _ :: _ as year_extracted =>
              df_set "Year" (fillna (CInt 2023) (to_numeric year_extracted));;
              df_set_scalar "Quarter_Number" (CInt 1)
          | [] => mret tt
          end
      end
  | None =>
      df_set_scalar "Quarter_Number" (CInt 1);;
      df_set_scalar "Year" (CInt 2023)
  end;;
  (* 5. Price_Category *)
  has_price ← has_column "Ticket_Price_Cr";
  (if (has_price : bool) then
     price ← df_get "Ticket_Price_Cr";
     r ← lift (cut price);
     df_set "Price_Category" r
   else mret tt);;
  (* 6. Season *)
  has_quarter ← has_column "Quarter_Number";
  (if (has_quarter : bool) then
     s ← df_get "Quarter_Number";
     df_set "Season" (fillna (CStr "Winter") (map season_of s))
   else mret tt).

(** [validate_data]: it leaves the frame alone, files the null counts under
    ['validation'], and then prints the two shapes from the report. *)
Definition validate_data : M unit :=
  d ← get_df;
  let null_counts := map (fun '(name, s) => (name, null_count s)) (columns d) in
  let remaining_nulls := filter (fun c => (0 < snd c)%nat) null_counts in
  report_set "validation" (Validation remaining_nulls);;
  _ ← report_get "initial_shape";
  _ ← report_get "final_shape";
  mret tt.

Definition cleaning_steps : list (string * M unit) :=
  [ ("price_cleaning", clean_price_column);
    ("missing_values", handle_missing_values);
    ("text_normalization", normalize_text_fields);
    ("feature_engineering", create_new_features);
    ("data_validation", validate_data) ].

(** One turn of the loop of [clean_data]: [try] the step and file its record;
    [except Exception] files the failure and goes on. *)
Definition run_step (step : string * M unit) : M unit := fun st =>
  let '(step_name, step_func) := step in
  let initial_rows := len (df st) in
  match step_func st with
  | (Ok _, st') =>
      let rows_affected := Z.of_nat initial_rows - Z.of_nat (len (df st')) in
      report_set step_name (Step rows_affected success) st'
  | (Raise e, st') => report_set step_name (Step 0 (failed e)) st'
  end.

Definition clean_data : M unit :=
  d ← get_df;
  report_set "initial_shape" (Shape (shape d));;
  for_each cleaning_steps run_step;;
  d ← get_df;
  report_set "final_shape" (Shape (shape d)).

(** The object as [__init__] has it when it calls [clean_data]: the frame
    read from the file, its column map, an empty report. *)
Definition loaded (d : DataFrame) : self :=
  {| df := d; column_map := _identify_columns d; cleaning_report := ∅ |}.

End HousingDataCleaner.

(** ** Vocabulary of the statements *)

Module Vocabulary.
Import PyStr Re Pandas.

(** Four decimal digits, and the optional separator of the quarter
    patterns. *)
Definition four_digits (y : string) : Prop :=
  exists y0 y1 y2 y3,
    y = String y0 (String y1 (String y2 (String y3 EmptyString))) /\
    is_digit y0 = true /\ is_digit y1 = true /\
    is_digit y2 = true /\ is_digit y3 = true.

Definition separator (sep : string) : Prop :=
  sep = "" \/ sep = "_" \/ sep = "-".

(** Somewhere in [text]: [Q], the digit [q], an optional separator, the four
    digits [y]. *)
Definition quarter_year_at (text : string) (q : ascii) (y : string) : Prop :=
  exists pre sep post,
    text = pre +:+ String "Q" (String q (sep +:+ y +:+ post)) /\
    is_digit q = true /\ separator sep /\ four_digits y.

(** Somewhere in [text]: the four digits [y], an optional separator, [Q],
    the digit [q]. *)
Definition year_quarter_at (text : string) (q : ascii) (y : string) : Prop :=
  exists pre sep post,
    text = pre +:+ y +:+ sep +:+ String "Q" (String q post) /\
    is_digit q = true /\ separator sep /\ four_digits y.

(** Somewhere in [text]: the four digits [y]. *)
Definition year_at (text : string) (y : string) : Prop :=
  exists pre post, text = pre +:+ y +:+ post /\ four_digits y.

(** The three patterns of [extract_quarter_year] by name. *)
Definition pat_QY : regex :=
  [P (One (lit "Q")); Grp [One is_digit]; P (Opt (set_of "_-")); Grp d4].
Definition pat_YQ : regex :=
  [Grp d4; P (Opt (set_of "_-")); P (One (lit "Q")); Grp [One is_digit]].
Definition pat_Y : regex := [Grp d4].

(** The bins of the price category as the specification words them: closed
    on the left, open on the right. *)
Definition right_open_category (x : Q) : option string :=
  if Qle_bool 0 x && negb (Qle_bool 2 x) then Some "0-2Cr"
  else if Qle_bool 2 x && negb (Qle_bool 5 x) then Some "2-5Cr"
  else if Qle_bool 5 x && negb (Qle_bool 10 x) then Some "5-10Cr"
  else if Qle_bool 10 x && negb (Qle_bool 20 x) then Some "10-20Cr"
  else if Qle_bool 20 x then Some "20Cr+"
  else None.

(** A value that is present in the sense of the field-access helper of the
    specification: not null, not NaN and not empty. *)
Definition present_nonempty (v : cell) : bool :=
  negb (isna v) && match v with CStr EmptyString => false | _ => true end.

Import HousingDataCleaner.

(** Every column of a frame holds one cell for each row. *)
Definition well_shaped (d : DataFrame) : Prop :=
  Forall (fun c => length (snd c) = index d) (columns d).

(** [m] keeps the shape of a frame of [n] rows, whichever way it ends, and a
    value it returns satisfies [post]. *)
Definition keeps (n : nat) {A} (m : M A) (post : A -> Prop) : Prop :=
  forall st, index (df st) = n -> well_shaped (df st) ->
    index (df (snd (m st))) = n /\ well_shaped (df (snd (m st))) /\
    match fst (m st) with Ok a => post a | Raise _ => True end.

(** The frames the loop of [clean_data] leaves, one after each step. *)
Fixpoint frames_after (steps : list (string * M unit)) (st : self) : list DataFrame :=
  match steps with
  | [] => []
  | step :: steps' =>
      let st' := snd (run_step step st) in
      df st' :: frames_after steps' st'
  end.

(** The price texts after the five replacements, and the number each cell of
    the price column is parsed to. *)
Definition price_text (t : string) : string :=
  fold_left (fun acc pattern => re_sub pattern (fun _ => EmptyString) acc)
            price_cleaning_patterns t.

Definition parse_price (v : cell) : pyfloat :=
  to_double (price_text (py_str v)).

(** The values of a column that parsed. *)
Definition parsed_values (s : Series) : list pyfloat :=
  filter (fun x => isnan x = false) (map parse_price s).

(** The price column as the price stage leaves it: each cell parsed, and the
    median of the parsed values where the parse failed. *)
Definition cleaned_prices (s : Series) : Series :=
  map (fun v =>
         let x := parse_price v in
         CFloat (if isnan x then median_of (parsed_values s) else x)) s.

(** The columns of the frame once the price stage has stored its results
    for the price column [price_col], whose cells were [s]. *)
Definition price_columns (price_col : string) (s : Series)
    (cols : list (string * Series)) : list (string * Series) :=
  let cols' := assoc_set price_col (cleaned_prices s) cols in
  if String.eqb price_col "Ticket_Price_Cr" then cols'
  else assoc_set ("original_" +:+ price_col) s
         (assoc_set "Ticket_Price_Cr" (cleaned_prices s) cols').

(** The object with the columns of its frame replaced. *)
Definition with_columns (st : self) (cols : list (string * Series)) : self :=
  {| df := {| index := index (df st); columns := cols |};
     column_map := column_map st;
     cleaning_report := cleaning_report st |}.

(** The object as the loop of [clean_data] finds it, and as the loop leaves
    it after the steps given. *)
Definition started (st : self) : self :=
  snd (report_set "initial_shape" (Shape (shape (df st))) st).

Fixpoint run_steps (steps : list (string * M unit)) (st : self) : self :=
  match steps with
  | [] => st
  | step :: steps' => run_steps steps' (snd (run_step step st))
  end.

End Vocabulary.

(** ** The median, as the specification means it *)

Module MedianSpec.

(** [m] is the median of the numbers [xs]: arrange them in increasing
    order; [m] is the one in the middle when their number is odd, the mean
    of the two in the middle when it is even, and there is none (NaN) when
    there is no number. *)
Definition is_median (xs : list pyfloat) (m : pyfloat) : Prop :=
  exists l : list pyfloat,
    Permutation l xs /\
    StronglySorted (fun a b => le a b = true) l /\
    ((l = [] /\ m = NaN) \/
     (exists k, length l = (2 * k + 1)%nat /\ nth_error l k = Some m) \/
     (exists k a b, length l = (2 * k + 2)%nat /\
        nth_error l k = Some a /\ nth_error l (k + 1) = Some b /\
        m = div (add a b) (of_Z 2))).

End MedianSpec.

(** ** Frames used as concrete inputs *)

Module Examples.
Import HousingDataCleaner.

(** A file with a configuration that has a study, one that has none, and
    one the table does not know. *)
Definition study_frame : DataFrame :=
  {| index := 3;
     columns := [("Configuration", [CStr "2BHK+Study"; CStr "3BHK"; CStr "Penthouse"])] |}.

(** A file whose status column holds the texts [1], [true] and [BOOKED]. *)
Definition status_frame : DataFrame :=
  {| index := 3;
     columns := [("Status", [CStr "1"; CStr "true"; CStr "BOOKED"])] |}.

(** A file whose quarter column writes the year first. *)
Definition quarter_frame : DataFrame :=
  {| index := 2;
     columns := [("Quarter", [CStr "2023-Q3"; CStr "Q1_2023"])] |}.

(** A file that brings its own area column, with a zero in it. *)
Definition zero_area_frame : DataFrame :=
  {| index := 2;
     columns := [("Ticket_Price_Cr", [CFloat (Fin (5 # 2)); CFloat (Fin 3)]);
                 ("Carpet_Area_Sqft", [CInt 0; CInt 1000])] |}.

(** A file none of whose prices is a number. *)
Definition unparseable_frame : DataFrame :=
  {| index := 2;
     columns := [("Price", [CStr "bad"; CStr "on request"]);
                 ("Configuration", [CStr "2BHK"; CStr "3BHK"])] |}.

(** The price column [1, 3, null, 5]. *)
Definition median_frame : DataFrame :=
  {| index := 4;
     columns := [("Price", [CFloat (Fin 1); CFloat (Fin 3); CFloat NaN; CFloat (Fin 5)])] |}.

Definition column_after_cleaning (d : DataFrame) (name : string) : option Pandas.Series :=
  assoc name (columns (df (snd (clean_data (loaded d))))).

End Examples.

(** ** [data_loader.py], continued: what is returned about the columns, the
    fields derived for a row, the side payload *)

Module LoaderRows.
Import PyStr HousingDataLoader.

(** One turn of the loop of [analyze_data_structure], with both things the
    loop builds: the column map and the list of standard names that found no
    column. *)
Definition mapping_step (columns : list string)
    (acc : gmap string string * list string) (entry : string * list string)
    : gmap string string * list string :=
  let '(column_map, missing_columns) := acc in
  let '(standard_name, possible_names) := entry in
  match find (fun possible_name => in_list possible_name columns) possible_names with
  | Some possible_name => (<[standard_name := possible_name]> column_map, missing_columns)
  | None => (column_map, missing_columns ++ [standard_name])
  end.

Definition mapping_loop (columns : list string) : gmap string string * list string :=
  fold_left (mapping_step columns) column_mapping (∅, []).

(** The dictionary [analyze_data_structure] returns; its two sets are sets,
    without an order. *)
Record structure_info := {
  available_columns : gset string;
  mapped_columns : gmap string string;
  missing_columns : list string;
  unmapped_columns : gset string
}.

Definition structure_info_of (columns : list string) : structure_info :=
  let available : gset string := list_to_set columns in
  let '(column_map, missing) := mapping_loop columns in
  {| available_columns := available;
     mapped_columns := column_map;
     missing_columns := missing;
     unmapped_columns := available ∖ map_img column_map |}.

(** The dictionary [additional_data] that [prepare_additional_data] builds
    before it hands it to [json.dumps].  [column_map] is [None] on an object
    on which [analyze_data_structure] has not run, where [hasattr] fails. *)
Definition additional_data (column_map : option (gmap string string))
    (row : gmap string cell) : gmap string string :=
  match column_map with
  | None => ∅
  | Some column_map =>
      let mapped_columns : gset string := map_img column_map in
      let unmapped_columns : gset string := dom row ∖ mapped_columns in
      set_fold
        (fun col additional_data =>
           match row !! col with
           | Some value =>
               if isna value then additional_data
               else <[col := py_str value]> additional_data
           | None => additional_data
           end)
        ∅ unmapped_columns
  end.

(** The fields [insert_data] derives for a row. *)
Record features := {
  carpet_area : Z;
  price_per_sqft : pyfloat;
  quarter_number : Z;
  year : Z;
  booking_flag : Z;
  price_category : string;
  season : string
}.

(** A value in arithmetic and in a comparison with a number: a text is a
    [TypeError]. *)
Definition number (v : cell) : res pyfloat :=
  match v with
  | CInt z => Ok (of_Z z)
  | CFloat x => Ok x
  | _ => Raise "TypeError"
  end.

(** The block "Calculate derived fields" of the loop of [insert_data], with
    the values it reads from the row. *)
Definition derived_fields (column_map : gmap string string)
    (row : gmap string cell) : res features :=
  let ticket_price := get_column_value column_map row "price" (CFloat (Fin 0)) in
  let configuration := get_column_value column_map row "configuration" (CStr "UNKNOWN") in
  let booking_status := get_column_value column_map row "booking_status" (CStr "Not Booked") in
  let purchase_quarter := get_column_value column_map row "purchase_quarter" (CStr "Q1_2023") in
  let carpet_area := calculate_carpet_area configuration in
  res_bind (number ticket_price) (fun price =>
    let price_per_sqft := calculate_price_per_sqft price carpet_area in
    let '(quarter_number, year) := extract_quarter_year purchase_quarter in
    let booking_flag := calculate_booking_flag booking_status in
    let price_category := categorize_price price in
    let season := determine_season quarter_number in
    Ok {| carpet_area := carpet_area;
          price_per_sqft := price_per_sqft;
          quarter_number := quarter_number;
          year := year;
          booking_flag := booking_flag;
          price_category := price_category;
          season := season |}).

End LoaderRows.

(** ** What the stages of the cleaner leave behind *)

Module StageEffects.
Import PyStr Re Pandas HousingDataCleaner Vocabulary.

(** A number that is neither missing nor infinite. *)
Definition finite (x : pyfloat) : Prop := exists q, x = Fin q.

(** A number within the range of binary64, where the exact numbers used here
    and the numbers of pandas agree on which texts parse. *)
Definition in_range (x : pyfloat) : bool :=
  le (of_Z (- 10 ^ 308)) x && le x (of_Z (10 ^ 308)).

(** A cell that holds a positive whole number. *)
Definition positive_cell (c : cell) : Prop := exists z, 0 < z /\ as_float c = Ok (of_Z z).

(** A column all of whose cells are texts. *)
Definition all_text (s : Series) : Prop := Forall (fun c => exists t, c = CStr t) s.

(** A method body that leaves the report and the column map as they were. *)
Definition quiet {A} (m : M A) : Prop :=
  forall st, cleaning_report (snd (m st)) = cleaning_report st /\
             column_map (snd (m st)) = column_map st.

(** A method body that leaves the column [name] as it was, whichever way it
    ends. *)
Definition keeps_column (name : string) {A} (m : M A) : Prop :=
  forall st, assoc name (columns (df (snd (m st)))) = assoc name (columns (df st)).

(** Whether a match of [r] can start with the character [a], as far as the
    first piece of [r] tells. *)
Definition may_start (r : regex) (a : ascii) : bool :=
  match r with
  | P (One c) :: _ | P (Plus c) :: _ => c a
  | _ => true
  end.

(** A character of a plain numeral: a digit, a point or a sign. *)
Definition plain (a : ascii) : bool := is_digit a || set_of ".-+" a.

(** A column that needs no fill, or has no median to be filled with. *)
Definition settled (s : Series) : Prop := null_count s = 0%nat \/ median s = Ok NaN.

Definition settled_at (st : self) (name : string) : Prop :=
  forall s, assoc name (columns (df st)) = Some s -> settled s.

(** The outcome of a fill of the column [col] that returns: the frame keeps
    its column names, the column is settled, and so is every column that
    was. *)
Definition fill_outcome (col : string) (st st' : self) : Prop :=
  column_map st' = column_map st /\
  column_names (df st') = column_names (df st) /\
  settled_at st' col /\
  (forall name, settled_at st name -> settled_at st' name).

(** A text column as [normalize_text_fields] leaves it. *)
Definition normalized (std_name : string) (s : Series) : Series :=
  let s1 := str_map strip (str_map title (astype_str s)) in
  if String.eqb std_name "configuration"
  then str_map (re_sub [bhk_pattern] bhk_replacement) (str_map upper s1)
  else s1.

(** The object after the turn of the loop of [normalize_text_fields] for one
    standard name. *)
Definition normalize_one (st : self) (std_name : string) : self :=
  match truthy (assoc std_name (column_map st)) with
  | Some actual_name =>
      match assoc actual_name (columns (df st)) with
      | Some s =>
          with_columns st (assoc_set actual_name (normalized std_name s) (columns (df st)))
      | None => st
      end
  | None => st
  end.

Definition text_columns : list string :=
  ["configuration"; "micro_market"; "builder"; "booking_status"].

(** The column a name stands for when it passes [if name and name in
    self.df.columns], as a function of the object. *)
Definition usable_in (st : self) (name : option string) : option string :=
  match truthy name with
  | Some n => if in_list n (column_names (df st)) then Some n else None
  | None => None
  end.

(** The column [Booking_Flag] that [create_new_features] stores. *)
Definition booking_flags (st : self) : Series :=
  match usable_in st (assoc "booking_status" (column_map st)) with
  | Some booking_col =>
      match assoc booking_col (columns (df st)) with
      | Some s => map booking_flag s
      | None => []
      end
  | None => repeat (CInt 0) (index (df st))
  end.

(** The column [Carpet_Area_Sqft] that [create_new_features] stores when the
    frame has none. *)
Definition carpet_areas (st : self) : Series :=
  match usable_in st (assoc "configuration" (column_map st)) with
  | Some config_col =>
      match assoc config_col (columns (df st)) with
      | Some s => fillna (CInt 1000) (map_dict area_map (fun a => CFloat (of_Z a)) s)
      | None => []
      end
  | None => repeat (CInt 1000) (index (df st))
  end.

End StageEffects.

(** ** The embedding on sample values *)

Module Samples.
Import PyStr Re Pandas Vocabulary HousingDataCleaner.

Example search_takes_leftmost :
  option_map groups (re_search pat_QY "sold Q4-2021, resold Q1_2023") = Some ["4"; "2021"].
Proof. reflexivity. Qed.

Example sub_removes_every_match :
  re_sub [[P (Plus is_space)]] (fun _ => EmptyString) "  1 250  000 " = "1250000".
Proof. reflexivity. Qed.

Example bhk_is_joined :
  re_sub [bhk_pattern] bhk_replacement "2   BHK + 3 BHK" = "2BHK + 3BHK".
Proof. reflexivity. Qed.

Example title_then_strip : strip (title "  north bangalore-east ") = "North Bangalore-East".
Proof. reflexivity. Qed.

Example floats_print :
  map str_float [Fin 1; Fin (5 # 2); Fin (1 # 100000); Fin 10000000000000000; NaN]
  = ["1.0"; "2.5"; "1e-05"; "1e+16"; "nan"].
Proof. vm_compute. reflexivity. Qed.

Example texts_parse :
  map to_double ["2.5"; "-1"; ".5"; "5."; "."; ""; "1.2.3"]
  = [Fin (5 # 2); Fin (-1); Fin (1 # 2); Fin 5; NaN; NaN; NaN].
Proof. vm_compute. reflexivity. Qed.

Example prices_parse :
  map parse_price
    [CStr (rupee +:+ "2.5 Cr"); CStr "$1,250.75"; CStr "3 cr."; CStr "45 Lac";
     CStr "bad"; CFloat (Fin 3); CInt 12; CFloat NaN]
  = [Fin (5 # 2); Fin (5003 # 4); Fin 3; Fin 45; NaN; Fin 3; Fin 12; NaN].
Proof. vm_compute. reflexivity. Qed.

Example median_of_four :
  median [CFloat (Fin 1); CFloat (Fin 4); CFloat NaN; CInt 2; CFloat (Fin 3)] = Ok (Fin (5 # 2)).
Proof. vm_compute. reflexivity. Qed.

Example mode_breaks_ties_by_order :
  mode [CStr "b"; CStr "a"; CFloat NaN; CStr "b"; CStr "a"; CStr "c"] = [CStr "a"; CStr "b"].
Proof. vm_compute. reflexivity. Qed.

Example column_map_of_a_file :
  _identify_columns
    {| index := 0;
       columns := [("price", []); ("Price", []); ("Status", []); ("Notes", [])] |}
  = [("price", "Price"); ("booking_status", "Status")].
Proof. reflexivity. Qed.

(** Validation reads ['final_shape'] from the report before [clean_data]
    has written it. *)
Example validation_step_fails :
  cleaning_report (snd (clean_data (loaded Examples.median_frame))) !! "data_validation"
  = Some (Step 0 (failed "KeyError")).
Proof. vm_compute. reflexivity. Qed.

End Samples.

(** ** Facts about text and matching *)

Module TextFacts.
Import PyStr.

Lemma app_nil s : "" +:+ s = s.
Proof. reflexivity. Qed.

Lemma app_cons c s t : String c s +:+ t = String c (s +:+ t).
Proof. reflexivity. Qed.

Lemma app_assoc s t u : (s +:+ t) +:+ u = s +:+ t +:+ u.
Proof. induction s as [|c s IH]; [reflexivity|]. rewrite !app_cons. now f_equal. Qed.

Lemma startswith_app p q s :
  startswith (p +:+ q) s = true -> startswith p s = true.
Proof.
  unfold startswith. revert s.
  induction p as [|a p IH]; intros s H.
  - destruct s; reflexivity.
  - destruct s as [|b s]; simpl in *; [discriminate|].
    destruct (ascii_dec a b); [auto|discriminate].
Qed.

(** A text that holds [p] followed by [q] holds [p]. *)
Lemma contains_app p q s :
  contains (p +:+ q) s = true -> contains p s = true.
Proof.
  induction s as [|b s IH]; cbn [contains]; intros H.
  - apply orb_true_iff in H as [H|H]; [|discriminate].
    apply startswith_app in H. now rewrite H.
  - apply orb_true_iff in H as [H|H].
    + apply startswith_app in H. now rewrite H.
    + rewrite (IH H). apply orb_true_r.
Qed.

Lemma py_int_digit q :
  is_digit q = true -> py_int (String q EmptyString) = Some (digit_value q).
Proof.
  intros H. unfold py_int, all_chars. cbn [list_ascii_of_string forallb].
  rewrite H. cbn [andb digits_value]. f_equal; lia.
Qed.

End TextFacts.

Ltac sapp := rewrite ?TextFacts.app_cons, ?TextFacts.app_nil in *.

Module ReFacts.
Import PyStr Re Vocabulary TextFacts.

Lemma took_some x o l rest :
  took x o = Some (l, rest) -> exists l', o = Some (l', rest) /\ l = x :: l'.
Proof.
  destruct o as [[l' r]|]; simpl; intros H; inversion H; subst. eauto.
Qed.

(** What a match of [c] followed by [ps] looks like. *)
Lemma one_inv c ps s l rest :
  match_pieces (One c :: ps) s = Some (l, rest) ->
  exists a s' l', s = String a s' /\ c a = true /\
    match_pieces ps s' = Some (l', rest) /\ l = String a EmptyString :: l'.
Proof.
  cbn [match_pieces]. destruct s as [|a s']; [discriminate|].
  destruct (c a) eqn:Hc; [|discriminate].
  intros H. apply took_some in H as (l' & H & ->). eauto 10.
Qed.

(** What a match of [c?] followed by [ps] looks like: the character was
    taken, or it was not. *)
Lemma opt_inv c ps s l rest :
  match_pieces (Opt c :: ps) s = Some (l, rest) ->
  (exists a s' l', s = String a s' /\ c a = true /\
     match_pieces ps s' = Some (l', rest) /\ l = String a EmptyString :: l') \/
  (exists l', match_pieces ps s = Some (l', rest) /\ l = EmptyString :: l').
Proof.
  cbn [match_pieces]. intros H.
  assert (Hskip : took EmptyString (match_pieces ps s) = Some (l, rest) ->
                  exists l', match_pieces ps s = Some (l', rest) /\ l = EmptyString :: l')
    by apply took_some.
  destruct s as [|a s']; [right; auto|].
  destruct (c a) eqn:Hc; [|right; auto].
  destruct (match_pieces ps s') as [[l' r]|] eqn:Hm; [|right; auto].
  inversion H; subst. left. eauto 10.
Qed.

Lemma nil_inv s l rest :
  match_pieces [] s = Some (l, rest) -> l = [] /\ rest = s.
Proof. cbn. intros H; inversion H; auto. Qed.

Lemma re_match_some r s m :
  re_match r s = Some m ->
  exists consumed, match_pieces (pieces_of r) s = Some (consumed, after m) /\
                   groups m = groups_of r consumed.
Proof.
  unfold re_match. destruct (match_pieces _ _) as [[l rest]|]; [|discriminate].
  intros H; inversion H; subst; simpl. eauto.
Qed.

Lemma re_match_is_some r s :
  match_pieces (pieces_of r) s <> None -> re_match r s <> None.
Proof.
  unfold re_match. destruct (match_pieces _ _) as [[l rest]|]; congruence.
Qed.

(** A search that succeeds matched at the start of some suffix. *)
Lemma re_search_some r s m :
  re_search r s = Some m ->
  exists pre suf, s = pre +:+ suf /\ re_match r suf = Some m.
Proof.
  induction s as [|a s IH]; cbn [re_search].
  - destruct (re_match r "") eqn:E; [|discriminate].
    intros H; inversion H; subst. exists EmptyString, EmptyString. auto.
  - destruct (re_match r (String a s)) eqn:E.
    + intros H; inversion H; subst. exists EmptyString, (String a s). auto.
    + intros H. destruct (IH H) as (pre & suf & -> & Hm).
      exists (String a pre), suf. auto.
Qed.

(** A search that fails found no match at the start of any suffix. *)
Lemma re_search_none r s :
  re_search r s = None ->
  forall pre suf, s = pre +:+ suf -> re_match r suf = None.
Proof.
  induction s as [|a s IH]; cbn [re_search].
  - destruct (re_match r "") eqn:E; [discriminate|].
    intros _ pre suf Hs. destruct pre; sapp; [|discriminate]. now subst.
  - destruct (re_match r (String a s)) eqn:E; [discriminate|].
    intros H pre suf Hs. destruct pre as [|b pre]; sapp.
    + now subst.
    + inversion Hs; subst. eapply IH; eauto.
Qed.

Lemma d4_inv ps s l rest :
  match_pieces (d4 ++ ps) s = Some (l, rest) ->
  exists y0 y1 y2 y3 s' l',
    four_digits (String y0 (String y1 (String y2 (String y3 EmptyString)))) /\
    s = String y0 (String y1 (String y2 (String y3 s'))) /\
    match_pieces ps s' = Some (l', rest) /\
    l = String y0 "" :: String y1 "" :: String y2 "" :: String y3 "" :: l'.
Proof.
  unfold d4. cbn [app]. intros H.
  apply one_inv in H as (y0 & s0 & l0 & -> & H0 & H & ->).
  apply one_inv in H as (y1 & s1 & l1 & -> & H1 & H & ->).
  apply one_inv in H as (y2 & s2 & l2 & -> & H2 & H & ->).
  apply one_inv in H as (y3 & s3 & l3 & -> & H3 & H & ->).
  exists y0, y1, y2, y3, s3, l3. split; [unfold four_digits; eauto 10|auto].
Qed.

Lemma d4_intro ps y s' :
  four_digits y ->
  match_pieces (d4 ++ ps) (y +:+ s') =
  match match_pieces ps s' with
  | Some (l, rest) =>
      Some (map (fun c => String c EmptyString) (list_ascii_of_string y) ++ l, rest)
  | None => None
  end.
Proof.
  intros (y0 & y1 & y2 & y3 & -> & H0 & H1 & H2 & H3).
  unfold d4. sapp. cbn [app match_pieces]. rewrite H0, H1, H2, H3.
  destruct (match_pieces ps s') as [[l rest]|]; reflexivity.
Qed.

Lemma set_sep a : set_of "_-" a = true -> String a "" = "_" \/ String a "" = "-".
Proof.
  unfold set_of; cbn [list_ascii_of_string existsb]. intros H.
  apply orb_true_iff in H as [H|H]; [|apply orb_true_iff in H as [H|H]; [|discriminate]];
    apply Ascii.eqb_eq in H; subst; auto.
Qed.

Lemma digit_not_sep a : is_digit a = true -> set_of "_-" a = false.
Proof.
  intros H. destruct (set_of "_-" a) eqn:E; [|reflexivity].
  destruct (set_sep _ E) as [E'|E']; inversion E'; subst; discriminate.
Qed.

End ReFacts.

Module PatternFacts.
Import PyStr Re Vocabulary TextFacts ReFacts.

Lemma four_digits_int y :
  four_digits y -> py_int y = Some (digits_value 0 y).
Proof.
  intros (y0 & y1 & y2 & y3 & -> & H0 & H1 & H2 & H3).
  unfold py_int, all_chars. cbn [list_ascii_of_string forallb].
  now rewrite H0, H1, H2, H3.
Qed.

(** [Q(\d)[_\-]?(\d{4})] at the start of a text. *)
Lemma qy_sound s m :
  re_match pat_QY s = Some m ->
  exists q sep y,
    s = String "Q" (String q (sep +:+ y +:+ after m)) /\
    groups m = [String q EmptyString; y] /\
    is_digit q = true /\ separator sep /\ four_digits y.
Proof.
  intros H. apply re_match_some in H as (l & H & Hg).
  unfold pat_QY in *. cbn [pieces_of flat_map] in H.
  change ([One (lit "Q")] ++ [One is_digit] ++ [Opt (set_of "_-")] ++ d4 ++ [])
    with (One (lit "Q") :: One is_digit :: Opt (set_of "_-") :: d4 ++ []) in H.
  apply one_inv in H as (a & s0 & l0 & -> & Ha & H & ->).
  apply Ascii.eqb_eq in Ha; subst a.
  apply one_inv in H as (q & s1 & l1 & -> & Hq & H & ->).
  apply opt_inv in H as [(a & s2 & l2 & -> & Ha & H & ->)|(l2 & H & ->)];
    apply d4_inv in H as (y0 & y1 & y2 & y3 & s3 & l3 & Hy & -> & H & ->);
    apply nil_inv in H as [-> ->].
  - exists q, (String a ""), (String y0 (String y1 (String y2 (String y3 "")))).
    repeat split; auto.
    destruct (set_sep _ Ha) as [->| ->]; unfold separator; auto.
  - exists q, "", (String y0 (String y1 (String y2 (String y3 "")))).
    repeat split; auto. unfold separator; auto.
Qed.

Lemma qy_complete q sep y post :
  is_digit q = true -> separator sep -> four_digits y ->
  re_match pat_QY (String "Q" (String q (sep +:+ y +:+ post))) <> None.
Proof.
  intros Hq Hsep Hy. apply re_match_is_some.
  unfold pat_QY. cbn [pieces_of flat_map].
  change ([One (lit "Q")] ++ [One is_digit] ++ [Opt (set_of "_-")] ++ d4 ++ [])
    with (One (lit "Q") :: One is_digit :: Opt (set_of "_-") :: d4 ++ []).
  cbn [match_pieces]. change (lit "Q" "Q"%char) with true. cbv iota. rewrite Hq.
  pose proof (d4_intro [] y post Hy) as Hd. cbn [match_pieces] in Hd.
  destruct Hsep as [->|[->| ->]]; sapp.
  - destruct Hy as (y0 & y1 & y2 & y3 & -> & H0 & _). sapp.
    rewrite (digit_not_sep _ H0), Hd. discriminate.
  - change (set_of "_-" "_"%char) with true. cbv iota. rewrite Hd. discriminate.
  - change (set_of "_-" "-"%char) with true. cbv iota. rewrite Hd. discriminate.
Qed.

(** [(\d{4})[_\-]?Q(\d)] at the start of a text. *)
Lemma yq_sound s m :
  re_match pat_YQ s = Some m ->
  exists q sep y,
    s = y +:+ sep +:+ String "Q" (String q (after m)) /\
    groups m = [y; String q EmptyString] /\
    is_digit q = true /\ separator sep /\ four_digits y.
Proof.
  intros H. apply re_match_some in H as (l & H & Hg).
  unfold pat_YQ in *. cbn [pieces_of flat_map] in H.
  change (d4 ++ [Opt (set_of "_-")] ++ [One (lit "Q")] ++ [One is_digit] ++ [])
    with (d4 ++ [Opt (set_of "_-"); One (lit "Q"); One is_digit]) in H.
  apply d4_inv in H as (y0 & y1 & y2 & y3 & s3 & l3 & Hy & -> & H & ->).
  apply opt_inv in H as [(a & s2 & l2 & -> & Ha & H & ->)|(l2 & H & ->)];
    apply one_inv in H as (b & s4 & l4 & -> & Hb & H & ->);
    apply Ascii.eqb_eq in Hb; subst b;
    apply one_inv in H as (q & s5 & l5 & -> & Hq & H & ->);
    apply nil_inv in H as [-> ->].
  - exists q, (String a ""), (String y0 (String y1 (String y2 (String y3 "")))).
    repeat split; auto.
    destruct (set_sep _ Ha) as [->| ->]; unfold separator; auto.
  - exists q, "", (String y0 (String y1 (String y2 (String y3 "")))).
    repeat split; auto. unfold separator; auto.
Qed.

Lemma yq_complete q sep y post :
  is_digit q = true -> separator sep -> four_digits y ->
  re_match pat_YQ (y +:+ sep +:+ String "Q" (String q post)) <> None.
Proof.
  intros Hq Hsep Hy. apply re_match_is_some.
  unfold pat_YQ. cbn [pieces_of flat_map].
  change (d4 ++ [Opt (set_of "_-")] ++ [One (lit "Q")] ++ [One is_digit] ++ [])
    with (d4 ++ [Opt (set_of "_-"); One (lit "Q"); One is_digit]).
  rewrite (d4_intro _ y _ Hy).
  destruct Hsep as [->|[->| ->]]; sapp; cbn [match_pieces].
  - change (set_of "_-" "Q"%char) with false. change (lit "Q" "Q"%char) with true.
    cbv iota. rewrite Hq. discriminate.
  - change (set_of "_-" "_"%char) with true. change (lit "Q" "Q"%char) with true.
    cbv iota. rewrite Hq. discriminate.
  - change (set_of "_-" "-"%char) with true. change (lit "Q" "Q"%char) with true.
    cbv iota. rewrite Hq. discriminate.
Qed.

(** [(\d{4})] at the start of a text. *)
Lemma y_sound s m :
  re_match pat_Y s = Some m ->
  exists y, s = y +:+ after m /\ groups m = [y] /\ four_digits y.
Proof.
  intros H. apply re_match_some in H as (l & H & Hg).
  unfold pat_Y in *. cbn [pieces_of flat_map] in H.
  apply d4_inv in H as (y0 & y1 & y2 & y3 & s3 & l3 & Hy & -> & H & ->).
  apply nil_inv in H as [-> ->].
  exists (String y0 (String y1 (String y2 (String y3 "")))). auto.
Qed.

Lemma y_complete y post :
  four_digits y -> re_match pat_Y (y +:+ post) <> None.
Proof.
  intros Hy. apply re_match_is_some. unfold pat_Y. cbn [pieces_of flat_map].
  rewrite (d4_intro _ y _ Hy). discriminate.
Qed.

(** The same through [re.search]. *)
Lemma search_qy_some text m :
  re_search pat_QY text = Some m ->
  exists q y, quarter_year_at text q y /\ groups m = [String q EmptyString; y].
Proof.
  intros H. apply re_search_some in H as (pre & suf & -> & H).
  apply qy_sound in H as (q & sep & y & -> & Hg & Hq & Hsep & Hy).
  exists q, y. split; [|exact Hg]. exists pre, sep, (after m). auto.
Qed.

Lemma search_qy_none text :
  re_search pat_QY text = None -> ~ exists q y, quarter_year_at text q y.
Proof.
  intros H (q & y & pre & sep & post & Ht & Hq & Hsep & Hy).
  eapply qy_complete; eauto. eapply re_search_none; eauto.
Qed.

Lemma search_yq_some text m :
  re_search pat_YQ text = Some m ->
  exists q y, year_quarter_at text q y /\ groups m = [y; String q EmptyString].
Proof.
  intros H. apply re_search_some in H as (pre & suf & -> & H).
  apply yq_sound in H as (q & sep & y & -> & Hg & Hq & Hsep & Hy).
  exists q, y. split; [|exact Hg]. exists pre, sep, (after m). auto.
Qed.

Lemma search_yq_none text :
  re_search pat_YQ text = None -> ~ exists q y, year_quarter_at text q y.
Proof.
  intros H (q & y & pre & sep & post & Ht & Hq & Hsep & Hy).
  eapply yq_complete; eauto. eapply re_search_none; eauto.
Qed.

Lemma search_y_some text m :
  re_search pat_Y text = Some m ->
  exists y, year_at text y /\ groups m = [y].
Proof.
  intros H. apply re_search_some in H as (pre & suf & -> & H).
  apply y_sound in H as (y & -> & Hg & Hy).
  exists y. split; [|exact Hg]. exists pre, (after m). auto.
Qed.

Lemma search_y_none text :
  re_search pat_Y text = None -> ~ exists y, year_at text y.
Proof.
  intros H (y & pre & post & Ht & Hy).
  eapply y_complete; eauto. eapply re_search_none; eauto.
Qed.

(** A text with a quarter and a year, in either order, has a bare year. *)
Lemma quarter_year_has_year text q y : quarter_year_at text q y -> year_at text y.
Proof.
  intros (pre & sep & post & -> & _ & _ & Hy).
  exists (pre +:+ String "Q" (String q sep)), post. split; [|exact Hy].
  rewrite app_assoc. now sapp. 
Qed.

Lemma year_quarter_has_year text q y : year_quarter_at text q y -> year_at text y.
Proof.
  intros (pre & sep & post & -> & _ & _ & Hy).
  exists pre, (sep +:+ String "Q" (String q post)). auto.
Qed.

End PatternFacts.

(** ** Properties of the loader's feature rules *)

Module LoaderFacts.
Import PyStr Re Vocabulary TextFacts ReFacts PatternFacts HousingDataLoader.

Lemma in_list_In x l : in_list x l = true <-> In x l.
Proof.
  unfold in_list. rewrite existsb_exists. split.
  - intros (y & Hy & E). apply String.eqb_eq in E. now subst.
  - intros H. exists x. split; [exact H|apply String.eqb_refl].
Qed.

Lemma area_loop_find items u :
  area_loop items u =
  match find (fun item => contains (fst item) u) items with
  | Some item => snd item
  | None => 1000
  end.
Proof.
  induction items as [|[p a] items IH]; cbn [area_loop find fst snd]; [reflexivity|].
  destruct (contains p u); [reflexivity|exact IH].
Qed.

(** No text reaches an entry with [+STUDY]: the shorter entry before it
    matches whenever it does. *)
Lemma study_shadowed u :
  area_loop area_map u <> 1100 /\ area_loop area_map u <> 1400 /\
  area_loop area_map u <> 1800.
Proof.
  unfold area_map. cbn [area_loop].
  pose proof (contains_app "2BHK" "+STUDY" u) as H2.
  pose proof (contains_app "3BHK" "+STUDY" u) as H3.
  pose proof (contains_app "4BHK" "+STUDY" u) as H4.
  change ("2BHK" +:+ "+STUDY") with "2BHK+STUDY" in H2.
  change ("3BHK" +:+ "+STUDY") with "3BHK+STUDY" in H3.
  change ("4BHK" +:+ "+STUDY") with "4BHK+STUDY" in H4.
  repeat match goal with
  | |- context [if contains ?p u then _ else _] => destruct (contains p u) eqn:?
  end.
  all: try (repeat split; discriminate).
  all: first [discriminate (H2 eq_refl) | discriminate (H3 eq_refl) | discriminate (H4 eq_refl)].
Qed.

(** The loop of [extract_quarter_year] with its three patterns spelled out;
    the first is the one whose text starts with [Q]. *)
Lemma pattern_loop_patterns text :
  pattern_loop patterns text =
  match re_search pat_QY text with
  | Some m =>
      match groups m with
      | [g0; g1] => res_bind (int g0) (fun q => res_bind (int g1) (fun y => Ok (q, y)))
      | [g0] => res_bind (int g0) (fun y => Ok (1, y))
      | _ => pattern_loop (drop 1 patterns) text
      end
  | None =>
      match re_search pat_YQ text with
      | Some m =>
          match groups m with
          | [g0; g1] => res_bind (int g1) (fun q => res_bind (int g0) (fun y => Ok (q, y)))
          | [g0] => res_bind (int g0) (fun y => Ok (1, y))
          | _ => pattern_loop (drop 2 patterns) text
          end
      | None =>
          match re_search pat_Y text with
          | Some m =>
              match groups m with
              | [g0; g1] => res_bind (int g1) (fun q => res_bind (int g0) (fun y => Ok (q, y)))
              | [g0] => res_bind (int g0) (fun y => Ok (1, y))
              | _ => Ok (1, 2023)
              end
          | None => Ok (1, 2023)
          end
      end
  end.
Proof. reflexivity. Qed.

Lemma int_digit q : is_digit q = true -> int (String q EmptyString) = Ok (digit_value q).
Proof. intros H. unfold int. now rewrite py_int_digit. Qed.

Lemma int_year y : four_digits y -> int y = Ok (digits_value 0 y).
Proof. intros H. unfold int. now rewrite four_digits_int. Qed.

(** What the body of the [try] returns on a text, by the pattern that
    matched. *)
Lemma try_on_text text :
  (exists q y, quarter_year_at text q y /\
     extract_quarter_year_try (Ok text) = Ok (digit_value q, digits_value 0 y)) \/
  ((~ exists q y, quarter_year_at text q y) /\
   ((exists q y, year_quarter_at text q y /\
       extract_quarter_year_try (Ok text) = Ok (digit_value q, digits_value 0 y)) \/
    ((~ exists q y, year_quarter_at text q y) /\
     ((exists y, year_at text y /\
         extract_quarter_year_try (Ok text) = Ok (1, digits_value 0 y)) \/
      ((~ exists y, year_at text y) /\
       extract_quarter_year_try (Ok text) = Ok (1, 2023)))))).
Proof.
  unfold extract_quarter_year_try. cbn [res_bind]. rewrite pattern_loop_patterns.
  destruct (re_search pat_QY text) as [m|] eqn:E1.
  { left. apply search_qy_some in E1 as (q & y & Hat & ->).
    exists q, y. split; [exact Hat|].
    destruct Hat as (_ & _ & _ & _ & Hq & _ & Hy).
    rewrite (int_digit _ Hq). cbn [res_bind]. now rewrite (int_year _ Hy). }
  right. split; [now apply search_qy_none|].
  destruct (re_search pat_YQ text) as [m|] eqn:E2.
  { left. apply search_yq_some in E2 as (q & y & Hat & ->).
    exists q, y. split; [exact Hat|].
    destruct Hat as (_ & _ & _ & _ & Hq & _ & Hy).
    rewrite (int_digit _ Hq). cbn [res_bind]. now rewrite (int_year _ Hy). }
  right. split; [now apply search_yq_none|].
  destruct (re_search pat_Y text) as [m|] eqn:E3.
  { left. apply search_y_some in E3 as (y & Hat & ->).
    exists y. split; [exact Hat|].
    destruct Hat as (_ & _ & _ & Hy). now rewrite (int_year _ Hy). }
  right. split; [now apply search_y_none|reflexivity].
Qed.

Lemma try_never_raises text :
  exists r, extract_quarter_year_try (Ok text) = Ok r.
Proof.
  destruct (try_on_text text)
    as [(q & y & _ & H)|[_ [(q & y & _ & H)|[_ [(y & _ & H)|[_ H]]]]]]; eauto.
Qed.

End LoaderFacts.

(** ** The feature rules of the loader *)

Import PyStr Re Pandas Vocabulary Examples.
Import TextFacts ReFacts PatternFacts LoaderFacts.
Import HousingDataLoader.

(** C1.  [calculate_carpet_area] returns the area of the first entry of
    [area_map], in the order written, whose pattern occurs in the upper-cased
    configuration text, and 1000 when none occurs; ["3BHK"] gives 1250 and
    the text ['UNKNOWN'] that stands for a missing configuration gives 1000.
    The configuration ["2BHK+Study"] gives 950, not 1100: the entry [2BHK]
    comes first and occurs in it, and in the same way no configuration ever
    gets 1100, 1400 or 1800.  The cleaner, which looks the normalised text up
    as a key, gives 1100 for it: a configuration column that holds
    ["2BHK+Study"], ["3BHK"], ["Penthouse"] comes out as 1100, 1250, 1000. *)
Theorem carpet_area_first_match :
  (forall configuration,
     calculate_carpet_area configuration =
     match find (fun item => contains (fst item) (upper (py_str configuration))) area_map with
     | Some item => snd item
     | None => 1000
     end) /\
  calculate_carpet_area (CStr "3BHK") = 1250 /\
  calculate_carpet_area (CStr "UNKNOWN") = 1000 /\
  calculate_carpet_area (CStr "2BHK+Study") = 950 /\
  (forall configuration,
     calculate_carpet_area configuration <> 1100 /\
     calculate_carpet_area configuration <> 1400 /\
     calculate_carpet_area configuration <> 1800) /\
  column_after_cleaning study_frame "Carpet_Area_Sqft"
    = Some [CFloat (Fin 1100); CFloat (Fin 1250); CInt 1000].
Proof.
  split; [intros c; apply area_loop_find|].
  do 3 (split; [reflexivity|]).
  split; [intros c; apply study_shadowed|].
  vm_compute; reflexivity.
Qed.

(** C2.  [calculate_booking_flag] is 1 exactly when the lower-cased status
    text is one of ["booked"], ["confirmed"], ["sold"], ["yes"], ["true"],
    ["1"], and 0 otherwise; ["BOOKED"] and ["1"] give 1, ["pending"] and the
    empty text give 0.  The cleaner's [Booking_Flag] tests four texts only: a
    status column that holds ["1"], ["true"], ["BOOKED"] comes out as
    0, 0, 1. *)
Theorem booking_flag_membership :
  (forall booking_status,
     (calculate_booking_flag booking_status = 1 <->
      In (lower (py_str booking_status)) ["booked"; "confirmed"; "sold"; "yes"; "true"; "1"]) /\
     (calculate_booking_flag booking_status = 1 \/ calculate_booking_flag booking_status = 0)) /\
  calculate_booking_flag (CStr "BOOKED") = 1 /\
  calculate_booking_flag (CStr "1") = 1 /\
  calculate_booking_flag (CStr "pending") = 0 /\
  calculate_booking_flag (CStr "") = 0 /\
  HousingDataCleaner.booking_flag (CStr "1") = CInt 0 /\
  column_after_cleaning status_frame "Booking_Flag" = Some [CInt 0; CInt 0; CInt 1].
Proof.
  split; [|repeat split; vm_compute; reflexivity].
  intros v. unfold calculate_booking_flag.
  change booked_statuses with ["booked"; "confirmed"; "sold"; "yes"; "true"; "1"].
  rewrite <- in_list_In.
  destruct (in_list _ _); split; auto; split; intros; congruence.
Qed.

(** C3.  On a text, [extract_quarter_year] returns the quarter and year of
    an occurrence of [Q], digit, optional [_] or [-], four digits when the
    text has one; failing that, those of an occurrence of four digits,
    optional separator, [Q], digit; failing that, quarter 1 and the year of
    an occurrence of four digits; and (1, 2023) when the text has no four
    digits in a row.  The four sample texts give (1, 2023), (3, 2023),
    (1, 2023), (1, 2023).  The cleaner knows the first form only: a quarter
    column that holds ["2023-Q3"], ["Q1_2023"] comes out with quarters 1, 1
    and years 2023, 2023. *)
Theorem quarter_year_precedence :
  (forall text,
     ((exists q y, quarter_year_at text q y) ->
      exists q y, quarter_year_at text q y /\
        extract_quarter_year (CStr text) = (digit_value q, digits_value 0 y)) /\
     ((~ exists q y, quarter_year_at text q y) ->
      (exists q y, year_quarter_at text q y) ->
      exists q y, year_quarter_at text q y /\
        extract_quarter_year (CStr text) = (digit_value q, digits_value 0 y)) /\
     ((~ exists q y, quarter_year_at text q y) ->
      (~ exists q y, year_quarter_at text q y) ->
      (exists y, year_at text y) ->
      exists y, year_at text y /\
        extract_quarter_year (CStr text) = (1, digits_value 0 y)) /\
     ((~ exists y, year_at text y) ->
      extract_quarter_year (CStr text) = (1, 2023))) /\
  extract_quarter_year (CStr "Q1_2023") = (1, 2023) /\
  extract_quarter_year (CStr "2023-Q3") = (3, 2023) /\
  extract_quarter_year (CStr "2023") = (1, 2023) /\
  extract_quarter_year (CStr "garbage") = (1, 2023) /\
  column_after_cleaning quarter_frame "Quarter_Number" = Some [CInt 1; CFloat (Fin 1)] /\
  column_after_cleaning quarter_frame "Year" = Some [CInt 2023; CFloat (Fin 2023)].
Proof.
  split; [|repeat split; vm_compute; reflexivity].
  intros text. unfold extract_quarter_year, extract_quarter_year_of. cbn [py_str].
  destruct (try_on_text text)
    as [(q & y & Hat & ->)|[N1 [(q & y & Hat & ->)|[N2 [(y & Hat & ->)|[N3 ->]]]]]].
  - repeat split; eauto; intros; exfalso; eauto using quarter_year_has_year.
  - repeat split; eauto; intros; exfalso; eauto using year_quarter_has_year.
  - repeat split; eauto; intros; exfalso; eauto.
  - repeat split; auto; intros; exfalso;
      repeat match goal with H : exists _, _ |- _ => destruct H end;
      eauto using quarter_year_has_year, year_quarter_has_year.
Qed.

Lemma quarter_year_precedence_witness :
  exists q y, quarter_year_at "Q1_2023" q y /\
    extract_quarter_year (CStr "Q1_2023") = (digit_value q, digits_value 0 y).
Proof.
  apply (proj1 (proj1 quarter_year_precedence "Q1_2023")).
  exists "1"%char, "2023", "", "_", "".
  repeat split; [right; left; reflexivity|].
  exists "2"%char, "0"%char, "2"%char, "3"%char. repeat split.
Defined.

(** C4, as the code has it.  [categorize_price] compares with [<=]: a price
    up to 2 is ["0-2Cr"], above 2 up to 5 ["2-5Cr"], above 5 up to 10
    ["5-10Cr"], above 10 up to 20 ["10-20Cr"], above 20 ["20Cr+"]; so 2.0 and
    0 are ["0-2Cr"], 2.01 is ["2-5Cr"], 25 is ["20Cr+"].  It agrees with the
    bins closed on the left and open on the right for every price from 0 on
    other than 2, 5, 10 and 20.  The cleaner's [Price_Category] is cut into
    those right-open bins, and is missing below 0. *)
Theorem price_category_thresholds (x : Q) :
  ((x <= 2)%Q -> categorize_price (Fin x) = "0-2Cr") /\
  ((2 < x)%Q /\ (x <= 5)%Q -> categorize_price (Fin x) = "2-5Cr") /\
  ((5 < x)%Q /\ (x <= 10)%Q -> categorize_price (Fin x) = "5-10Cr") /\
  ((10 < x)%Q /\ (x <= 20)%Q -> categorize_price (Fin x) = "10-20Cr") /\
  ((20 < x)%Q -> categorize_price (Fin x) = "20Cr+") /\
  categorize_price (Fin 2) = "0-2Cr" /\
  categorize_price (Fin (201 # 100)) = "2-5Cr" /\
  categorize_price (Fin 0) = "0-2Cr" /\
  categorize_price (Fin 25) = "20Cr+" /\
  ((0 <= x)%Q -> ~ (x == 2)%Q -> ~ (x == 5)%Q -> ~ (x == 10)%Q -> ~ (x == 20)%Q ->
   Some (categorize_price (Fin x)) = right_open_category x) /\
  HousingDataCleaner.cut_value HousingDataCleaner.price_bins (Fin x) =
    match right_open_category x with
    | Some label => CStr label
    | None => CFloat NaN
    end.
Proof.
  unfold categorize_price, right_open_category, HousingDataCleaner.price_bins.
  cbn [HousingDataCleaner.cut_value le lt of_Z].
  change (inject_Z 0) with 0%Q. change (inject_Z 2) with 2%Q.
  change (inject_Z 5) with 5%Q. change (inject_Z 10) with 10%Q.
  change (inject_Z 20) with 20%Q.
  repeat split; try reflexivity; intros;
  repeat match goal with
  | |- context [Qle_bool ?a ?b] =>
      let E := fresh "E" in
      destruct (Qle_bool a b) eqn:E;
      [ apply Qle_bool_iff in E
      | apply not_true_iff_false in E; rewrite Qle_bool_iff in E; apply Qnot_le_lt in E ];
      cbn [andb negb]; try (exfalso; lra)
  end;
  reflexivity.
Qed.

Lemma price_category_thresholds_witness : categorize_price (Fin 3) = "2-5Cr".
Proof.
  apply (proj1 (proj2 (price_category_thresholds 3))).
  split; [reflexivity|]. unfold Qle. simpl. lia.
Defined.

(** C4 as stated fails at 5: the right-open bins put it in ["5-10Cr"],
    [categorize_price] in ["2-5Cr"]. *)
Lemma price_category_at_bound :
  categorize_price (Fin 5) = "2-5Cr" /\ right_open_category 5 = Some "5-10Cr".
Proof. split; reflexivity. Qed.

(** C8, as the code has it.  [get_column_value] returns the row's value at
    the mapped column exactly when the field is bound in the column map, the
    row has that column and the value is not missing ([None] or NaN); in
    every other case it returns the default. *)
Theorem field_access_contract (column_map : gmap string string)
    (row : gmap string cell) (column_type : string) (default_value : cell) :
  (forall column_name value,
     column_map !! column_type = Some column_name ->
     row !! column_name = Some value -> isna value = false ->
     get_column_value column_map row column_type default_value = value) /\
  (column_map !! column_type = None ->
     get_column_value column_map row column_type default_value = default_value) /\
  (forall column_name,
     column_map !! column_type = Some column_name -> row !! column_name = None ->
     get_column_value column_map row column_type default_value = default_value) /\
  (forall column_name value,
     column_map !! column_type = Some column_name ->
     row !! column_name = Some value -> isna value = true ->
     get_column_value column_map row column_type default_value = default_value).
Proof.
  unfold get_column_value. repeat split.
  - intros cn v -> -> H. now rewrite H.
  - now intros ->.
  - now intros cn -> ->.
  - intros cn v -> -> H. now rewrite H.
Qed.

Lemma field_access_contract_witness :
  get_column_value {[ "booking_status" := "Status" ]} {[ "Status" := CStr "Booked" ]}
    "booking_status" (CStr "Not Booked") = CStr "Booked".
Proof.
  apply (proj1 (field_access_contract _ _ _ _) "Status"); reflexivity.
Defined.

(** C8 as stated fails on an empty text: it is bound and not missing, so it
    is returned, where the claim wants the default. *)
Lemma field_access_empty_text :
  present_nonempty (CStr "") = false /\
  get_column_value {[ "booking_status" := "Status" ]} {[ "Status" := CStr "" ]}
    "booking_status" (CStr "Not Booked") = CStr "".
Proof. split; reflexivity. Qed.

(** C9.  [calculate_price_per_sqft] divides the price times 10,000,000 by
    the area when the area is positive, and returns zero when it is not, so
    it never divides by zero.  The cleaner's [Price_per_Sqft] has no such
    test: over a file that brings an area column with a zero in it, the
    price 2.5 over the area 0 comes out infinite. *)
Theorem price_per_sqft_guard :
  (forall ticket_price carpet_area, 0 < carpet_area ->
     calculate_price_per_sqft ticket_price carpet_area =
     div (mul ticket_price (of_Z 10000000)) (of_Z carpet_area)) /\
  (forall (p : Q) carpet_area, 0 < carpet_area ->
     calculate_price_per_sqft (Fin p) carpet_area =
     Fin (Qred (Qred (p * 10000000) / inject_Z carpet_area))) /\
  (forall ticket_price carpet_area, carpet_area <= 0 ->
     calculate_price_per_sqft ticket_price carpet_area = Fin 0) /\
  HousingDataCleaner.price_per_sqft [CFloat (Fin (5 # 2))] [CInt 0] = Ok [CFloat PInf] /\
  column_after_cleaning zero_area_frame "Price_per_Sqft"
    = Some [CFloat PInf; CFloat (Fin 30000)].
Proof.
  split; [|split; [|split; [|split]]].
  - intros p a H. unfold calculate_price_per_sqft.
    now apply Z.ltb_lt in H as ->.
  - intros p a H. unfold calculate_price_per_sqft.
    rewrite (proj2 (Z.ltb_lt 0 a) H).
    cbn [mul of_Z div]. unfold sign. cbn [inject_Z Qnum].
    destruct (Z.compare_spec a 0); [lia|lia|reflexivity].
  - intros p a H. unfold calculate_price_per_sqft.
    now apply Z.ltb_ge in H as ->.
  - reflexivity.
  - vm_compute; reflexivity.
Qed.

Lemma price_per_sqft_guard_witness :
  calculate_price_per_sqft (Fin (5 # 2)) 0 = Fin 0.
Proof.
  apply (proj1 (proj2 (proj2 price_per_sqft_guard))). lia.
Defined.

(** C10.  [extract_quarter_year] always returns a pair of integers: when the
    body of its [try] raises, be it in [str] of the argument or in a
    conversion, the pair is (1, 2023), and on a text the body does not raise
    at all, every conversion being of digits. *)
Theorem quarter_year_total (text : res string) :
  (exists quarter year, extract_quarter_year_of text = (quarter, year)) /\
  (forall e, extract_quarter_year_try text = Raise e ->
     extract_quarter_year_of text = (1, 2023)) /\
  (forall e, text = Raise e -> extract_quarter_year_of text = (1, 2023)) /\
  (forall s, text = Ok s ->
     exists r, extract_quarter_year_try text = Ok r /\ extract_quarter_year_of text = r) /\
  (forall purchase_quarter : cell,
     exists r, extract_quarter_year_try (Ok (py_str purchase_quarter)) = Ok r /\
               extract_quarter_year purchase_quarter = r).
Proof.
  repeat split.
  - destruct (extract_quarter_year_of text) as [q y]. eauto.
  - intros e H. unfold extract_quarter_year_of. now rewrite H.
  - now intros e ->.
  - intros s ->. destruct (try_never_raises s) as [r H].
    exists r. split; [exact H|]. unfold extract_quarter_year_of. now rewrite H.
  - intros v. destruct (try_never_raises (py_str v)) as [r H].
    exists r. split; [exact H|].
    unfold extract_quarter_year, extract_quarter_year_of. now rewrite H.
Qed.

Lemma quarter_year_total_witness :
  extract_quarter_year_of (Raise "TypeError") = (1, 2023).
Proof.
  apply (proj1 (proj2 (proj2 (quarter_year_total (Raise "TypeError")))) "TypeError" eq_refl).
Defined.

(** ** The cleaner: what every step keeps *)

Module ShapeFacts.
Import PyStr Re Pandas Vocabulary HousingDataCleaner.

Lemma bind_run {A B} (m : M A) (k : A -> M B) st :
  (m ≫= k) st =
  match m st with
  | (Ok a, st') => k a st'
  | (Raise e, st') => (Raise e, st')
  end.
Proof. reflexivity. Qed.

Lemma keeps_ret n {A} (a : A) (post : A -> Prop) :
  post a -> keeps n (mret a) post.
Proof. intros H st Hn Hw. cbn. auto. Qed.

Lemma keeps_raise n {A} e (post : A -> Prop) : keeps n (raise e) post.
Proof. intros st Hn Hw. cbn. auto. Qed.

Lemma keeps_bind n {A B} (m : M A) (k : A -> M B) mid post :
  keeps n m mid -> (forall a, mid a -> keeps n (k a) post) ->
  keeps n (m ≫= k) post.
Proof.
  intros Hm Hk st Hn Hw. rewrite bind_run.
  destruct (Hm st Hn Hw) as (Hn' & Hw' & Ha).
  destruct (m st) as [[a|e] st']; cbn [fst snd] in *; [|auto].
  apply (Hk a Ha st' Hn' Hw').
Qed.

Lemma keeps_any n {A} (m : M A) post :
  keeps n m post -> keeps n m (fun _ => True).
Proof.
  intros Hm st Hn Hw. destruct (Hm st Hn Hw) as (? & ? & ?).
  repeat split; auto. now destruct (fst (m st)).
Qed.

Lemma keeps_for_each n {A} (l : list A) (body : A -> M unit) :
  (forall a, keeps n (body a) (fun _ => True)) ->
  keeps n (for_each l body) (fun _ => True).
Proof.
  intros Hb. induction l as [|a l IH]; cbn [for_each].
  - now apply keeps_ret.
  - eapply keeps_bind; [apply Hb|]. intros _ _. exact IH.
Qed.

Lemma keeps_get_df n :
  keeps n get_df (fun d => index d = n /\ well_shaped d).
Proof. intros st Hn Hw. cbn. auto. Qed.

Lemma keeps_put_df n d :
  index d = n -> well_shaped d -> keeps n (put_df d) (fun _ => True).
Proof. intros Hd Hs st Hn Hw. cbn. auto. Qed.

Lemma keeps_get_column_map n : keeps n get_column_map (fun _ => True).
Proof. intros st Hn Hw. cbn. auto. Qed.

Lemma keeps_get_column n name : keeps n (get_column name) (fun _ => True).
Proof. intros st Hn Hw. cbn. auto. Qed.

Lemma keeps_report_set n k v : keeps n (report_set k v) (fun _ => True).
Proof. intros st Hn Hw. cbn. auto. Qed.

Lemma keeps_report_get n k : keeps n (report_get k) (fun _ => True).
Proof.
  intros st Hn Hw. unfold report_get.
  destruct (cleaning_report st !! k); cbn; auto.
Qed.

Lemma keeps_lift n {A} (r : res A) (post : A -> Prop) :
  (forall a, r = Ok a -> post a) -> keeps n (lift r) post.
Proof.
  intros H. destruct r as [a|e]; cbn [lift].
  - apply keeps_ret. auto.
  - apply keeps_raise.
Qed.

Lemma assoc_well_shaped {n} name (cols : list (string * Series)) s :
  Forall (fun c => length (snd c) = n) cols -> assoc name cols = Some s -> length s = n.
Proof.
  induction 1 as [|[k v] cols Hv Hc IH]; cbn [assoc]; [discriminate|].
  destruct (String.eqb name k); [|exact IH].
  intros E; injection E as <-. exact Hv.
Qed.

Lemma assoc_set_well_shaped {n} name s (cols : list (string * Series)) :
  length s = n -> Forall (fun c => length (snd c) = n) cols ->
  Forall (fun c => length (snd c) = n) (assoc_set name s cols).
Proof.
  intros Hs. induction 1 as [|[k v] cols Hv Hc IH]; cbn [assoc_set].
  - constructor; [exact Hs|constructor].
  - destruct (String.eqb name k); constructor; auto.
Qed.

(** A column read from the frame has one cell for each row. *)
Lemma keeps_df_get n name : keeps n (df_get name) (fun s => length s = n).
Proof.
  intros st Hn Hw. unfold df_get. rewrite bind_run. cbn [get_df].
  destruct (assoc name (columns (df st))) as [s|] eqn:E; cbn; repeat split; auto.
  unfold well_shaped in Hw. rewrite Hn in Hw. eapply assoc_well_shaped; eauto.
Qed.

(** Storing a column with one cell for each row keeps the shape. *)
Lemma keeps_df_set n name s :
  length s = n -> keeps n (df_set name s) (fun _ => True).
Proof.
  intros Hs st Hn Hw. unfold df_set. rewrite bind_run. cbn.
  repeat split; auto. unfold well_shaped in *. cbn.
  apply assoc_set_well_shaped; congruence.
Qed.

Lemma keeps_df_set_scalar n name v : keeps n (df_set_scalar name v) (fun _ => True).
Proof.
  unfold df_set_scalar. eapply keeps_bind; [apply keeps_get_df|].
  intros d [Hd _]. apply keeps_df_set. rewrite repeat_length. exact Hd.
Qed.

Lemma keeps_has_column n name : keeps n (has_column name) (fun _ => True).
Proof.
  unfold has_column. eapply keeps_bind; [apply keeps_get_df|].
  intros d _. now apply keeps_ret.
Qed.

Lemma keeps_usable n name : keeps n (usable name) (fun _ => True).
Proof.
  unfold usable. destruct (truthy name); [|now apply keeps_ret].
  eapply keeps_bind; [apply keeps_has_column|]. intros b _. now apply keeps_ret.
Qed.

Lemma length_price_per_sqft price area r :
  price_per_sqft price area = Ok r -> length price = length area ->
  length r = length price.
Proof.
  revert area r. induction price as [|p price IH]; intros [|a area] r; cbn; try discriminate;
    try (intros H; inversion H; reflexivity).
  destruct (as_float p); cbn; [|discriminate].
  destruct (as_float a); cbn; [|discriminate].
  destruct (price_per_sqft price area) as [rest|] eqn:E; cbn; [|discriminate].
  intros H Hl. inversion H; subst. cbn. f_equal. apply (IH area); [exact E|lia].
Qed.

Lemma length_cut s r : cut s = Ok r -> length r = length s.
Proof.
  revert r. induction s as [|v s IH]; intros r; cbn.
  - intros H; inversion H; reflexivity.
  - destruct (as_float v); cbn; [|discriminate].
    destruct (cut s) as [rest|]; cbn; [|discriminate].
    intros H; inversion H; subst. cbn. f_equal. now apply IH.
Qed.

Lemma str_accessor_same s r : str_accessor s = Ok r -> r = s.
Proof. unfold str_accessor. destruct (numeric_dtype s); congruence. Qed.

End ShapeFacts.

(** Lengths of the columns the steps compute. *)
Ltac column_length :=
  unfold Pandas.astype_str, Pandas.str_map, Pandas.to_numeric, Pandas.fillna,
    HousingDataCleaner.map_dict, HousingDataCleaner.str_extract;
  rewrite ?length_map, ?repeat_length; auto.

(** One proof step on a goal [keeps n m post], by the shape of [m]. *)
Ltac keeps_step :=
  lazymatch goal with
  | |- Vocabulary.keeps _ (mret _) _ => apply ShapeFacts.keeps_ret; try exact I
  | |- Vocabulary.keeps _ (HousingDataCleaner.raise _) _ => apply ShapeFacts.keeps_raise
  | |- Vocabulary.keeps _ (HousingDataCleaner.df_get _) _ => apply ShapeFacts.keeps_df_get
  | |- Vocabulary.keeps _ (HousingDataCleaner.df_set _ _) _ =>
      apply ShapeFacts.keeps_df_set; column_length
  | |- Vocabulary.keeps _ (HousingDataCleaner.df_set_scalar _ _) _ =>
      apply ShapeFacts.keeps_df_set_scalar
  | |- Vocabulary.keeps _ HousingDataCleaner.get_df _ => apply ShapeFacts.keeps_get_df
  | |- Vocabulary.keeps _ HousingDataCleaner.get_column_map _ =>
      apply ShapeFacts.keeps_get_column_map
  | |- Vocabulary.keeps _ (HousingDataCleaner.get_column _) _ =>
      apply ShapeFacts.keeps_get_column
  | |- Vocabulary.keeps _ (HousingDataCleaner.has_column _) _ =>
      apply ShapeFacts.keeps_has_column
  | |- Vocabulary.keeps _ (HousingDataCleaner.usable _) _ => apply ShapeFacts.keeps_usable
  | |- Vocabulary.keeps _ (HousingDataCleaner.report_set _ _) _ =>
      apply ShapeFacts.keeps_report_set
  | |- Vocabulary.keeps _ (HousingDataCleaner.report_get _) _ =>
      apply ShapeFacts.keeps_report_get
  | |- Vocabulary.keeps _ (HousingDataCleaner.for_each _ _) _ =>
      apply ShapeFacts.keeps_for_each; intros ?
  | |- Vocabulary.keeps _ (_ ≫= _) _ =>
      eapply ShapeFacts.keeps_bind; [|intros ? ?]
  | |- Vocabulary.keeps _ (match ?x with _ => _ end) _ => destruct x eqn:?
  end.

Module StageFacts.
Import PyStr Re Pandas Vocabulary HousingDataCleaner ShapeFacts.

Lemma keeps_str_accessor n s :
  length s = n -> keeps n (lift (str_accessor s)) (fun r => length r = n).
Proof. intros H. apply keeps_lift. intros r E. now rewrite (str_accessor_same _ _ E). Qed.

Lemma keeps_price_per_sqft n price area :
  length price = n -> length area = n ->
  keeps n (lift (price_per_sqft price area)) (fun r => length r = n).
Proof.
  intros Hp Ha. apply keeps_lift. intros r E.
  rewrite (length_price_per_sqft _ _ _ E); congruence.
Qed.

Lemma keeps_cut n s :
  length s = n -> keeps n (lift (cut s)) (fun r => length r = n).
Proof. intros H. apply keeps_lift. intros r E. now rewrite (length_cut _ _ E). Qed.

Ltac keeps_auto :=
  repeat first
    [ apply keeps_str_accessor; assumption
    | apply keeps_price_per_sqft; assumption
    | apply keeps_cut; assumption
    | keeps_step ].

Lemma keeps_clean_price_column n : keeps n clean_price_column (fun _ => True).
Proof. unfold clean_price_column. keeps_auto. Qed.

Lemma keeps_handle_missing_values n : keeps n handle_missing_values (fun _ => True).
Proof.
  unfold handle_missing_values, fill_mapped, fill_other. keeps_auto.
Qed.

Lemma keeps_normalize_text_fields n : keeps n normalize_text_fields (fun _ => True).
Proof. unfold normalize_text_fields. keeps_auto. Qed.

Lemma keeps_create_new_features n : keeps n create_new_features (fun _ => True).
Proof.
  unfold create_new_features. keeps_auto.
  (* a column with no row yields no year *)
  all: try exact I.
  exfalso. cbv beta in *.
  lazymatch goal with
  | H : str_extract _ _ ?s = _ :: _ |- _ =>
      destruct s; [discriminate H|cbn [length] in *; lia]
  end.
Qed.

Lemma keeps_validate_data n : keeps n validate_data (fun _ => True).
Proof. unfold validate_data. keeps_auto. Qed.

End StageFacts.

Module PipelineFacts.
Import PyStr Re Pandas Vocabulary HousingDataCleaner ShapeFacts StageFacts.

Lemma keeps_step_of n step :
  In step cleaning_steps -> keeps n (snd step) (fun _ => True).
Proof.
  unfold cleaning_steps. cbn [In].
  intros [<-|[<-|[<-|[<-|[<-|[]]]]]]; cbn [snd].
  - apply keeps_clean_price_column.
  - apply keeps_handle_missing_values.
  - apply keeps_normalize_text_fields.
  - apply keeps_create_new_features.
  - apply keeps_validate_data.
Qed.

(** A turn of the loop keeps the shape, files the step with no row affected,
    and does not raise. *)
Lemma run_step_keeps n step st :
  keeps n (snd step) (fun _ => True) ->
  index (df st) = n -> well_shaped (df st) ->
  fst (run_step step st) = Ok tt /\
  index (df (snd (run_step step st))) = n /\
  well_shaped (df (snd (run_step step st))) /\
  exists s, cleaning_report (snd (run_step step st)) !! fst step = Some (Step 0 s).
Proof.
  intros Hk Hn Hw. destruct step as [step_name step_func]. cbn [fst snd] in *.
  destruct (Hk st Hn Hw) as (Hn' & Hw' & _). unfold run_step.
  destruct (step_func st) as [[[]|e] st']; cbn [fst snd] in *; cbn.
  - repeat split; auto. exists success.
    rewrite lookup_insert_eq. unfold len. rewrite Hn, Hn'. do 2 f_equal. lia.
  - repeat split; auto. exists (failed e). now rewrite lookup_insert_eq.
Qed.

Lemma for_each_run_step steps st :
  Forall (fun step => forall n, keeps n (snd step) (fun _ => True)) steps ->
  well_shaped (df st) ->
  for_each steps run_step st = (Ok tt, run_steps steps st).
Proof.
  intros Hs. revert st. induction Hs as [|step steps Hk _ IH]; intros st Hw.
  - reflexivity.
  - cbn [for_each run_steps]. rewrite bind_run.
    destruct (run_step_keeps _ step st (Hk _) eq_refl Hw) as (Hr & _ & Hw' & _).
    destruct (run_step step st) as [r st']; cbn [fst snd] in *. subst r.
    now apply IH.
Qed.

Lemma last_cons_default {A} (d : A) l x y :
  List.last (d :: l) x = List.last (d :: l) y.
Proof.
  revert d. induction l as [|e l IH]; intros d; [reflexivity|].
  change (List.last (e :: l) x = List.last (e :: l) y). apply IH.
Qed.

Lemma frames_after_keep steps st :
  Forall (fun step => forall n, keeps n (snd step) (fun _ => True)) steps ->
  well_shaped (df st) ->
  Forall (fun d => len d = len (df st) /\ well_shaped d) (frames_after steps st) /\
  df (run_steps steps st) = List.last (frames_after steps st) (df st) /\
  len (df (run_steps steps st)) = len (df st) /\
  well_shaped (df (run_steps steps st)).
Proof.
  intros Hs. revert st. induction Hs as [|step steps Hk _ IH]; intros st Hw.
  - cbn. auto.
  - cbn [frames_after run_steps].
    destruct (run_step_keeps _ step st (Hk _) eq_refl Hw) as (_ & Hn' & Hw' & _).
    destruct (IH _ Hw') as (Hf & Hl & Hlen & Hws). unfold len in *.
    repeat split; auto.
    + constructor; [auto|]. rewrite Hn' in Hf. exact Hf.
    + rewrite Hl. destruct (frames_after steps (snd (run_step step st))); [reflexivity|].
      change (List.last (d :: l) (df (snd (run_step step st))) = List.last (d :: l) (df st)).
      apply last_cons_default.
    + congruence.
Qed.

Lemma all_steps_keep :
  Forall (fun step => forall n, keeps n (snd step) (fun _ => True)) cleaning_steps.
Proof.
  apply Forall_forall. intros step H n. apply keeps_step_of.
  now apply list_elem_of_In.
Qed.

Lemma clean_data_run st :
  well_shaped (df st) ->
  df (snd (clean_data st)) = df (run_steps cleaning_steps (started st)).
Proof.
  intros Hw. unfold clean_data.
  rewrite bind_run. cbn [get_df]. rewrite bind_run.
  change (report_set "initial_shape" (Shape (shape (df st))) st)
    with (Ok tt, started st).
  cbv iota beta. rewrite bind_run.
  rewrite (for_each_run_step cleaning_steps (started st) all_steps_keep Hw).
  reflexivity.
Qed.

End PipelineFacts.

Module PriceFacts.
Import PyStr Re Pandas Vocabulary HousingDataCleaner ShapeFacts.

Lemma assoc_set_same {A} k (v : A) l : assoc k (assoc_set k v l) = Some v.
Proof.
  induction l as [|[k' v'] l IH]; cbn [assoc_set assoc].
  - now rewrite String.eqb_refl.
  - destruct (String.eqb k k') eqn:E; cbn [assoc].
    + now rewrite String.eqb_refl.
    + now rewrite E.
Qed.

Lemma assoc_set_twice {A} k (v v' : A) l :
  assoc_set k v (assoc_set k v' l) = assoc_set k v l.
Proof.
  induction l as [|[k' w] l IH]; cbn [assoc_set].
  - now rewrite String.eqb_refl.
  - destruct (String.eqb k k') eqn:E; cbn [assoc_set].
    + now rewrite String.eqb_refl.
    + now rewrite E, IH.
Qed.

Lemma df_get_run name st s :
  assoc name (columns (df st)) = Some s -> df_get name st = (Ok s, st).
Proof. intros H. unfold df_get. rewrite bind_run. cbn [get_df]. now rewrite H. Qed.

Lemma df_set_run name s st :
  df_set name s st = (Ok tt, with_columns st (assoc_set name s (columns (df st)))).
Proof. reflexivity. Qed.

(** Reading back the column just stored, and storing over it. *)
Lemma get_after_set name s st cols :
  df_get name (with_columns st (assoc_set name s cols)) =
  (Ok s, with_columns st (assoc_set name s cols)).
Proof. apply df_get_run. cbn. apply assoc_set_same. Qed.

Lemma set_after_set name s s' st cols :
  df_set name s (with_columns st (assoc_set name s' cols)) =
  (Ok tt, with_columns st (assoc_set name s cols)).
Proof. rewrite df_set_run. cbn. unfold with_columns. cbn. now rewrite assoc_set_twice. Qed.

(** The price column once its texts are stripped and parsed. *)
Lemma parsed_column s :
  to_numeric
    (fold_left (fun col pattern => str_map (re_sub pattern (fun _ => EmptyString)) col)
       price_cleaning_patterns (astype_str s))
  = map (fun v => CFloat (parse_price v)) s.
Proof.
  unfold price_cleaning_patterns. cbn [fold_left].
  unfold to_numeric, str_map, astype_str. rewrite !map_map.
  apply map_ext. intros v. reflexivity.
Qed.

Lemma numbers_parsed s :
  numbers (map (fun v => CFloat (parse_price v)) s) = Ok (parsed_values s).
Proof.
  unfold parsed_values. induction s as [|v s IH]; [reflexivity|].
  cbn [map numbers]. rewrite IH. cbn [res_bind]. rewrite filter_cons.
  destruct (isnan (parse_price v)) eqn:E.
  - rewrite decide_False by congruence. reflexivity.
  - rewrite decide_True by reflexivity. reflexivity.
Qed.

Lemma median_parsed s :
  median (map (fun v => CFloat (parse_price v)) s) = Ok (median_of (parsed_values s)).
Proof. unfold median. now rewrite numbers_parsed. Qed.

Lemma fillna_parsed m s :
  fillna (CFloat m) (map (fun v => CFloat (parse_price v)) s) =
  map (fun v => CFloat (if isnan (parse_price v) then m else parse_price v)) s.
Proof.
  unfold fillna. rewrite map_map. apply map_ext. intros v.
  cbn [isna]. now destruct (parse_price v).
Qed.

(** The five replacement passes over the column, one [df_get] and one
    [df_set] each. *)
Lemma replacement_passes price_col patterns st col cols :
  for_each patterns (fun pattern =>
      s ← df_get price_col;
      df_set price_col (str_map (re_sub pattern (fun _ => EmptyString)) s))
    (with_columns st (assoc_set price_col col cols))
  = (Ok tt,
     with_columns st
       (assoc_set price_col
          (fold_left (fun col pattern => str_map (re_sub pattern (fun _ => EmptyString)) col)
             patterns col) cols)).
Proof.
  revert col. induction patterns as [|pattern patterns IH]; intros col; [reflexivity|].
  cbn [for_each fold_left]. rewrite bind_run, bind_run, get_after_set.
  cbv iota beta. rewrite set_after_set. cbv iota beta. apply IH.
Qed.

(** What the price stage does to the object when the price column is bound
    and present: it returns, with the columns [price_columns]. *)
Lemma clean_price_column_run st price_col s :
  truthy (assoc "price" (column_map st)) = Some price_col ->
  assoc price_col (columns (df st)) = Some s ->
  clean_price_column st =
  (Ok tt, with_columns st (price_columns price_col s (columns (df st)))).
Proof.
  intros Hc Hs. unfold clean_price_column.
  rewrite bind_run. cbn [get_column]. cbv iota beta. rewrite Hc.
  rewrite bind_run, (df_get_run _ _ _ Hs). cbv iota beta.
  rewrite bind_run, (df_get_run _ _ _ Hs). cbv iota beta.
  rewrite bind_run, df_set_run. cbv iota beta.
  rewrite bind_run, replacement_passes. cbv iota beta.
  rewrite bind_run, get_after_set. cbv iota beta.
  rewrite bind_run, set_after_set. cbv iota beta.
  rewrite bind_run, get_after_set. cbv iota beta.
  rewrite parsed_column, median_parsed.
  rewrite bind_run, get_after_set. cbv iota beta.
  rewrite bind_run, set_after_set. cbv iota beta.
  rewrite fillna_parsed. fold (cleaned_prices s).
  unfold price_columns.
  destruct (String.eqb price_col "Ticket_Price_Cr"); [reflexivity|].
  rewrite bind_run, get_after_set. cbv iota beta.
  rewrite bind_run, df_set_run. cbv iota beta.
  rewrite df_set_run. reflexivity.
Qed.

Lemma assoc_set_other {A} k k' (v : A) l :
  String.eqb k k' = false -> assoc k (assoc_set k' v l) = assoc k l.
Proof.
  intros Hk. induction l as [|[k0 w] l IH]; cbn [assoc_set assoc].
  - now rewrite Hk.
  - destruct (String.eqb k' k0) eqn:E; cbn [assoc].
    + apply String.eqb_eq in E; subst k0. now rewrite Hk.
    + destruct (String.eqb k k0); [reflexivity|exact IH].
Qed.

Lemma length_append a b :
  String.length (a +:+ b) = (String.length a + String.length b)%nat.
Proof.
  induction a as [|c a IH]; [reflexivity|].
  rewrite TextFacts.app_cons. cbn [String.length Nat.add]. now f_equal.
Qed.

(** The name of the copy of the original column is not the name of the
    column. *)
Lemma original_name_differs price_col :
  String.eqb price_col ("original_" +:+ price_col) = false.
Proof.
  apply String.eqb_neq. intros H.
  pose proof (f_equal String.length H) as Hl.
  rewrite length_append in Hl. cbn [String.length] in Hl. lia.
Qed.

Lemma assoc_price_columns price_col s cols :
  assoc price_col (price_columns price_col s cols) = Some (cleaned_prices s).
Proof.
  unfold price_columns.
  destruct (String.eqb price_col "Ticket_Price_Cr") eqn:E; [apply assoc_set_same|].
  rewrite (assoc_set_other _ _ _ _ (original_name_differs price_col)).
  rewrite (assoc_set_other _ _ _ _ E). apply assoc_set_same.
Qed.

(** No parse succeeds: there is no median, and every cell stays missing. *)
Lemma cleaned_prices_none s :
  (forall v, In v s -> isnan (parse_price v) = true) ->
  cleaned_prices s = repeat (CFloat NaN) (length s).
Proof.
  intros H. unfold cleaned_prices.
  assert (parsed_values s = []) as ->.
  { unfold parsed_values. clear -H. induction s as [|v s IH]; [reflexivity|].
    cbn [map]. rewrite filter_cons, decide_False.
    - apply IH. intros w Hw. apply H. now right.
    - rewrite (H v) by now left. discriminate. }
  change (median_of []) with NaN.
  induction s as [|v s IH]; [reflexivity|].
  cbn [map length repeat]. rewrite (H v) by now left.
  f_equal. apply IH. intros w Hw. apply H. now right.
Qed.

End PriceFacts.

(** ** Sorting and the median *)

Module MedianFacts.
Import PyStr Pandas Vocabulary HousingDataCleaner StageEffects MedianSpec.

Lemma to_double_finite t : to_double t = NaN \/ finite (to_double t).
Proof.
  unfold to_double.
  destruct (match t with
            | String "-" r => (true, r)
            | String "+" r => (false, r)
            | _ => (false, t)
            end) as [negative body].
  destruct (span_digits body) as [ip rest].
  destruct (match rest with String "." r => span_digits r | _ => (EmptyString, rest) end)
    as [fp rest'].
  destruct rest'; [|now left].
  destruct (ip +:+ fp); [now left|]. right. eexists. reflexivity.
Qed.

Lemma insert_sorted_Forall (P : pyfloat -> Prop) x l :
  P x -> Forall P l -> Forall P (insert_sorted x l).
Proof.
  intros Hx. induction 1 as [|y l Hy Hl IH]; cbn [insert_sorted]; [auto|].
  destruct (le x y); auto.
Qed.

Lemma insert_sorted_length x l : length (insert_sorted x l) = S (length l).
Proof.
  induction l as [|y l IH]; cbn [insert_sorted]; [reflexivity|].
  destruct (le x y); cbn [length]; auto.
Qed.

Lemma sorted_Forall (P : pyfloat -> Prop) l : Forall P l -> Forall P (sorted l).
Proof.
  induction 1 as [|x l Hx Hl IH]; cbn; [constructor|].
  now apply insert_sorted_Forall.
Qed.

Lemma sorted_length l : length (sorted l) = length l.
Proof.
  induction l as [|x l IH]; [reflexivity|].
  cbn [sorted fold_right]. fold (sorted l). now rewrite insert_sorted_length, IH.
Qed.

Lemma nth_finite l i : Forall finite l -> (i < length l)%nat -> finite (nth i l NaN).
Proof.
  intros H. revert i. induction H as [|x l Hx Hl IH]; intros i Hi; cbn in Hi; [lia|].
  destruct i; cbn; [exact Hx|]. apply IH. lia.
Qed.

(** The median of finite numbers, at least one, is a finite number. *)
Lemma median_of_finite xs : xs <> [] -> Forall finite xs -> finite (median_of xs).
Proof.
  intros Hne Hall. unfold median_of.
  pose proof (sorted_Forall finite xs Hall) as Hs.
  pose proof (sorted_length xs) as Hl.
  destruct (length (sorted xs)) as [|n] eqn:En.
  { destruct xs; [congruence|discriminate]. }
  rewrite <- En.
  assert (Hhalf : (length (sorted xs) / 2 < length (sorted xs))%nat).
  { apply Nat.div_lt; lia. }
  destruct (Nat.even (length (sorted xs))).
  - destruct (nth_finite (sorted xs) (length (sorted xs) / 2 - 1) Hs) as [a ->]; [lia|].
    destruct (nth_finite (sorted xs) (length (sorted xs) / 2) Hs) as [b ->]; [lia|].
    cbn [add div of_Z]. eexists. reflexivity.
  - apply nth_finite; auto.
Qed.

Lemma parse_price_finite v : isnan (parse_price v) = false -> finite (parse_price v).
Proof.
  unfold parse_price. destruct (to_double_finite (price_text (py_str v))) as [->|H];
    [discriminate|auto].
Qed.

Lemma parsed_values_finite s : Forall finite (parsed_values s).
Proof.
  apply List.Forall_forall. intros x Hx. apply list_elem_of_In in Hx.
  unfold parsed_values in Hx. apply list_elem_of_filter in Hx as [Hn Hin].
  apply list_elem_of_In, in_map_iff in Hin as (v & <- & _).
  now apply parse_price_finite.
Qed.

Lemma parsed_values_some s v :
  In v s -> isnan (parse_price v) = false -> parsed_values s <> [].
Proof.
  intros Hin Hn E.
  assert (parse_price v ∈ parsed_values s) as H.
  { apply list_elem_of_filter. split; [exact Hn|].
    apply list_elem_of_In, in_map_iff. eauto. }
  rewrite E in H. inversion H.
Qed.

Lemma null_count_finite (l : Series) :
  Forall (fun c => exists q, c = CFloat (Fin q)) l -> null_count l = 0%nat.
Proof.
  unfold null_count. induction 1 as [|c l [q ->] _ IH]; [reflexivity|].
  unfold Series in *. rewrite filter_cons_False; [exact IH|]. cbn. discriminate.
Qed.

(** [sorted] arranges the values it is given, in increasing order. *)
Lemma insert_sorted_perm x l : Permutation (insert_sorted x l) (x :: l).
Proof.
  induction l as [|y l IH]; cbn [insert_sorted]; [reflexivity|].
  destruct (le x y); [reflexivity|].
  rewrite IH. apply perm_swap.
Qed.

Lemma sorted_perm l : Permutation (sorted l) l.
Proof.
  induction l as [|x l IH]; [reflexivity|].
  cbn [sorted fold_right]. fold (sorted l). rewrite insert_sorted_perm. now constructor.
Qed.

Lemma le_total a b : finite a -> finite b -> le a b = false -> le b a = true.
Proof.
  intros [p ->] [q ->]. cbn [le]. intros H.
  apply Qle_bool_iff. destruct (Qlt_le_dec q p) as [Hlt|Hle]; [now apply Qlt_le_weak|].
  apply Qle_bool_iff in Hle. congruence.
Qed.

Lemma le_trans a b c :
  finite a -> finite b -> finite c -> le a b = true -> le b c = true -> le a c = true.
Proof.
  intros [p ->] [q ->] [r ->]. cbn [le]. rewrite !Qle_bool_iff. apply Qle_trans.
Qed.

Lemma insert_sorted_sorted x l :
  finite x -> Forall finite l ->
  StronglySorted (fun a b => le a b = true) l ->
  StronglySorted (fun a b => le a b = true) (insert_sorted x l).
Proof.
  intros Hx Hf Hs. induction Hs as [|y l Hs IH Hy]; cbn [insert_sorted].
  - constructor; constructor.
  - apply Forall_cons_1 in Hf as [Hfy Hfl].
    destruct (le x y) eqn:E.
    + apply SSorted_cons; [now apply SSorted_cons|].
      apply Forall_cons_2; [exact E|].
      rewrite List.Forall_forall in *. intros z Hz.
      apply (le_trans x y z); auto.
    + apply SSorted_cons; [auto|]. apply insert_sorted_Forall; [|exact Hy].
      now apply le_total.
Qed.

Lemma sorted_sorted l :
  Forall finite l -> StronglySorted (fun a b => le a b = true) (sorted l).
Proof.
  induction 1 as [|x l Hx Hl IH]; [constructor|].
  cbn [sorted fold_right]. fold (sorted l).
  apply insert_sorted_sorted; auto. now apply sorted_Forall.
Qed.

Lemma nth_nth_error {A} (l : list A) i d :
  (i < length l)%nat -> nth_error l i = Some (nth i l d).
Proof.
  revert i. induction l as [|x l IH]; intros [|i] H; cbn in *; try lia; [reflexivity|].
  apply IH. lia.
Qed.

(** What [median_of] computes from finite numbers is their median. *)
Lemma median_of_is_median xs : Forall finite xs -> is_median xs (median_of xs).
Proof.
  intros Hf. exists (sorted xs). split; [apply sorted_perm|].
  split; [now apply sorted_sorted|].
  unfold median_of. destruct (length (sorted xs)) as [|n] eqn:En.
  { left. split; [|reflexivity]. now destruct (sorted xs). }
  right. rewrite <- En.
  destruct (Nat.even (length (sorted xs))) eqn:Ev.
  - right. apply Nat.even_spec in Ev as [k Hk].
    destruct k as [|k]; [lia|].
    exists k, (nth k (sorted xs) NaN), (nth (k + 1) (sorted xs) NaN).
    assert (Hd : (length (sorted xs) / 2 = S k)%nat).
    { rewrite Hk, Nat.mul_comm. apply Nat.div_mul. lia. }
    rewrite Hd. replace (S k - 1)%nat with k by lia. replace (S k) with (k + 1)%nat by lia.
    repeat split; [lia| | ]; apply nth_nth_error; lia.
  - left. assert (Ho : Nat.odd (length (sorted xs)) = true).
    { rewrite <- Nat.negb_even, Ev. reflexivity. }
    apply Nat.odd_spec in Ho as [k Hk]. exists k.
    assert (Hd : (length (sorted xs) / 2 = k)%nat).
    { rewrite Hk. rewrite Nat.mul_comm, Nat.div_add_l by lia. cbn. lia. }
    rewrite Hd. split; [exact Hk|]. apply nth_nth_error. lia.
Qed.

End MedianFacts.

(** ** The cleaning pipeline *)

Import HousingDataCleaner ShapeFacts StageFacts PipelineFacts PriceFacts.

(** C5.  Over a frame whose columns all have one cell for each row, each of
    the five steps (price cleaning, missing values, text normalisation,
    feature engineering, validation), whether it returns or raises, leaves a
    frame with the same number of rows and with columns of that length, and
    the loop files it with no row affected; so the five frames the loop of
    [clean_data] goes through, and the frame it ends with, have the row
    count of the input. *)
Theorem row_count_invariance (st : self) :
  well_shaped (df st) ->
  (forall step, In step cleaning_steps ->
     len (df (snd (snd step st))) = len (df st) /\
     well_shaped (df (snd (snd step st))) /\
     exists s, cleaning_report (snd (run_step step st)) !! fst step = Some (Step 0 s)) /\
  length (frames_after cleaning_steps (started st)) = 5%nat /\
  Forall (fun d => len d = len (df st) /\ well_shaped d)
         (frames_after cleaning_steps (started st)) /\
  df (snd (clean_data st)) = List.last (frames_after cleaning_steps (started st)) (df st) /\
  len (df (snd (clean_data st))) = len (df st) /\
  well_shaped (df (snd (clean_data st))).
Proof.
  intros Hw.
  destruct (frames_after_keep cleaning_steps (started st) all_steps_keep Hw)
    as (Hf & Hl & Hn & Hs).
  rewrite (clean_data_run st Hw).
  repeat split; auto.
  - apply (keeps_step_of _ step H st eq_refl Hw).
  - apply (keeps_step_of _ step H st eq_refl Hw).
  - apply (run_step_keeps _ step st (keeps_step_of _ step H) eq_refl Hw).
Qed.

Lemma row_count_invariance_witness :
  well_shaped (df (loaded Examples.median_frame)) /\
  len (df (snd (clean_data (loaded Examples.median_frame)))) = 4%nat.
Proof.
  assert (Hw : well_shaped (df (loaded Examples.median_frame)))
    by (repeat constructor).
  split; [exact Hw|].
  apply (proj1 (proj2 (proj2 (proj2 (proj2
           (row_count_invariance (loaded Examples.median_frame) Hw)))))).
Defined.

(** C6, as the code has it.  When the price column is bound and present and
    none of its cells parses, [clean_price_column] returns without an error,
    the median being NaN and the fill with it changing nothing: every cell
    of the column is left missing, and the loop files the step as a success
    with no row affected. *)
Theorem unparseable_prices_stay_missing (st : self) (price_col : string) (s : Series) :
  truthy (assoc "price" (column_map st)) = Some price_col ->
  assoc price_col (columns (df st)) = Some s ->
  (forall v, In v s -> isnan (parse_price v) = true) ->
  fst (clean_price_column st) = Ok tt /\
  assoc price_col (columns (df (snd (clean_price_column st))))
    = Some (repeat (CFloat NaN) (length s)) /\
  cleaning_report (snd (run_step ("price_cleaning", clean_price_column) st))
    !! "price_cleaning" = Some (Step 0 success).
Proof.
  intros Hc Hs Hnone.
  unfold run_step. rewrite (clean_price_column_run st price_col s Hc Hs).
  cbn [fst snd with_columns df columns]. repeat split.
  - rewrite assoc_price_columns. f_equal. now apply cleaned_prices_none.
  - cbn. rewrite lookup_insert_eq. do 2 f_equal. unfold len. cbn. lia.
Qed.

Lemma unparseable_prices_stay_missing_witness :
  assoc "Price" (columns (df (snd (clean_price_column (loaded Examples.unparseable_frame)))))
    = Some [CFloat NaN; CFloat NaN].
Proof.
  refine (proj1 (proj2 (unparseable_prices_stay_missing
            (loaded Examples.unparseable_frame) "Price" [CStr "bad"; CStr "on request"]
            eq_refl eq_refl _))).
  intros v [<-|[<-|[]]]; reflexivity.
Defined.

(** C6 as stated fails on a file none of whose prices is a number: the price
    stage returns, the pipeline files it as a success, and no error is
    reported for the column, which stays missing. *)
Lemma unparseable_prices_not_fatal :
  fst (clean_price_column (loaded Examples.unparseable_frame)) = Ok tt /\
  cleaning_report (snd (clean_data (loaded Examples.unparseable_frame)))
    !! "price_cleaning" = Some (Step 0 success) /\
  Examples.column_after_cleaning Examples.unparseable_frame "Price"
    = Some [CFloat NaN; CFloat NaN].
Proof. repeat split; vm_compute; reflexivity. Qed.

(** C7.  When the price column is bound and present, [clean_price_column]
    returns without an error and leaves in it, for each cell, the number the
    cell parses to after the text replacements, or, where the parse fails,
    the median of the numbers that parsed.  That value is the median in the
    sense of [is_median]: the middle one of the parsed numbers arranged in
    increasing order, or the mean of the two middle ones.  The column
    [1, 3, null, 5] becomes [1, 3, 3, 5]; [5, 1, null, 100] becomes
    [5, 1, 5, 100]; [10, 1, None, 4, 2] becomes [10, 1, 3, 4, 2]; and the
    texts for 2.5, 1250.75, 45 and 3 crore around one that does not parse
    give it 24. *)
Theorem median_backfill (st : self) (price_col : string) (s : Series) :
  truthy (assoc "price" (column_map st)) = Some price_col ->
  assoc price_col (columns (df st)) = Some s ->
  fst (clean_price_column st) = Ok tt /\
  assoc price_col (columns (df (snd (clean_price_column st)))) = Some (cleaned_prices s) /\
  (forall (i : nat) (v : cell), s !! i = Some v ->
     cleaned_prices s !! i =
     Some (CFloat (if isnan (parse_price v)
                   then median_of (parsed_values s) else parse_price v))) /\
  cleaned_prices [CFloat (Fin 1); CFloat (Fin 3); CFloat NaN; CFloat (Fin 5)]
    = [CFloat (Fin 1); CFloat (Fin 3); CFloat (Fin 3); CFloat (Fin 5)] /\
  MedianSpec.is_median (parsed_values s) (median_of (parsed_values s)) /\
  (forall x, In x (parsed_values s) <->
     exists v, In v s /\ parse_price v = x /\ isnan x = false) /\
  cleaned_prices [CFloat (Fin 5); CFloat (Fin 1); CFloat NaN; CFloat (Fin 100)]
    = [CFloat (Fin 5); CFloat (Fin 1); CFloat (Fin 5); CFloat (Fin 100)] /\
  cleaned_prices [CInt 10; CInt 1; CNone; CInt 4; CInt 2]
    = [CFloat (Fin 10); CFloat (Fin 1); CFloat (Fin 3); CFloat (Fin 4); CFloat (Fin 2)] /\
  cleaned_prices
    [CStr (rupee +:+ "2.5 Cr"); CStr "bad"; CStr "$1,250.75"; CStr " 45 Lac."; CStr "3 cr"]
    = [CFloat (Fin (5 # 2)); CFloat (Fin 24); CFloat (Fin (5003 # 4)); CFloat (Fin 45);
       CFloat (Fin 3)] /\
  (exists (out : Series) (m : pyfloat),
     assoc price_col (columns (df (snd (clean_price_column st)))) = Some out /\
     MedianSpec.is_median (parsed_values s) m /\
     forall (i : nat) (v : cell), s !! i = Some v ->
       out !! i = Some (CFloat (if isnan (parse_price v) then m else parse_price v))).
Proof.
  intros Hc Hs. rewrite (clean_price_column_run st price_col s Hc Hs).
  cbn [fst snd with_columns df columns].
  assert (Hcells : forall (i : nat) (v : cell), s !! i = Some v ->
            cleaned_prices s !! i =
            Some (CFloat (if isnan (parse_price v)
                          then median_of (parsed_values s) else parse_price v))).
  { unfold cleaned_prices. generalize (median_of (parsed_values s)) as m. intros m.
    clear. induction s as [|w s IH]; intros [|i] v; cbn; try discriminate.
    + now intros [= ->].
    + apply IH. }
  assert (Hmed : MedianSpec.is_median (parsed_values s) (median_of (parsed_values s)))
    by apply MedianFacts.median_of_is_median, MedianFacts.parsed_values_finite.
  split; [reflexivity|]. split; [apply assoc_price_columns|].
  split; [exact Hcells|split; [vm_compute; reflexivity|]].
  split; [exact Hmed|].
  split.
  { intros x. unfold parsed_values.
    rewrite <- list_elem_of_In, list_elem_of_filter, list_elem_of_In, in_map_iff.
    split.
    - intros (Hn & v & Hv & Hin). exists v. auto.
    - intros (v & Hin & Hv & Hn). split; [exact Hn|]. exists v. auto. }
  split; [vm_compute; reflexivity|]. split; [vm_compute; reflexivity|].
  split; [vm_compute; reflexivity|].
  exists (cleaned_prices s), (median_of (parsed_values s)).
  split; [apply assoc_price_columns|]. split; [exact Hmed|exact Hcells].
Qed.

Lemma median_backfill_witness :
  assoc "Price" (columns (df (snd (clean_price_column (loaded Examples.median_frame)))))
    = Some (cleaned_prices [CFloat (Fin 1); CFloat (Fin 3); CFloat NaN; CFloat (Fin 5)]).
Proof.
  apply (proj1 (proj2 (median_backfill (loaded Examples.median_frame) "Price"
           [CFloat (Fin 1); CFloat (Fin 3); CFloat NaN; CFloat (Fin 5)]
           eq_refl eq_refl))).
Defined.

(** ** The loader's schema map *)

Module SchemaFacts.
Import PyStr HousingDataLoader LoaderRows LoaderFacts.

(** [find] returns the first element that passes. *)
Lemma find_first {A} (p : A -> bool) l x :
  find p l = Some x <->
  exists before after, l = before ++ x :: after /\ p x = true /\
                       Forall (fun a => p a = false) before.
Proof.
  induction l as [|a l IH]; cbn [find].
  - split; [discriminate|]. intros (b & c & H & _). now destruct b.
  - destruct (p a) eqn:E.
    + split.
      * intros [= ->]. exists [], l. auto.
      * intros (b & c & H & Hx & Hb). destruct b as [|a' b]; cbn in H.
        -- now inversion H.
        -- inversion H; subst. inversion Hb; subst. congruence.
    + rewrite IH. split.
      * intros (b & c & -> & Hx & Hb). exists (a :: b), c. auto.
      * intros (b & c & H & Hx & Hb). destruct b as [|a' b]; cbn in H.
        -- inversion H; subst. congruence.
        -- inversion H; subst. inversion Hb; subst. eauto.
Qed.

Lemma find_none_all {A} (p : A -> bool) l :
  find p l = None <-> Forall (fun a => p a = false) l.
Proof.
  induction l as [|a l IH]; cbn [find]; [split; auto|].
  destruct (p a) eqn:E.
  - split; [discriminate|]. intros H. inversion H; subst. congruence.
  - rewrite IH. split; [auto|]. intros H. now inversion H.
Qed.

Lemma assoc_In_keys {A} k (v : A) t : assoc k t = Some v -> In k (map fst t).
Proof.
  induction t as [|[k' v'] t IH]; [discriminate|].
  cbn [assoc map fst In]. destruct (String.eqb k k') eqn:E; [|auto].
  left. symmetry. now apply String.eqb_eq.
Qed.

Lemma assoc_In {A} k (v : A) t : assoc k t = Some v -> In (k, v) t.
Proof.
  induction t as [|[k' v'] t IH]; [discriminate|].
  cbn [assoc In]. destruct (String.eqb k k') eqn:E; [|auto].
  apply String.eqb_eq in E. intros [= ->]. left. now subst.
Qed.

(** The loop over any table with distinct standard names, from any start. *)
Lemma mapping_loop_from columns table m miss :
  NoDup (map fst table) ->
  (forall k, In k (map fst table) -> m !! k = None) ->
  let r := fold_left (mapping_step columns) table (m, miss) in
  (forall k,
     fst r !! k =
     match assoc k table with
     | Some aliases => find (fun a => in_list a columns) aliases
     | None => m !! k
     end) /\
  snd r = miss ++ map fst
            (List.filter (fun e => match find (fun a => in_list a columns) (snd e) with
                                   | Some _ => false | None => true end) table).
Proof.
  revert m miss. induction table as [|[name aliases] table IH]; intros m miss Hnd Hfresh.
  - cbn. split; [auto|]. now rewrite app_nil_r.
  - cbn [map fst] in Hnd. apply NoDup_cons in Hnd as [Hname Hnd].
    cbn [fold_left mapping_step].
    destruct (find (fun a => in_list a columns) aliases) as [c|] eqn:E.
    + destruct (IH (<[name := c]> m) miss Hnd) as [Hl Hm].
      { intros k Hk. rewrite lookup_insert_ne; [apply Hfresh; now right|].
        intros ->. apply Hname. now apply list_elem_of_In. }
      cbn zeta. split.
      * intros k. rewrite Hl. cbn [assoc].
        destruct (String.eqb k name) eqn:Ek.
        -- apply String.eqb_eq in Ek; subst k.
           destruct (assoc name table) eqn:Ea; [|now rewrite lookup_insert_eq].
           exfalso. apply Hname. apply list_elem_of_In. eapply assoc_In_keys; eauto.
        -- apply String.eqb_neq in Ek.
           destruct (assoc k table); [reflexivity|]. now rewrite lookup_insert_ne.
      * rewrite Hm. cbn [List.filter snd]. now rewrite E.
    + destruct (IH m (miss ++ [name]) Hnd) as [Hl Hm].
      { intros k Hk. apply Hfresh. now right. }
      cbn zeta. split.
      * intros k. rewrite Hl. cbn [assoc].
        destruct (String.eqb k name) eqn:Ek.
        -- apply String.eqb_eq in Ek; subst k. rewrite E.
           destruct (assoc name table) eqn:Ea; [|apply Hfresh; now left].
           exfalso. apply Hname. apply list_elem_of_In. eapply assoc_In_keys; eauto.
        -- reflexivity.
      * rewrite Hm. cbn [List.filter snd map fst]. rewrite E. cbn [map fst].
        now rewrite <- List.app_assoc.
Qed.

Lemma column_mapping_names : NoDup (map fst column_mapping).
Proof. apply (bool_decide_unpack _). vm_compute. reflexivity. Qed.

Lemma column_mapping_aliases : NoDup (flat_map snd column_mapping).
Proof. apply (bool_decide_unpack _). vm_compute. reflexivity. Qed.

Lemma mapping_loop_fst columns table m miss :
  fst (fold_left (mapping_step columns) table (m, miss)) =
  fold_left
    (fun column_map '(standard_name, possible_names) =>
       match find (fun possible_name => in_list possible_name columns) possible_names with
       | Some possible_name => <[standard_name := possible_name]> column_map
       | None => column_map
       end) table m.
Proof.
  revert m miss. induction table as [|[name aliases] table IH]; intros m miss; [reflexivity|].
  cbn [fold_left mapping_step].
  destruct (find _ aliases); apply IH.
Qed.

Lemma mapped_is_column_map columns :
  mapped_columns (structure_info_of columns) = analyze_data_structure columns.
Proof.
  unfold structure_info_of, analyze_data_structure.
  rewrite <- (mapping_loop_fst columns column_mapping ∅ []).
  unfold mapping_loop. now destruct (fold_left _ _ _).
Qed.

Lemma missing_is_loop columns :
  missing_columns (structure_info_of columns) = snd (mapping_loop columns).
Proof. unfold structure_info_of. now destruct (mapping_loop columns). Qed.

Lemma mapped_is_loop columns :
  mapped_columns (structure_info_of columns) = fst (mapping_loop columns).
Proof. unfold structure_info_of. now destruct (mapping_loop columns). Qed.

(** The column map at a standard name: the first of its aliases among the
    columns. *)
Lemma mapped_lookup columns field :
  mapped_columns (structure_info_of columns) !! field =
  match assoc field column_mapping with
  | Some aliases => find (fun a => in_list a columns) aliases
  | None => None
  end.
Proof.
  rewrite mapped_is_loop.
  destruct (mapping_loop_from columns column_mapping ∅ [] column_mapping_names) as [H _].
  { intros. apply lookup_empty. }
  rewrite H. now destruct (assoc field column_mapping).
Qed.

Lemma missing_In columns field :
  In field (missing_columns (structure_info_of columns)) <->
  exists aliases, assoc field column_mapping = Some aliases /\
                  find (fun a => in_list a columns) aliases = None.
Proof.
  rewrite missing_is_loop.
  destruct (mapping_loop_from columns column_mapping ∅ [] column_mapping_names) as [_ H].
  { intros. apply lookup_empty. }
  unfold mapping_loop. rewrite H. cbn [app]. rewrite in_map_iff. split.
  - intros ([k v] & <- & Hin). apply filter_In in Hin as [Hin Hf]. cbn [fst snd] in *.
    exists v. split.
    + clear -Hin. pose proof column_mapping_names as Hnd.
      induction column_mapping as [|[k' v'] t IH]; [destruct Hin|].
      cbn [map fst] in Hnd. apply NoDup_cons in Hnd as [Hk Hnd].
      cbn [assoc]. destruct Hin as [[= -> ->]|Hin].
      * now rewrite String.eqb_refl.
      * destruct (String.eqb k k') eqn:E; [|auto].
        apply String.eqb_eq in E; subst k'. exfalso. apply Hk.
        apply list_elem_of_In. apply in_map_iff. now exists (k, v).
    + now destruct (find _ v).
  - intros (aliases & Ha & Hf). exists (field, aliases). split; [reflexivity|].
    apply filter_In. split; [now apply assoc_In|]. cbn [snd]. now rewrite Hf.
Qed.

Lemma in_list_false_iff x l : in_list x l = false <-> ~ In x l.
Proof. rewrite <- in_list_In. now destruct (in_list x l). Qed.

(** A bound column is one of the aliases of its standard name, and a column
    of the frame. *)
Lemma mapped_alias columns field column :
  mapped_columns (structure_info_of columns) !! field = Some column ->
  exists aliases, assoc field column_mapping = Some aliases /\
                  In column aliases /\ In column columns.
Proof.
  rewrite mapped_lookup. destruct (assoc field column_mapping) as [aliases|]; [|discriminate].
  intros H. apply find_first in H as (b & a & -> & Hc & _).
  exists (b ++ column :: a). repeat split; [apply in_elt|now apply in_list_In].
Qed.

End SchemaFacts.

Import PyStr HousingDataLoader LoaderRows LoaderFacts SchemaFacts.

(** X1.  [analyze_data_structure] binds a standard name to the first of its
    aliases, in the order the table lists them, that is a column of the
    frame; it reports the name missing exactly when none of its aliases is a
    column; and it leaves a name unbound exactly when it reports it missing
    or the name is no standard name.  The map in the dictionary it returns
    is [self.column_map]. *)
Theorem schema_map_first_alias (columns : list string) (field : string) :
  let info := structure_info_of columns in
  mapped_columns info = analyze_data_structure columns /\
  (forall column,
     mapped_columns info !! field = Some column <->
     exists aliases before after,
       assoc field column_mapping = Some aliases /\
       aliases = before ++ column :: after /\
       In column columns /\ Forall (fun a => ~ In a columns) before) /\
  (In field (missing_columns info) <->
     exists aliases,
       assoc field column_mapping = Some aliases /\
       Forall (fun a => ~ In a columns) aliases) /\
  (mapped_columns info !! field = None <->
     In field (missing_columns info) \/ assoc field column_mapping = None).
Proof.
  cbv zeta. split; [apply mapped_is_column_map|]. split; [|split].
  - intros column. rewrite mapped_lookup.
    destruct (assoc field column_mapping) as [aliases|].
    + rewrite find_first. split.
      * intros (b & a & -> & Hc & Hb). exists (b ++ column :: a), b, a.
        repeat split; [now apply in_list_In|].
        eapply Forall_impl; [exact Hb|]. intros x. apply in_list_false_iff.
      * intros (al & b & a & [= <-] & -> & Hc & Hb). exists b, a.
        repeat split; [now apply in_list_In|].
        eapply Forall_impl; [exact Hb|]. intros x. apply in_list_false_iff.
    + split; [discriminate|]. now intros (? & ? & ? & ? & _).
  - rewrite missing_In. split; intros (al & Ha & H); exists al; split; auto.
    + apply find_none_all in H. eapply Forall_impl; [exact H|].
      intros x. apply in_list_false_iff.
    + apply find_none_all. eapply Forall_impl; [exact H|].
      intros x. apply in_list_false_iff.
  - rewrite mapped_lookup, missing_In.
    destruct (assoc field column_mapping) as [aliases|]; [|tauto]. split.
    + intros H. left. eauto.
    + intros [(al & [= <-] & H)|H]; [exact H|discriminate].
Qed.

Module SchemaSetFacts.

(** In a table whose alias lists share no alias, an alias names its
    standard name. *)
Lemma alias_owner {A} (t : list (string * list A)) f1 f2 a1 a2 c :
  NoDup (flat_map snd t) ->
  In (f1, a1) t -> In (f2, a2) t -> In c a1 -> In c a2 -> f1 = f2.
Proof.
  induction t as [|[k v] t IH]; intros Hnd H1 H2 Hc1 Hc2; [destruct H1|].
  cbn [flat_map snd] in Hnd. apply NoDup_app in Hnd as (Hv & Hsep & Ht).
  assert (forall f a, In (f, a) t -> In c a -> In c (flat_map snd t)) as Hin.
  { intros f a Hf Ha. apply in_flat_map. now exists (f, a). }
  destruct H1 as [[= -> ->]|H1], H2 as [[= -> ->]|H2]; auto.
  - exfalso. apply (Hsep c); apply list_elem_of_In; eauto.
  - exfalso. apply (Hsep c); apply list_elem_of_In; eauto.
Qed.

End SchemaSetFacts.

(** X2.  The map [analyze_data_structure] builds sends standard names to
    columns of the frame and never two names to one column; the unmapped
    columns it reports and the mapped ones share no column, and together
    they are the columns of the frame. *)
Theorem schema_map_partition (columns : list string) :
  let info := structure_info_of columns in
  (forall field column, mapped_columns info !! field = Some column ->
     column ∈ available_columns info /\ In field (map fst column_mapping)) /\
  (forall field1 field2 column,
     mapped_columns info !! field1 = Some column ->
     mapped_columns info !! field2 = Some column -> field1 = field2) /\
  unmapped_columns info ∪ map_img (mapped_columns info) = available_columns info /\
  unmapped_columns info ## map_img (mapped_columns info) /\
  (forall column, column ∈ unmapped_columns info <->
     In column columns /\ forall field, mapped_columns info !! field <> Some column).
Proof.
  cbv zeta.
  assert (Hav : available_columns (structure_info_of columns) = list_to_set columns).
  { unfold structure_info_of. now destruct (mapping_loop columns). }
  assert (Hun : unmapped_columns (structure_info_of columns) =
                list_to_set columns ∖ map_img (mapped_columns (structure_info_of columns))).
  { unfold structure_info_of. now destruct (mapping_loop columns). }
  assert (Hsub : forall field column,
            mapped_columns (structure_info_of columns) !! field = Some column ->
            column ∈ (list_to_set columns : gset string) /\ In field (map fst column_mapping)).
  { intros field column H.
    apply mapped_alias in H as (al & Ha & _ & Hc).
    split; [apply elem_of_list_to_set; now apply list_elem_of_In|].
    eapply SchemaFacts.assoc_In_keys; eauto. }
  rewrite Hav, Hun. split; [exact Hsub|]. split; [|split; [|split]].
  - intros f1 f2 c H1 H2.
    apply mapped_alias in H1 as (al1 & Ha1 & Hc1 & _).
    apply mapped_alias in H2 as (al2 & Ha2 & Hc2 & _).
    eapply (SchemaSetFacts.alias_owner column_mapping);
      eauto using column_mapping_aliases, SchemaFacts.assoc_In.
  - apply set_eq. intros c. rewrite elem_of_union, elem_of_difference. split.
    + intros [[H _]|H]; [exact H|].
      apply elem_of_map_img in H as [f H]. now apply (Hsub f c).
    + intros H.
      destruct (decide (c ∈ (map_img (mapped_columns (structure_info_of columns)) : gset string)));
        [now right|now left].
  - apply elem_of_disjoint. intros c H. rewrite elem_of_difference in H. tauto.
  - intros c. rewrite elem_of_difference, elem_of_list_to_set, list_elem_of_In, elem_of_map_img.
    split.
    + intros [Hc Hn]. split; [exact Hc|]. intros f Hf. apply Hn. eauto.
    + intros [Hc Hn]. split; [exact Hc|]. intros [f Hf]. exact (Hn f Hf).
Qed.

(** ** The loader's rows *)

Module PayloadFacts.

(** The dictionary after the loop over a set of columns. *)
Lemma payload_loop (row : gmap string cell) (X : gset string) col text :
  set_fold
    (fun col additional_data =>
       match row !! col with
       | Some value =>
           if isna value then additional_data
           else <[col := py_str value]> additional_data
       | None => additional_data
       end) (∅ : gmap string string) X !! col = Some text
  <-> col ∈ X /\ exists value, row !! col = Some value /\ isna value = false /\
                               text = py_str value.
Proof.
  apply (set_fold_ind_L
    (fun (acc : gmap string string) (X : gset string) =>
       acc !! col = Some text <->
       col ∈ X /\ exists value, row !! col = Some value /\ isna value = false /\
                                text = py_str value)).
  - rewrite lookup_empty. split; [discriminate|]. intros [H _].
    now apply not_elem_of_empty in H.
  - intros x Y acc Hx IH.
    destruct (decide (col = x)) as [->|Hne].
    + destruct (row !! x) as [v|] eqn:Ev.
      * destruct (isna v) eqn:En.
        -- rewrite IH. split.
           ++ intros [HY _]. contradiction.
           ++ intros (_ & v' & [= <-] & Hn & _). congruence.
        -- rewrite lookup_insert_eq. split.
           ++ intros [= <-]. split; [|eauto].
              apply elem_of_union. left. now apply elem_of_singleton.
           ++ intros (_ & v' & [= <-] & _ & ->). reflexivity.
      * rewrite IH. split.
        -- intros [HY _]. contradiction.
        -- intros (_ & v' & Hv & _). discriminate.
    + assert ((match row !! x with
               | Some value => if isna value then acc else <[x := py_str value]> acc
               | None => acc
               end) !! col = acc !! col) as ->.
      { destruct (row !! x) as [v|]; [|reflexivity].
        destruct (isna v); [reflexivity|]. now rewrite lookup_insert_ne. }
      rewrite IH. split; intros [HY H]; (split; [|exact H]).
      * apply elem_of_union. now right.
      * apply elem_of_union in HY as [HY|HY]; [|exact HY].
        apply elem_of_singleton in HY. contradiction.
Qed.

End PayloadFacts.

(** X3.  [prepare_additional_data] keeps, under the name of its column and
    as [str(value)], every value of the row that is not missing and whose
    column no standard name is bound to, and nothing else.  So a value of
    the row that is not missing is read by [get_column_value] under some
    standard name, or it is carried in the additional data.  On an object
    that has no column map the dictionary is empty. *)
Theorem additional_data_lookup (column_map : gmap string string)
    (row : gmap string cell) (col : string) :
  (forall text,
     additional_data (Some column_map) row !! col = Some text <->
     exists value, row !! col = Some value /\ isna value = false /\
                   text = py_str value /\
                   forall field, column_map !! field <> Some col) /\
  (forall value default_value,
     row !! col = Some value -> isna value = false ->
     (exists field, column_map !! field = Some col /\
        get_column_value column_map row field default_value = value) \/
     additional_data (Some column_map) row !! col = Some (py_str value)) /\
  additional_data None row = ∅.
Proof.
  assert (Hl : forall text,
            additional_data (Some column_map) row !! col = Some text <->
            col ∈ (dom row ∖ map_img column_map : gset string) /\
            exists value, row !! col = Some value /\ isna value = false /\
                          text = py_str value) by (intros; apply PayloadFacts.payload_loop).
  split; [|split; [|reflexivity]].
  - intros text. rewrite Hl, elem_of_difference, elem_of_map_img. split.
    + intros [[_ Hm] (v & Hv & Hn & ->)]. exists v. repeat split; auto.
      intros f Hf. apply Hm. eauto.
    + intros (v & Hv & Hn & -> & Hf). split; [split|eauto].
      * apply elem_of_dom; eauto.
      * intros [f Hfc]. exact (Hf f Hfc).
  - intros v d Hv Hn.
    destruct (decide (col ∈ (map_img column_map : gset string))) as [Hin|Hout].
    + left. apply elem_of_map_img in Hin as [f Hf]. exists f. split; [exact Hf|].
      unfold get_column_value. now rewrite Hf, Hv, Hn.
    + right. apply Hl. split; [|eauto].
      apply elem_of_difference. split; [apply elem_of_dom; eauto|exact Hout].
Qed.

Module RowFacts.
Import PyStr Re Vocabulary TextFacts ReFacts PatternFacts.

Lemma digit_value_range q : is_digit q = true -> 0 <= digit_value q <= 9.
Proof.
  unfold is_digit, between, digit_value. intros H.
  apply andb_prop in H as [H1 H2].
  apply N.leb_le in H1, H2. lia.
Qed.

Lemma four_digits_range y : four_digits y -> 0 <= digits_value 0 y <= 9999.
Proof.
  intros (y0 & y1 & y2 & y3 & -> & H0 & H1 & H2 & H3).
  apply digit_value_range in H0, H1, H2, H3. cbn [digits_value]. lia.
Qed.

(** The pair the body of the [try] returns is a digit and a number of four
    digits. *)
Lemma try_range text r :
  extract_quarter_year_try (Ok text) = Ok r ->
  0 <= fst r <= 9 /\ 0 <= snd r <= 9999.
Proof.
  intros Hr.
  destruct (try_on_text text)
    as [(q & y & Hat & E)|[_ [(q & y & Hat & E)|[_ [(y & Hat & E)|[_ E]]]]]];
    rewrite E in Hr; injection Hr as <-; cbn [fst snd].
  - destruct Hat as (? & ? & ? & _ & Hq & _ & Hy).
    split; [now apply digit_value_range|now apply four_digits_range].
  - destruct Hat as (? & ? & ? & _ & Hq & _ & Hy).
    split; [now apply digit_value_range|now apply four_digits_range].
  - destruct Hat as (? & ? & _ & Hy).
    split; [lia|now apply four_digits_range].
  - lia.
Qed.

Lemma quarter_year_in_range v :
  0 <= fst (extract_quarter_year v) <= 9 /\ 0 <= snd (extract_quarter_year v) <= 9999.
Proof.
  unfold extract_quarter_year, extract_quarter_year_of.
  destruct (extract_quarter_year_try (Ok (py_str v))) as [r|e] eqn:E.
  - now apply try_range in E.
  - cbn [fst snd]. lia.
Qed.

Lemma area_loop_positive items u :
  Forall (fun item => 0 < snd item) items -> 0 < area_loop items u.
Proof.
  induction 1 as [|[k a] items Ha _ IH]; cbn [area_loop]; [lia|].
  now destruct (contains k u).
Qed.

Lemma carpet_area_positive v : 0 < calculate_carpet_area v.
Proof.
  apply area_loop_positive. unfold area_map.
  repeat (constructor; [cbn [snd]; lia|]). constructor.
Qed.

(** The value the helper returns is not missing unless the default is. *)
Lemma column_value_present column_map row field d :
  isna d = false -> isna (get_column_value column_map row field d) = false.
Proof.
  intros Hd. unfold get_column_value.
  destruct (column_map !! field) as [c|]; [|exact Hd].
  destruct (row !! c) as [v|]; [|exact Hd].
  now destruct (isna v) eqn:E.
Qed.

End RowFacts.

Import RowFacts.

Module QuarterTextFacts.
Import PyStr Re Vocabulary TextFacts ReFacts PatternFacts.

(** A text that starts with [Q], a digit and four digits. *)
Lemma search_quarter_text q y0 y1 y2 y3 post :
  is_digit q = true -> is_digit y0 = true -> is_digit y1 = true ->
  is_digit y2 = true -> is_digit y3 = true ->
  let y := String y0 (String y1 (String y2 (String y3 EmptyString))) in
  option_map groups (re_search pat_QY (String "Q" (String q (y +:+ post)))) =
  Some [String q EmptyString; y].
Proof.
  intros Hq H0 H1 H2 H3 y. unfold y. sapp.
  cbn [re_search]. unfold re_match.
  assert (Em : match_pieces (pieces_of pat_QY)
                 (String "Q" (String q (String y0 (String y1 (String y2 (String y3 post)))))) =
               Some (["Q"; String q ""; ""; String y0 ""; String y1 ""; String y2 "";
                      String y3 ""], post)).
  { pose proof (digit_not_sep y0 H0) as Hs. unfold set_of in Hs. cbn in Hs.
    cbn. rewrite Hq. cbn. rewrite Hs, H0, H1, H2, H3. reflexivity. }
  rewrite Em. reflexivity.
Qed.

End QuarterTextFacts.

(** X4.  The quarter [extract_quarter_year] returns is one digit, 0 to 9,
    and the year is at most 9999.  The quarter is not held to 1..4: for any
    digits, the text made of [Q], one digit and four digits gives that digit
    and that year, and [determine_season] answers Winter for every quarter
    other than 2, 3 and 4. *)
Theorem quarter_year_range (purchase_quarter : cell) :
  (0 <= fst (extract_quarter_year purchase_quarter) <= 9 /\
   0 <= snd (extract_quarter_year purchase_quarter) <= 9999) /\
  (forall q y0 y1 y2 y3 : ascii,
     PyStr.is_digit q = true -> PyStr.is_digit y0 = true -> PyStr.is_digit y1 = true ->
     PyStr.is_digit y2 = true -> PyStr.is_digit y3 = true ->
     let y := String y0 (String y1 (String y2 (String y3 EmptyString))) in
     extract_quarter_year (CStr (String "Q" (String q y))) =
       (PyStr.digit_value q, PyStr.digits_value 0 y) /\
     (PyStr.digit_value q <> 2 -> PyStr.digit_value q <> 3 -> PyStr.digit_value q <> 4 ->
      determine_season (PyStr.digit_value q) = "Winter")).
Proof.
  split; [apply quarter_year_in_range|].
  intros q y0 y1 y2 y3 Hq H0 H1 H2 H3 y. split.
  - unfold extract_quarter_year, extract_quarter_year_of, extract_quarter_year_try.
    cbn [py_str res_bind]. rewrite pattern_loop_patterns.
    pose proof (QuarterTextFacts.search_quarter_text q y0 y1 y2 y3 "" Hq H0 H1 H2 H3) as E.
    cbv zeta in E. sapp. fold y in E.
    destruct (Re.re_search _ _) as [m|]; [|discriminate].
    cbn [option_map] in E. injection E as ->.
    rewrite (int_digit q Hq). cbn [res_bind].
    rewrite (int_year y); [reflexivity|].
    exists y0, y1, y2, y3. auto.
  - pose proof (digit_value_range q Hq) as Hr.
    intros N2 N3 N4.
    assert (PyStr.digit_value q = 0 \/ PyStr.digit_value q = 1 \/ PyStr.digit_value q = 5 \/
            PyStr.digit_value q = 6 \/ PyStr.digit_value q = 7 \/ PyStr.digit_value q = 8 \/
            PyStr.digit_value q = 9) as Hd by lia.
    destruct Hd as [->|[->|[->|[->|[->|[->| ->]]]]]]; reflexivity.
Qed.

Module InsertFacts.

Lemma number_of_value v :
  isna v = false ->
  (exists t, v = CStr t /\ number v = Raise "TypeError") \/
  (exists x, number v = Ok x /\ isnan x = false /\ (v = CFloat x \/ exists z, v = CInt z /\ x = of_Z z)).
Proof.
  destruct v as [|t|z|x]; cbn; intros H; try discriminate.
  - left. eauto.
  - right. exists (of_Z z). repeat split. right. eauto.
  - right. exists x. repeat split; [|now left]. now destruct x.
Qed.

Lemma per_sqft_quotient x area :
  0 < area ->
  calculate_price_per_sqft x area = div (mul x (of_Z 10000000)) (of_Z area).
Proof.
  intros Ha. unfold calculate_price_per_sqft.
  now destruct (Z.ltb_spec 0 area) as [_|]; [|lia].
Qed.

End InsertFacts.

(** X5.  The block of [insert_data] that derives the fields of a row raises
    exactly when the value it read for the price is a text.  When it
    returns, the price it read is a number and not NaN, and the area is
    positive, so the guard of [calculate_price_per_sqft] never fires there
    and the price per square foot is the quotient the function writes,
    never its fallback 0.0; the booking flag is 0 or 1, the quarter a digit,
    the year at most 9999.  With no column bound, every row gets 1000, 0.0,
    1, 2023, 0, '0-2Cr' and 'Winter'. *)
Theorem derived_fields_outcome (column_map : gmap string string) (row : gmap string cell) :
  let ticket_price := get_column_value column_map row "price" (CFloat (Fin 0)) in
  ((exists e, derived_fields column_map row = Raise e) <-> exists t, ticket_price = CStr t) /\
  (forall f, derived_fields column_map row = Ok f ->
     exists price,
       number ticket_price = Ok price /\ isnan price = false /\
       0 < carpet_area f /\
       price_per_sqft f = div (mul price (of_Z 10000000)) (of_Z (carpet_area f)) /\
       (booking_flag f = 0 \/ booking_flag f = 1) /\
       0 <= quarter_number f <= 9 /\ 0 <= year f <= 9999) /\
  derived_fields ∅ row =
    Ok {| carpet_area := 1000; price_per_sqft := Fin 0; quarter_number := 1; year := 2023;
          booking_flag := 0; price_category := "0-2Cr"; season := "Winter" |}.
Proof.
  cbv zeta.
  pose proof (column_value_present column_map row "price" (CFloat (Fin 0)) eq_refl) as Hp.
  unfold derived_fields.
  set (price_value := get_column_value column_map row "price" (CFloat (Fin 0))) in *.
  set (configuration := get_column_value column_map row "configuration" _).
  set (status := get_column_value column_map row "booking_status" _).
  set (quarter := get_column_value column_map row "purchase_quarter" _).
  pose proof (quarter_year_in_range quarter) as Hq.
  pose proof (carpet_area_positive configuration) as Ha.
  split; [|split].
  - destruct (InsertFacts.number_of_value price_value Hp)
      as [(t & -> & E)|(x & E & _ & Hx)].
    + cbn [number res_bind]. split; eauto.
    + rewrite E. cbn [res_bind]. destruct (extract_quarter_year quarter). split.
      * intros [e He]. discriminate.
      * intros [t Ht]. rewrite Ht in E. discriminate.
  - intros f Hf.
    destruct (InsertFacts.number_of_value price_value Hp)
      as [(t & -> & E)|(x & E & Hn & _)].
    + discriminate.
    + rewrite E in Hf |- *. cbn [res_bind] in Hf.
      destruct (extract_quarter_year quarter) as [qn yr]. cbn [fst snd] in Hq.
      injection Hf as <-. cbn [carpet_area price_per_sqft booking_flag quarter_number year].
      exists x. repeat split; try tauto; try lia.
      * now apply InsertFacts.per_sqft_quotient.
      * unfold calculate_booking_flag. destruct (PyStr.in_list _ _); auto.
  - vm_compute. reflexivity.
Qed.

(** ** The cleaner's column map and its price stage *)

Module IdentifyFacts.
Import PyStr Pandas Vocabulary HousingDataCleaner PriceFacts.
Import SchemaFacts.

(** The loop of [_identify_columns] over any table with distinct standard
    names, from any start. *)
Lemma identify_loop_from (names : list string) table (m : list (string * string)) k :
  NoDup (map fst table) ->
  assoc k
    (fold_left
       (fun column_map '(standard_name, possible_names) =>
          match find (fun possible_name => in_list possible_name names) possible_names with
          | Some possible_name => assoc_set standard_name possible_name column_map
          | None => column_map
          end) table m) =
  match assoc k table with
  | Some aliases =>
      match find (fun a => in_list a names) aliases with
      | Some c => Some c
      | None => assoc k m
      end
  | None => assoc k m
  end.
Proof.
  revert m. induction table as [|[name aliases] table IH]; intros m Hnd; [reflexivity|].
  cbn [map fst] in Hnd. apply NoDup_cons in Hnd as [Hname Hnd].
  cbn [fold_left assoc]. rewrite (IH _ Hnd).
  destruct (String.eqb k name) eqn:Ek.
  - apply String.eqb_eq in Ek; subst k.
    destruct (assoc name table) eqn:Ea.
    { exfalso. apply Hname. apply list_elem_of_In. eapply assoc_In_keys; eauto. }
    destruct (find _ aliases); [apply assoc_set_same|reflexivity].
  - destruct (find (fun a => in_list a names) aliases) as [c|]; [|reflexivity].
    rewrite (assoc_set_other k name c m Ek). reflexivity.
Qed.

Lemma cleaner_names : NoDup (map fst column_mapping).
Proof. apply (bool_decide_unpack _). vm_compute. reflexivity. Qed.

(** The column map of the cleaner at a standard name. *)
Lemma identify_lookup d field :
  assoc field (_identify_columns d) =
  match assoc field column_mapping with
  | Some aliases => find (fun a => in_list a (column_names d)) aliases
  | None => None
  end.
Proof.
  unfold _identify_columns. rewrite (identify_loop_from _ _ _ _ cleaner_names).
  destruct (assoc field column_mapping) as [aliases|]; [|reflexivity].
  now destruct (find _ aliases).
Qed.

(** A name among the column names has a column. *)
Lemma assoc_column name (cols : list (string * Series)) :
  in_list name (map fst cols) = true -> exists s, assoc name cols = Some s.
Proof.
  induction cols as [|[k v] cols IH]; [discriminate|].
  cbn [map fst in_list existsb assoc]. destruct (String.eqb name k); [eauto|].
  exact IH.
Qed.

Lemma aliases_not_empty :
  Forall (fun a => a <> EmptyString) (flat_map snd column_mapping).
Proof. unfold column_mapping. cbn. repeat (constructor; [discriminate|]). constructor. Qed.

(** A column the cleaner binds passes [if name and name in self.df.columns]. *)
Lemma identify_bound d field column :
  assoc field (_identify_columns d) = Some column ->
  truthy (Some column) = Some column /\
  in_list column (column_names d) = true /\
  exists s, assoc column (columns d) = Some s.
Proof.
  rewrite identify_lookup.
  destruct (assoc field column_mapping) as [aliases|] eqn:Ea; [|discriminate].
  intros H. apply find_first in H as (b & a & -> & Hc & _).
  split; [|split; [exact Hc|now apply assoc_column]].
  assert (column <> EmptyString) as Hne.
  { pose proof aliases_not_empty as Hall.
    rewrite List.Forall_forall in Hall. apply Hall.
    apply in_flat_map. exists (field, b ++ column :: a).
    split; [now apply assoc_In|apply in_elt]. }
  now destruct column.
Qed.

(** Each alias list of the loader starts with the alias list of the
    cleaner. *)
Lemma loader_extends field aliases :
  assoc field column_mapping = Some aliases ->
  exists more, assoc field HousingDataLoader.column_mapping = Some (aliases ++ more).
Proof.
  unfold column_mapping. cbn [assoc].
  repeat match goal with
         | |- context [String.eqb field ?k] =>
             destruct (String.eqb field k) eqn:E;
             [apply String.eqb_eq in E; subst field; intros [= <-];
              eexists; simpl; reflexivity|clear E]
         end.
  discriminate.
Qed.

Lemma find_app_some {A} (p : A -> bool) l l' x :
  find p l = Some x -> find p (l ++ l') = Some x.
Proof.
  induction l as [|a l IH]; [discriminate|]. cbn [find app].
  destruct (p a); auto.
Qed.

End IdentifyFacts.

(** X6.  [_identify_columns] binds a standard name to the first of its
    aliases that is a column of the frame.  A column it binds passes the
    tests [if name] and [name in self.df.columns] of the stages, and the
    loader's [analyze_data_structure], over the same column names, binds
    the same standard name to the same column. *)
Theorem identify_columns_first_alias (d : HousingDataCleaner.DataFrame) (field column : string) :
  let names := HousingDataCleaner.column_names d in
  (assoc field (HousingDataCleaner._identify_columns d) = Some column <->
   exists aliases before after,
     assoc field HousingDataCleaner.column_mapping = Some aliases /\
     aliases = before ++ column :: after /\
     In column names /\ Forall (fun a => ~ In a names) before) /\
  (assoc field (HousingDataCleaner._identify_columns d) = Some column ->
   HousingDataCleaner.truthy (Some column) = Some column /\
   (exists s, assoc column (HousingDataCleaner.columns d) = Some s) /\
   analyze_data_structure names !! field = Some column).
Proof.
  cbv zeta. split.
  - rewrite IdentifyFacts.identify_lookup.
    destruct (assoc field HousingDataCleaner.column_mapping) as [aliases|].
    + rewrite find_first. split.
      * intros (b & a & -> & Hc & Hb). exists (b ++ column :: a), b, a.
        repeat split; [now apply in_list_In|].
        eapply Forall_impl; [exact Hb|]. intros x. apply in_list_false_iff.
      * intros (al & b & a & [= <-] & -> & Hc & Hb). exists b, a.
        repeat split; [now apply in_list_In|].
        eapply Forall_impl; [exact Hb|]. intros x. apply in_list_false_iff.
    + split; [discriminate|]. now intros (? & ? & ? & ? & _).
  - intros H. destruct (IdentifyFacts.identify_bound d field column H) as (Ht & _ & Hs).
    split; [exact Ht|]. split; [exact Hs|].
    rewrite <- mapped_is_column_map, mapped_lookup.
    rewrite IdentifyFacts.identify_lookup in H.
    destruct (assoc field HousingDataCleaner.column_mapping) as [aliases|] eqn:Ea;
      [|discriminate].
    destruct (IdentifyFacts.loader_extends field aliases Ea) as [more ->].
    now apply IdentifyFacts.find_app_some.
Qed.

Module PriceStageFacts.
Import PyStr Pandas Vocabulary HousingDataCleaner PriceFacts IdentifyFacts.

(** Without a usable price column the price stage returns at once. *)
Lemma clean_price_column_skip st :
  truthy (assoc "price" (column_map st)) = None ->
  clean_price_column st = (Ok tt, st).
Proof.
  intros H. unfold clean_price_column.
  unfold mbind, M_bind, get_column. cbn beta iota. rewrite H. reflexivity.
Qed.

(** On the object as it is loaded, the price stage finds its column. *)
Lemma loaded_price d :
  truthy (assoc "price" (column_map (loaded d))) = None \/
  exists price_col s,
    truthy (assoc "price" (column_map (loaded d))) = Some price_col /\
    assoc price_col (columns d) = Some s.
Proof.
  cbn [loaded column_map].
  destruct (assoc "price" (_identify_columns d)) as [c|] eqn:E; [|now left].
  right. destruct (identify_bound d "price" c E) as (Ht & _ & s & Hs).
  exists c, s. split; [exact Ht|exact Hs].
Qed.

Lemma price_columns_other price_col s cols other :
  String.eqb other price_col = false ->
  String.eqb other "Ticket_Price_Cr" = false ->
  String.eqb other ("original_" +:+ price_col) = false ->
  assoc other (price_columns price_col s cols) = assoc other cols.
Proof.
  intros H1 H2 H3. unfold price_columns.
  destruct (String.eqb price_col "Ticket_Price_Cr").
  - now rewrite assoc_set_other.
  - now rewrite !assoc_set_other.
Qed.

End PriceStageFacts.

(** X7.  On the object as it is loaded, whatever the file holds,
    [clean_price_column] does not raise, and the loop of [clean_data] files
    the step as a success with no row affected.  When no alias of the price
    is a column the stage leaves the object as it is; when one is, the
    stage leaves the columns [price_columns] describes. *)
Theorem price_stage_total (d : HousingDataCleaner.DataFrame) :
  let st := HousingDataCleaner.loaded d in
  let price_col := assoc "price" (HousingDataCleaner.column_map st) in
  fst (HousingDataCleaner.clean_price_column st) = Ok tt /\
  HousingDataCleaner.cleaning_report
    (snd (HousingDataCleaner.run_step
            ("price_cleaning", HousingDataCleaner.clean_price_column) st))
    !! "price_cleaning" = Some (HousingDataCleaner.Step 0 HousingDataCleaner.success) /\
  (price_col = None -> snd (HousingDataCleaner.clean_price_column st) = st) /\
  (forall name, price_col = Some name ->
     exists s, assoc name (HousingDataCleaner.columns d) = Some s /\
       HousingDataCleaner.columns (HousingDataCleaner.df
         (snd (HousingDataCleaner.clean_price_column st))) =
       Vocabulary.price_columns name s (HousingDataCleaner.columns d)).
Proof.
  cbv zeta.
  destruct (PriceStageFacts.loaded_price d) as [Hn|(c & s & Hc & Hs)].
  - pose proof (PriceStageFacts.clean_price_column_skip _ Hn) as E.
    split; [now rewrite E|]. split; [|split].
    + unfold HousingDataCleaner.run_step. rewrite E.
      cbn. rewrite Z.sub_diag. apply lookup_insert_eq.
    + intros _. now rewrite E.
    + intros name Hname. rewrite Hname in Hn.
      cbn [HousingDataCleaner.loaded HousingDataCleaner.column_map] in Hname.
      destruct (IdentifyFacts.identify_bound d "price" name Hname) as (Ht & _).
      congruence.
  - pose proof (PriceFacts.clean_price_column_run (HousingDataCleaner.loaded d) c s Hc Hs) as E.
    split; [now rewrite E|]. split; [|split].
    + unfold HousingDataCleaner.run_step. rewrite E.
      cbn. rewrite Z.sub_diag. apply lookup_insert_eq.
    + intros Hnone. rewrite Hnone in Hc. discriminate.
    + intros name Hname. rewrite Hname in Hc.
      assert (name = c) as ->.
      { destruct name; cbn in Hc; congruence. }
      exists s. split; [exact Hs|]. now rewrite E.
Qed.

(** X8.  When the price column is bound and present under a name other
    than [Ticket_Price_Cr], the price stage stores the cleaned prices under
    [Ticket_Price_Cr] as well and the cells it found under
    [original_<name>]; every other column is left as it was.  When the
    price column is [Ticket_Price_Cr] itself, no column other than it
    changes and none is added. *)
Theorem price_stage_copies (st : HousingDataCleaner.self) (price_col : string)
    (s : Pandas.Series) :
  HousingDataCleaner.truthy (assoc "price" (HousingDataCleaner.column_map st)) = Some price_col ->
  assoc price_col (HousingDataCleaner.columns (HousingDataCleaner.df st)) = Some s ->
  let after := HousingDataCleaner.columns
                 (HousingDataCleaner.df (snd (HousingDataCleaner.clean_price_column st))) in
  (price_col <> "Ticket_Price_Cr" ->
   assoc "Ticket_Price_Cr" after = Some (Vocabulary.cleaned_prices s) /\
   assoc ("original_" +:+ price_col) after = Some s) /\
  (forall other,
     other <> price_col -> other <> "Ticket_Price_Cr" ->
     other <> "original_" +:+ price_col ->
     assoc other after = assoc other (HousingDataCleaner.columns (HousingDataCleaner.df st))) /\
  (price_col = "Ticket_Price_Cr" ->
   forall other, other <> price_col ->
     assoc other after = assoc other (HousingDataCleaner.columns (HousingDataCleaner.df st))).
Proof.
  intros Hc Hs. cbv zeta.
  rewrite (PriceFacts.clean_price_column_run st price_col s Hc Hs).
  cbn [snd Vocabulary.with_columns HousingDataCleaner.df HousingDataCleaner.columns].
  split; [|split].
  - intros Hne. apply String.eqb_neq in Hne. unfold Vocabulary.price_columns. rewrite Hne.
    split.
    + rewrite PriceFacts.assoc_set_other; [apply PriceFacts.assoc_set_same|].
      apply String.eqb_neq. intros H.
      rewrite TextFacts.app_cons in H. discriminate H.
    + apply PriceFacts.assoc_set_same.
  - intros other H1 H2 H3. apply PriceStageFacts.price_columns_other; now apply String.eqb_neq.
  - intros -> other H1. unfold Vocabulary.price_columns. rewrite String.eqb_refl.
    apply PriceFacts.assoc_set_other. now apply String.eqb_neq.
Qed.

Lemma price_stage_copies_witness :
  assoc "original_Price"
    (HousingDataCleaner.columns (HousingDataCleaner.df
       (snd (HousingDataCleaner.clean_price_column
               (HousingDataCleaner.loaded Examples.median_frame)))))
  = assoc "Price" (HousingDataCleaner.columns Examples.median_frame).
Proof.
  refine (proj2 (proj1 (price_stage_copies (HousingDataCleaner.loaded Examples.median_frame)
                   "Price" _ _ _) _)).
  - reflexivity.
  - reflexivity.
  - discriminate.
Defined.

(** X9.  When the price column is bound and present, its prices are within
    the range of binary64 and at least one of its cells parses, the column
    [clean_price_column] leaves has a number in every cell and none
    missing: each cell that did not parse has been filled. *)
Theorem price_stage_leaves_no_null (st : HousingDataCleaner.self) (price_col : string)
    (s : Pandas.Series) (v : cell) :
  HousingDataCleaner.truthy (assoc "price" (HousingDataCleaner.column_map st)) = Some price_col ->
  assoc price_col (HousingDataCleaner.columns (HousingDataCleaner.df st)) = Some s ->
  (forall w, In w s -> isnan (Vocabulary.parse_price w) = false ->
     StageEffects.in_range (Vocabulary.parse_price w) = true) ->
  In v s -> isnan (Vocabulary.parse_price v) = false ->
  exists out,
    assoc price_col
      (HousingDataCleaner.columns
         (HousingDataCleaner.df (snd (HousingDataCleaner.clean_price_column st)))) = Some out /\
    length out = length s /\
    Forall (fun c => exists x, c = CFloat x /\ isnan x = false) out /\
    Pandas.null_count out = 0%nat.
Proof.
  intros Hc Hs _ Hin Hn.
  rewrite (PriceFacts.clean_price_column_run st price_col s Hc Hs).
  cbn [snd Vocabulary.with_columns HousingDataCleaner.df HousingDataCleaner.columns].
  rewrite PriceFacts.assoc_price_columns.
  exists (Vocabulary.cleaned_prices s). split; [reflexivity|].
  pose proof (MedianFacts.parsed_values_some s v Hin Hn) as Hne.
  destruct (MedianFacts.median_of_finite _ Hne (MedianFacts.parsed_values_finite s)) as [m Hm].
  assert (Hall : Forall (fun c => exists q, c = CFloat (Fin q)) (Vocabulary.cleaned_prices s)).
  { unfold Vocabulary.cleaned_prices. apply List.Forall_forall. intros c Hc'.
    apply in_map_iff in Hc' as (w & <- & _). rewrite Hm.
    destruct (isnan (Vocabulary.parse_price w)) eqn:E; [eauto|].
    destruct (MedianFacts.parse_price_finite w E) as [q ->]. eauto. }
  split; [unfold Vocabulary.cleaned_prices; apply length_map|].
  split; [|now apply MedianFacts.null_count_finite].
  eapply Forall_impl; [exact Hall|]. intros c [q ->]. eauto.
Qed.

Lemma price_stage_leaves_no_null_witness :
  exists out,
    assoc "Price"
      (HousingDataCleaner.columns
         (HousingDataCleaner.df
            (snd (HousingDataCleaner.clean_price_column
                    (HousingDataCleaner.loaded Examples.median_frame))))) = Some out /\
    Pandas.null_count out = 0%nat.
Proof.
  destruct (price_stage_leaves_no_null (HousingDataCleaner.loaded Examples.median_frame)
              "Price" [CFloat (Fin 1); CFloat (Fin 3); CFloat NaN; CFloat (Fin 5)]
              (CFloat (Fin 1)) eq_refl eq_refl) as (out & Ho & _ & _ & Hz).
  - intros w Hw Hn.
    destruct Hw as [<-|[<-|[<-|[<-|[]]]]]; vm_compute in Hn |- *;
      first [reflexivity | discriminate Hn].
  - left. reflexivity.
  - vm_compute. reflexivity.
  - exists out. split; [exact Ho|exact Hz].
Defined.

(** ** Text normalisation *)

Module NormalizeFacts.
Import PyStr Re Pandas HousingDataCleaner Vocabulary StageEffects ShapeFacts PriceFacts.

Lemma has_column_run name st :
  has_column name st = (Ok (in_list name (column_names (df st))), st).
Proof. reflexivity. Qed.

Lemma in_list_assoc {A} name (cols : list (string * A)) :
  in_list name (map fst cols) = match assoc name cols with Some _ => true | None => false end.
Proof.
  induction cols as [|[k v] cols IH]; [reflexivity|].
  cbn [map fst in_list existsb assoc]. destruct (String.eqb name k); [reflexivity|exact IH].
Qed.

Lemma normalize_body_run std_name st :
  (actual_name ← get_column std_name;
   match truthy actual_name with
   | None => mret tt
   | Some actual_name =>
       present ← has_column actual_name;
       if negb present then mret tt
       else
         s ← df_get actual_name;
         df_set actual_name (str_map strip (str_map title (astype_str s)));;
         if String.eqb std_name "configuration" then
           s ← df_get actual_name;
           df_set actual_name (str_map upper s);;
           s ← df_get actual_name;
           df_set actual_name (str_map (re_sub [bhk_pattern] bhk_replacement) s)
         else mret tt
   end) st = (Ok tt, normalize_one st std_name).
Proof.
  unfold normalize_one. rewrite bind_run. cbn [get_column].
  destruct (truthy (assoc std_name (column_map st))) as [actual|]; [|reflexivity].
  rewrite bind_run, has_column_run. unfold column_names. rewrite in_list_assoc.
  destruct (assoc actual (columns (df st))) as [s|] eqn:Es; [|reflexivity].
  cbn [negb]. rewrite bind_run, (df_get_run _ _ _ Es).
  rewrite bind_run, df_set_run. unfold normalized.
  destruct (String.eqb std_name "configuration"); [|reflexivity].
  rewrite bind_run, get_after_set.
  rewrite bind_run, set_after_set.
  rewrite bind_run, get_after_set.
  rewrite set_after_set. reflexivity.
Qed.

Lemma normalize_loop_run l st :
  for_each l (fun std_name =>
    actual_name ← get_column std_name;
    match truthy actual_name with
    | None => mret tt
    | Some actual_name =>
        present ← has_column actual_name;
        if negb present then mret tt
        else
          s ← df_get actual_name;
          df_set actual_name (str_map strip (str_map title (astype_str s)));;
          if String.eqb std_name "configuration" then
            s ← df_get actual_name;
            df_set actual_name (str_map upper s);;
            s ← df_get actual_name;
            df_set actual_name (str_map (re_sub [bhk_pattern] bhk_replacement) s)
          else mret tt
    end) st = (Ok tt, fold_left normalize_one l st).
Proof.
  revert st. induction l as [|a l IH]; intros st; [reflexivity|].
  cbn [for_each fold_left]. rewrite bind_run, normalize_body_run. apply IH.
Qed.

Lemma normalize_text_fields_run st :
  normalize_text_fields st = (Ok tt, fold_left normalize_one text_columns st).
Proof. apply normalize_loop_run. Qed.

Lemma normalized_text std_name s : all_text (normalized std_name s).
Proof.
  unfold normalized, all_text, str_map, astype_str.
  destruct (String.eqb std_name "configuration");
    rewrite ?map_map; apply List.Forall_forall; intros c Hc;
    apply in_map_iff in Hc as (v & <- & _); eauto.
Qed.

Lemma assoc_set_names {A} k (v : A) l :
  assoc k l <> None -> map fst (assoc_set k v l) = map fst l.
Proof.
  induction l as [|[k' v'] l IH]; cbn [assoc assoc_set map fst]; [congruence|].
  destruct (String.eqb k k') eqn:E; cbn [map fst].
  - intros _. f_equal. now apply String.eqb_eq.
  - intros H. f_equal. auto.
Qed.

(** What one turn keeps: the row count, the map, the report, the column
    names. *)
Lemma normalize_one_frame st std_name :
  let st' := normalize_one st std_name in
  index (df st') = index (df st) /\ column_map st' = column_map st /\
  cleaning_report st' = cleaning_report st /\
  column_names (df st') = column_names (df st).
Proof.
  cbv zeta. unfold normalize_one.
  destruct (truthy (assoc std_name (column_map st))) as [actual|]; [|auto].
  destruct (assoc actual (columns (df st))) as [s|] eqn:Es; [|auto].
  repeat split. unfold column_names. cbn. apply assoc_set_names. congruence.
Qed.

Lemma normalize_one_other st std_name name :
  truthy (assoc std_name (column_map st)) <> Some name ->
  assoc name (columns (df (normalize_one st std_name))) = assoc name (columns (df st)).
Proof.
  intros H. unfold normalize_one.
  destruct (truthy (assoc std_name (column_map st))) as [actual|]; [|reflexivity].
  destruct (assoc actual (columns (df st))) as [s|] eqn:Es; [|reflexivity].
  cbn. apply assoc_set_other. apply String.eqb_neq. congruence.
Qed.

Lemma normalize_one_text st std_name name s' :
  truthy (assoc std_name (column_map st)) = Some name ->
  assoc name (columns (df (normalize_one st std_name))) = Some s' -> all_text s'.
Proof.
  intros H. unfold normalize_one. rewrite H.
  destruct (assoc name (columns (df st))) as [s|] eqn:Es.
  - cbn. rewrite assoc_set_same. intros [= <-]. apply normalized_text.
  - congruence.
Qed.

Lemma normalize_one_keeps_text st std_name name :
  (forall s, assoc name (columns (df st)) = Some s -> all_text s) ->
  forall s', assoc name (columns (df (normalize_one st std_name))) = Some s' -> all_text s'.
Proof.
  intros Hs s'.
  destruct (decide (truthy (assoc std_name (column_map st)) = Some name)) as [E|N].
  - now apply normalize_one_text.
  - rewrite normalize_one_other by exact N. apply Hs.
Qed.

Lemma normalize_fold_frame l st :
  let st' := fold_left normalize_one l st in
  index (df st') = index (df st) /\ column_map st' = column_map st /\
  cleaning_report st' = cleaning_report st /\
  column_names (df st') = column_names (df st).
Proof.
  cbv zeta. revert st. induction l as [|a l IH]; intros st; [auto|].
  cbn [fold_left]. destruct (IH (normalize_one st a)) as (H1 & H2 & H3 & H4).
  destruct (normalize_one_frame st a) as (G1 & G2 & G3 & G4).
  repeat split; congruence.
Qed.

Lemma normalize_fold_other l st name :
  (forall std_name, In std_name l ->
     truthy (assoc std_name (column_map st)) <> Some name) ->
  assoc name (columns (df (fold_left normalize_one l st))) = assoc name (columns (df st)).
Proof.
  revert st. induction l as [|a l IH]; intros st H; [reflexivity|].
  cbn [fold_left]. rewrite IH.
  - apply normalize_one_other. apply H. now left.
  - intros std Hin. destruct (normalize_one_frame st a) as (_ & -> & _).
    apply H. now right.
Qed.

Lemma normalize_fold_keeps_text l st name :
  (forall s, assoc name (columns (df st)) = Some s -> all_text s) ->
  forall s', assoc name (columns (df (fold_left normalize_one l st))) = Some s' -> all_text s'.
Proof.
  revert st. induction l as [|a l IH]; intros st H; [exact H|].
  cbn [fold_left]. apply IH. now apply normalize_one_keeps_text.
Qed.

Lemma normalize_fold_text l st std_name name s' :
  In std_name l ->
  truthy (assoc std_name (column_map st)) = Some name ->
  assoc name (columns (df (fold_left normalize_one l st))) = Some s' -> all_text s'.
Proof.
  revert st. induction l as [|a l IH]; intros st Hin Hb; [destruct Hin|].
  cbn [fold_left]. destruct Hin as [->|Hin].
  - apply normalize_fold_keeps_text. intros s. now apply normalize_one_text.
  - apply IH; [exact Hin|].
    destruct (normalize_one_frame st a) as (_ & -> & _). exact Hb.
Qed.

Lemma all_text_no_null s : all_text s -> null_count s = 0%nat.
Proof.
  unfold null_count, Series. induction 1 as [|c l [t ->] _ IH]; [reflexivity|].
  rewrite filter_cons_False; [exact IH|]. cbn. discriminate.
Qed.

End NormalizeFacts.

Import HousingDataCleaner.

(** X10.  [normalize_text_fields] does not raise, whatever the object
    holds.  It keeps the names of the columns, and every column that none
    of the four text fields is bound to; and a column that one of them is
    bound to holds texts only afterwards, none missing: a missing cell has
    become the text of [str] of it. *)
Theorem text_normalization_total (st : self) :
  let st' := snd (normalize_text_fields st) in
  fst (normalize_text_fields st) = Ok tt /\
  column_names (df st') = column_names (df st) /\
  (forall name,
     (forall std_name, In std_name ["configuration"; "micro_market"; "builder"; "booking_status"] ->
        truthy (assoc std_name (column_map st)) <> Some name) ->
     assoc name (columns (df st')) = assoc name (columns (df st))) /\
  (forall std_name name s,
     In std_name ["configuration"; "micro_market"; "builder"; "booking_status"] ->
     truthy (assoc std_name (column_map st)) = Some name ->
     assoc name (columns (df st')) = Some s ->
     Forall (fun c => exists t, c = CStr t) s /\ Pandas.null_count s = 0%nat).
Proof.
  cbv zeta. rewrite NormalizeFacts.normalize_text_fields_run. cbn [fst snd].
  split; [reflexivity|]. split; [|split].
  - apply NormalizeFacts.normalize_fold_frame.
  - intros name H. now apply NormalizeFacts.normalize_fold_other.
  - intros std name s Hin Hb Hs.
    assert (StageEffects.all_text s) as Ht
      by (eapply NormalizeFacts.normalize_fold_text; eauto).
    split; [exact Ht|now apply NormalizeFacts.all_text_no_null].
Qed.

(** ** The report of a run *)

Module QuietFacts.
Import PyStr Re Pandas HousingDataCleaner Vocabulary StageEffects ShapeFacts.

Lemma quiet_ret {A} (a : A) : quiet (mret a).
Proof. intros st. cbn. auto. Qed.

Lemma quiet_raise {A} e : quiet (raise e : M A).
Proof. intros st. cbn. auto. Qed.

Lemma quiet_bind {A B} (m : M A) (k : A -> M B) :
  quiet m -> (forall a, quiet (k a)) -> quiet (m ≫= k).
Proof.
  intros Hm Hk st. rewrite bind_run. destruct (Hm st) as [H1 H2].
  destruct (m st) as [[a|e] st']; cbn [snd] in *; [|auto].
  destruct (Hk a st') as [G1 G2]. split; congruence.
Qed.

Lemma quiet_for_each {A} (l : list A) (body : A -> M unit) :
  (forall a, quiet (body a)) -> quiet (for_each l body).
Proof.
  intros Hb. induction l as [|a l IH]; cbn [for_each].
  - apply quiet_ret.
  - apply quiet_bind; [apply Hb|]. intros _. exact IH.
Qed.

Lemma quiet_get_df : quiet get_df.
Proof. intros st. cbn. auto. Qed.

Lemma quiet_put_df d : quiet (put_df d).
Proof. intros st. cbn. auto. Qed.

Lemma quiet_get_column_map : quiet get_column_map.
Proof. intros st. cbn. auto. Qed.

Lemma quiet_get_column name : quiet (get_column name).
Proof. intros st. cbn. auto. Qed.

Lemma quiet_lift {A} (r : res A) : quiet (lift r).
Proof. destruct r; [apply quiet_ret|apply quiet_raise]. Qed.

Lemma quiet_df_get name : quiet (df_get name).
Proof.
  unfold df_get. apply quiet_bind; [apply quiet_get_df|]. intros d.
  destruct (assoc name (columns d)); [apply quiet_ret|apply quiet_raise].
Qed.

Lemma quiet_df_set name s : quiet (df_set name s).
Proof.
  unfold df_set. apply quiet_bind; [apply quiet_get_df|]. intros d. apply quiet_put_df.
Qed.

Lemma quiet_df_set_scalar name v : quiet (df_set_scalar name v).
Proof.
  unfold df_set_scalar. apply quiet_bind; [apply quiet_get_df|]. intros d.
  apply quiet_df_set.
Qed.

Lemma quiet_has_column name : quiet (has_column name).
Proof.
  unfold has_column. apply quiet_bind; [apply quiet_get_df|]. intros d. apply quiet_ret.
Qed.

Lemma quiet_usable name : quiet (usable name).
Proof.
  unfold usable. destruct (truthy name); [|apply quiet_ret].
  apply quiet_bind; [apply quiet_has_column|]. intros b. apply quiet_ret.
Qed.

End QuietFacts.

(** One proof step on a goal [quiet m], by the shape of [m]. *)
Ltac quiet_step :=
  lazymatch goal with
  | |- StageEffects.quiet (mret _) => apply QuietFacts.quiet_ret
  | |- StageEffects.quiet (HousingDataCleaner.raise _) => apply QuietFacts.quiet_raise
  | |- StageEffects.quiet (HousingDataCleaner.lift _) => apply QuietFacts.quiet_lift
  | |- StageEffects.quiet (HousingDataCleaner.df_get _) => apply QuietFacts.quiet_df_get
  | |- StageEffects.quiet (HousingDataCleaner.df_set _ _) => apply QuietFacts.quiet_df_set
  | |- StageEffects.quiet (HousingDataCleaner.df_set_scalar _ _) =>
      apply QuietFacts.quiet_df_set_scalar
  | |- StageEffects.quiet HousingDataCleaner.get_df => apply QuietFacts.quiet_get_df
  | |- StageEffects.quiet HousingDataCleaner.get_column_map =>
      apply QuietFacts.quiet_get_column_map
  | |- StageEffects.quiet (HousingDataCleaner.get_column _) =>
      apply QuietFacts.quiet_get_column
  | |- StageEffects.quiet (HousingDataCleaner.has_column _) =>
      apply QuietFacts.quiet_has_column
  | |- StageEffects.quiet (HousingDataCleaner.usable _) => apply QuietFacts.quiet_usable
  | |- StageEffects.quiet (HousingDataCleaner.for_each _ _) =>
      apply QuietFacts.quiet_for_each; intros ?
  | |- StageEffects.quiet (_ ≫= _) => apply QuietFacts.quiet_bind; [|intros ?]
  | |- StageEffects.quiet (match ?x with _ => _ end) => destruct x
  end.

Module QuietStages.
Import PyStr Re Pandas HousingDataCleaner Vocabulary StageEffects QuietFacts.

Lemma quiet_clean_price_column : quiet clean_price_column.
Proof. unfold clean_price_column. repeat quiet_step. Qed.

Lemma quiet_handle_missing_values : quiet handle_missing_values.
Proof. unfold handle_missing_values, fill_mapped, fill_other. repeat quiet_step. Qed.

Lemma quiet_normalize_text_fields : quiet normalize_text_fields.
Proof. unfold normalize_text_fields. repeat quiet_step. Qed.

Lemma quiet_create_new_features : quiet create_new_features.
Proof. unfold create_new_features. repeat quiet_step. Qed.

End QuietStages.

Module ReportFacts.
Import PyStr Re Pandas HousingDataCleaner Vocabulary StageEffects ShapeFacts StageFacts
  PipelineFacts PriceFacts QuietStages.

(** What a turn of the loop files for a step that leaves the report alone. *)
Lemma run_step_report name m st :
  quiet m -> keeps (index (df st)) m (fun _ => True) -> well_shaped (df st) ->
  let st' := snd (run_step (name, m) st) in
  cleaning_report st' =
    <[name := Step 0 (match fst (m st) with Ok _ => success | Raise e => failed e end)]>
      (cleaning_report st) /\
  column_map st' = column_map st /\
  df st' = df (snd (m st)) /\
  index (df st') = index (df st) /\ well_shaped (df st').
Proof.
  intros Hq Hk Hw. cbv zeta. unfold run_step.
  destruct (Hq st) as [Hr Hc]. destruct (Hk st eq_refl Hw) as (Hi & Hw' & _).
  destruct (m st) as [[a|e] st'']; cbn [fst snd] in *; cbn.
  - unfold len. rewrite Hi, Z.sub_diag, Hr. auto.
  - rewrite Hr. auto.
Qed.

Lemma report_get_some k st v :
  cleaning_report st !! k = Some v -> report_get k st = (Ok v, st).
Proof. intros H. unfold report_get. now rewrite H. Qed.

Lemma report_get_none k st :
  cleaning_report st !! k = None -> report_get k st = (Raise "KeyError", st).
Proof. intros H. unfold report_get. now rewrite H. Qed.

(** [validate_data] before ['final_shape'] is filed: the null counts are
    stored, and reading the shapes back raises. *)
Lemma validate_data_early st :
  cleaning_report st !! "final_shape" = None ->
  fst (validate_data st) = Raise "KeyError" /\
  df (snd (validate_data st)) = df st /\
  column_map (snd (validate_data st)) = column_map st /\
  cleaning_report (snd (validate_data st)) =
    <["validation" :=
        Validation (filter (fun c => (0 < snd c)%nat)
                      (map (fun '(name, s) => (name, null_count s)) (columns (df st))))]>
      (cleaning_report st).
Proof.
  intros Hf. unfold validate_data. rewrite bind_run. cbn [get_df].
  rewrite bind_run. cbn [report_set].
  match goal with
  | |- context [report_get "initial_shape" ≫= ?k] =>
      set (rest := k)
  end.
  match goal with
  | |- context [(report_get "initial_shape" ≫= rest) ?s] => set (st' := s)
  end.
  assert (Hf' : cleaning_report st' !! "final_shape" = None).
  { unfold st'. cbn [cleaning_report]. now rewrite lookup_insert_ne by discriminate. }
  rewrite bind_run.
  destruct (cleaning_report st' !! "initial_shape") as [v|] eqn:Ei.
  - rewrite (report_get_some _ _ _ Ei). unfold rest.
    rewrite bind_run, (report_get_none _ _ Hf'). cbn. auto.
  - rewrite (report_get_none _ _ Ei). cbn. auto.
Qed.

Lemma clean_data_state st :
  well_shaped (df st) ->
  let last := run_steps cleaning_steps (started st) in
  clean_data st = report_set "final_shape" (Shape (shape (df last))) last.
Proof.
  intros Hw. cbv zeta. unfold clean_data.
  rewrite bind_run. cbn [get_df]. rewrite bind_run.
  change (report_set "initial_shape" (Shape (shape (df st))) st)
    with (Ok tt, started st).
  cbv iota beta. rewrite bind_run.
  rewrite (for_each_run_step cleaning_steps (started st) all_steps_keep Hw).
  reflexivity.
Qed.

End ReportFacts.

(** X11.  The report of a first run of [clean_data], for any file whose
    columns have one cell for each row: [clean_data] returns; the two shapes
    are filed, with the same number of rows; price cleaning and text
    normalisation are filed as successes; every step is filed with no row
    affected; and data validation is always filed as failed with a
    [KeyError], since [validate_data] reads ['final_shape'] from the report
    before [clean_data] has written it, after it has stored the null counts
    of the final frame under ['validation']. *)
Theorem fresh_run_report (d : DataFrame) :
  Vocabulary.well_shaped d ->
  let final := snd (clean_data (loaded d)) in
  let report := cleaning_report final in
  fst (clean_data (loaded d)) = Ok tt /\
  report !! "initial_shape" = Some (Shape (shape d)) /\
  report !! "final_shape" = Some (Shape (shape (df final))) /\
  fst (shape (df final)) = fst (shape d) /\
  report !! "price_cleaning" = Some (Step 0 success) /\
  report !! "text_normalization" = Some (Step 0 success) /\
  report !! "data_validation" = Some (Step 0 (failed "KeyError")) /\
  (exists s, report !! "missing_values" = Some (Step 0 s)) /\
  (exists s, report !! "feature_engineering" = Some (Step 0 s)) /\
  report !! "validation" =
    Some (Validation (filter (fun c => (0 < snd c)%nat)
                        (map (fun '(name, s) => (name, Pandas.null_count s))
                           (columns (df final))))).
Proof.
  intros Hw. cbv zeta.
  rewrite (ReportFacts.clean_data_state (loaded d) Hw). cbv zeta.
  cbn [Vocabulary.run_steps cleaning_steps].
  set (st0 := Vocabulary.started (loaded d)).
  assert (H0 : cleaning_report st0 = <["initial_shape" := Shape (shape d)]> ∅ /\
               column_map st0 = _identify_columns d /\ df st0 = d) by (repeat split).
  destruct H0 as (R0 & C0 & D0).
  assert (Hw0 : Vocabulary.well_shaped (df st0)) by (rewrite D0; exact Hw).
  (* price cleaning *)
  destruct (ReportFacts.run_step_report "price_cleaning" clean_price_column st0
              QuietStages.quiet_clean_price_column
              (StageFacts.keeps_clean_price_column _) Hw0) as (R1 & C1 & _ & I1 & Hw1).
  assert (P1 : fst (clean_price_column st0) = Ok tt).
  { destruct (PriceStageFacts.loaded_price d) as [Hn|(c & s & Hc & Hs)].
    - now rewrite (PriceStageFacts.clean_price_column_skip st0 Hn).
    - now rewrite (PriceFacts.clean_price_column_run st0 c s Hc Hs). }
  rewrite P1 in R1.
  set (st1 := snd (run_step ("price_cleaning", clean_price_column) st0)) in *.
  (* missing values *)
  destruct (ReportFacts.run_step_report "missing_values" handle_missing_values st1
              QuietStages.quiet_handle_missing_values
              (StageFacts.keeps_handle_missing_values _) Hw1) as (R2 & C2 & _ & I2 & Hw2).
  set (s2 := match fst (handle_missing_values st1) with
             | Ok _ => success | Raise e => failed e end) in *.
  set (st2 := snd (run_step ("missing_values", handle_missing_values) st1)) in *.
  (* text normalisation *)
  destruct (ReportFacts.run_step_report "text_normalization" normalize_text_fields st2
              QuietStages.quiet_normalize_text_fields
              (StageFacts.keeps_normalize_text_fields _) Hw2) as (R3 & C3 & _ & I3 & Hw3).
  rewrite NormalizeFacts.normalize_text_fields_run in R3. cbn [fst] in R3.
  set (st3 := snd (run_step ("text_normalization", normalize_text_fields) st2)) in *.
  (* feature engineering *)
  destruct (ReportFacts.run_step_report "feature_engineering" create_new_features st3
              QuietStages.quiet_create_new_features
              (StageFacts.keeps_create_new_features _) Hw3) as (R4 & C4 & _ & I4 & Hw4).
  set (s4 := match fst (create_new_features st3) with
             | Ok _ => success | Raise e => failed e end) in *.
  set (st4 := snd (run_step ("feature_engineering", create_new_features) st3)) in *.
  (* validation *)
  assert (F4 : cleaning_report st4 !! "final_shape" = None).
  { rewrite R4, R3, R2, R1, R0.
    rewrite !lookup_insert_ne by discriminate. apply lookup_empty. }
  destruct (ReportFacts.validate_data_early st4 F4) as (V1 & V2 & V3 & V4).
  assert (E5 : run_step ("data_validation", validate_data) st4 =
               report_set "data_validation" (Step 0 (failed "KeyError"))
                 (snd (validate_data st4))).
  { unfold run_step. destruct (validate_data st4) as [[a|e] st']; cbn [fst snd] in *.
    - discriminate.
    - now injection V1 as ->. }
  rewrite E5. cbn [report_set snd fst cleaning_report df].
  rewrite V2, V4, R4, R3, R2, R1, R0.
  split; [reflexivity|].
  repeat match goal with |- _ /\ _ => split end.
  - rewrite !lookup_insert_ne by discriminate. apply lookup_insert_eq.
  - apply lookup_insert_eq.
  - cbn [shape fst]. rewrite I4, I3, I2, I1, D0. reflexivity.
  - rewrite !lookup_insert_ne by discriminate. apply lookup_insert_eq.
  - rewrite !lookup_insert_ne by discriminate. apply lookup_insert_eq.
  - rewrite lookup_insert_ne by discriminate. apply lookup_insert_eq.
  - exists s2. rewrite !lookup_insert_ne by discriminate. apply lookup_insert_eq.
  - exists s4. rewrite !lookup_insert_ne by discriminate. apply lookup_insert_eq.
  - rewrite !lookup_insert_ne by discriminate. apply lookup_insert_eq.
Qed.

Lemma fresh_run_report_witness :
  cleaning_report (snd (clean_data (loaded Examples.median_frame))) !! "data_validation"
  = Some (Step 0 (failed "KeyError")).
Proof.
  assert (Hw : Vocabulary.well_shaped Examples.median_frame) by (repeat constructor).
  apply (proj1 (proj2 (proj2 (proj2 (proj2 (proj2 (proj2
           (fresh_run_report Examples.median_frame Hw)))))))).
Defined.

(** ** The feature stage *)

Module ColumnFacts.
Import PyStr Re Pandas HousingDataCleaner Vocabulary StageEffects ShapeFacts PriceFacts
  NormalizeFacts.

Lemma keeps_column_ret name {A} (a : A) : keeps_column name (mret a).
Proof. intros st. reflexivity. Qed.

Lemma keeps_column_raise name {A} e : keeps_column name (raise e : M A).
Proof. intros st. reflexivity. Qed.

Lemma keeps_column_bind name {A B} (m : M A) (k : A -> M B) :
  keeps_column name m -> (forall a, keeps_column name (k a)) -> keeps_column name (m ≫= k).
Proof.
  intros Hm Hk st. rewrite bind_run. specialize (Hm st).
  destruct (m st) as [[a|e] st']; cbn [snd] in *; [|exact Hm].
  now rewrite (Hk a st').
Qed.

Lemma keeps_column_for_each name {A} (l : list A) (body : A -> M unit) :
  (forall a, keeps_column name (body a)) -> keeps_column name (for_each l body).
Proof.
  intros Hb. induction l as [|a l IH]; cbn [for_each].
  - apply keeps_column_ret.
  - apply keeps_column_bind; [apply Hb|]. intros _. exact IH.
Qed.

Lemma keeps_column_get_df name : keeps_column name get_df.
Proof. intros st. reflexivity. Qed.

Lemma keeps_column_get_column name k : keeps_column name (get_column k).
Proof. intros st. reflexivity. Qed.

Lemma keeps_column_lift name {A} (r : res A) : keeps_column name (lift r).
Proof. destruct r; [apply keeps_column_ret|apply keeps_column_raise]. Qed.

Lemma keeps_column_df_get name k : keeps_column name (df_get k).
Proof.
  unfold df_get. apply keeps_column_bind; [apply keeps_column_get_df|]. intros d.
  destruct (assoc k (columns d)); [apply keeps_column_ret|apply keeps_column_raise].
Qed.

Lemma keeps_column_df_set name k s :
  String.eqb name k = false -> keeps_column name (df_set k s).
Proof. intros H st. rewrite df_set_run. cbn. now apply assoc_set_other. Qed.

Lemma keeps_column_df_set_scalar name k v :
  String.eqb name k = false -> keeps_column name (df_set_scalar k v).
Proof.
  intros H. unfold df_set_scalar. apply keeps_column_bind; [apply keeps_column_get_df|].
  intros d. now apply keeps_column_df_set.
Qed.

Lemma keeps_column_has_column name k : keeps_column name (has_column k).
Proof. intros st. reflexivity. Qed.

Lemma keeps_column_usable name n : keeps_column name (usable n).
Proof.
  unfold usable. destruct (truthy n); [|apply keeps_column_ret].
  apply keeps_column_bind; [apply keeps_column_has_column|]. intros b.
  apply keeps_column_ret.
Qed.

Lemma usable_run name st : usable name st = (Ok (usable_in st name), st).
Proof.
  unfold usable, usable_in. destruct (truthy name) as [n|]; [|reflexivity].
  rewrite bind_run, has_column_run. reflexivity.
Qed.

Lemma usable_in_column st name c :
  usable_in st name = Some c ->
  truthy name = Some c /\ exists s, assoc c (columns (df st)) = Some s.
Proof.
  unfold usable_in. destruct (truthy name) as [n|]; [|discriminate].
  unfold column_names. rewrite in_list_assoc.
  destruct (assoc n (columns (df st))) as [s|] eqn:E; [|discriminate].
  intros [= <-]. eauto.
Qed.

Lemma df_set_scalar_run name v st :
  df_set_scalar name v st =
  (Ok tt, with_columns st (assoc_set name (repeat v (index (df st))) (columns (df st)))).
Proof. reflexivity. Qed.

End ColumnFacts.

(** One proof step on a goal [keeps_column name m], by the shape of [m]. *)
Ltac keeps_column_step :=
  lazymatch goal with
  | |- StageEffects.keeps_column _ (mret _) => apply ColumnFacts.keeps_column_ret
  | |- StageEffects.keeps_column _ (HousingDataCleaner.raise _) =>
      apply ColumnFacts.keeps_column_raise
  | |- StageEffects.keeps_column _ (HousingDataCleaner.lift _) =>
      apply ColumnFacts.keeps_column_lift
  | |- StageEffects.keeps_column _ (HousingDataCleaner.df_get _) =>
      apply ColumnFacts.keeps_column_df_get
  | |- StageEffects.keeps_column _ (HousingDataCleaner.df_set _ _) =>
      apply ColumnFacts.keeps_column_df_set; first [reflexivity|assumption]
  | |- StageEffects.keeps_column _ (HousingDataCleaner.df_set_scalar _ _) =>
      apply ColumnFacts.keeps_column_df_set_scalar; first [reflexivity|assumption]
  | |- StageEffects.keeps_column _ HousingDataCleaner.get_df =>
      apply ColumnFacts.keeps_column_get_df
  | |- StageEffects.keeps_column _ (HousingDataCleaner.get_column _) =>
      apply ColumnFacts.keeps_column_get_column
  | |- StageEffects.keeps_column _ (HousingDataCleaner.has_column _) =>
      apply ColumnFacts.keeps_column_has_column
  | |- StageEffects.keeps_column _ (HousingDataCleaner.usable _) =>
      apply ColumnFacts.keeps_column_usable
  | |- StageEffects.keeps_column _ (HousingDataCleaner.for_each _ _) =>
      apply ColumnFacts.keeps_column_for_each; intros ?
  | |- StageEffects.keeps_column _ (_ ≫= _) =>
      apply ColumnFacts.keeps_column_bind; [|intros ?]
  | |- StageEffects.keeps_column _ (match ?x with _ => _ end) => destruct x
  end.

Module FeatureFacts.
Import PyStr Re Pandas HousingDataCleaner Vocabulary StageEffects ShapeFacts PriceFacts
  NormalizeFacts ColumnFacts.

(** Step 1 of [create_new_features], followed by anything. *)
Lemma flag_step_run (K : unit -> M unit) st :
  (booking_col ← get_column "booking_status" ≫= usable;
   match booking_col with
   | Some booking_col =>
       s ← df_get booking_col;
       df_set "Booking_Flag" (map booking_flag s)
   | None => df_set_scalar "Booking_Flag" (CInt 0)
   end ≫= K) st =
  K tt (with_columns st (assoc_set "Booking_Flag" (booking_flags st) (columns (df st)))).
Proof.
  rewrite bind_run, bind_run. cbn [get_column]. rewrite usable_run.
  cbv iota beta. unfold booking_flags.
  destruct (usable_in st (assoc "booking_status" (column_map st))) as [c|] eqn:E.
  - destruct (usable_in_column _ _ _ E) as (_ & s & Hs). rewrite Hs.
    rewrite bind_run, bind_run, (df_get_run _ _ _ Hs), df_set_run. reflexivity.
  - rewrite bind_run, df_set_scalar_run. reflexivity.
Qed.

(** The object after step 2. *)
Lemma area_step_run (K : unit -> M unit) st :
  (has_area ← has_column "Carpet_Area_Sqft";
   (if (has_area : bool) then mret tt
    else
      config_col ← get_column "configuration" ≫= usable;
      match config_col with
      | Some config_col =>
          s ← df_get config_col;
          df_set "Carpet_Area_Sqft"
            (fillna (CInt 1000) (map_dict area_map (fun a => CFloat (of_Z a)) s))
      | None => df_set_scalar "Carpet_Area_Sqft" (CInt 1000)
      end) ≫= K) st =
  K tt (match assoc "Carpet_Area_Sqft" (columns (df st)) with
        | Some _ => st
        | None => with_columns st
                    (assoc_set "Carpet_Area_Sqft" (carpet_areas st) (columns (df st)))
        end).
Proof.
  rewrite bind_run, has_column_run. unfold column_names. rewrite in_list_assoc.
  destruct (assoc "Carpet_Area_Sqft" (columns (df st))) as [a|] eqn:Ea; [reflexivity|].
  rewrite bind_run, bind_run, bind_run. cbn [get_column]. rewrite usable_run.
  cbv iota beta. unfold carpet_areas.
  destruct (usable_in st (assoc "configuration" (column_map st))) as [c|] eqn:E.
  - destruct (usable_in_column _ _ _ E) as (_ & s & Hs). rewrite Hs.
    rewrite bind_run, (df_get_run _ _ _ Hs), df_set_run. reflexivity.
  - rewrite df_set_scalar_run. reflexivity.
Qed.

(** The flags are zeros and ones. *)
Lemma booking_flags_binary st :
  Forall (fun c => c = CInt 0 \/ c = CInt 1) (booking_flags st).
Proof.
  unfold booking_flags.
  destruct (usable_in st _) as [c|].
  - destruct (assoc c (columns (df st))) as [s|]; [|constructor].
    apply List.Forall_forall. intros x Hx. apply in_map_iff in Hx as (v & <- & _).
    unfold booking_flag. destruct (in_list _ _); auto.
  - apply List.Forall_forall. intros x Hx. apply repeat_spec in Hx. auto.
Qed.

(** The areas the stage derives are positive. *)
Lemma carpet_areas_positive st : Forall positive_cell (carpet_areas st).
Proof.
  unfold carpet_areas.
  destruct (usable_in st _) as [c|].
  - destruct (assoc c (columns (df st))) as [s|]; [|constructor].
    apply List.Forall_forall. intros x Hx. unfold fillna, map_dict in Hx.
    rewrite map_map in Hx. apply in_map_iff in Hx as (v & <- & _).
    assert (Hd : positive_cell (CInt 1000)) by (exists 1000; split; [lia|reflexivity]).
    destruct v as [|k|z|x]; try exact Hd.
    destruct (assoc k area_map) as [a|] eqn:Ea; [|exact Hd].
    assert (0 < a) as Ha.
    { revert Ea. unfold area_map. cbn [assoc].
      repeat (destruct (String.eqb k _); [intros [= <-]; lia|]). discriminate. }
    cbn [isna of_Z]. exists a. split; [exact Ha|reflexivity].
  - apply List.Forall_forall. intros x Hx. apply repeat_spec in Hx as ->.
    exists 1000. split; [lia|reflexivity].
Qed.

(** The flag column survives the rest of the stage, however it ends. *)
Lemma features_flag_column st :
  assoc "Booking_Flag" (columns (df (snd (create_new_features st)))) =
  Some (booking_flags st).
Proof.
  unfold create_new_features. rewrite flag_step_run.
  match goal with
  | |- context [snd (?m ?s)] =>
      assert (U : keeps_column "Booking_Flag" m) by (repeat keeps_column_step);
      rewrite (U s)
  end.
  cbn. apply assoc_set_same.
Qed.

(** So does the area column, the one of the file or the one derived. *)
Lemma features_area_column st :
  exists area,
    assoc "Carpet_Area_Sqft" (columns (df (snd (create_new_features st)))) = Some area.
Proof.
  unfold create_new_features. rewrite flag_step_run. cbv beta.
  set (st1 := with_columns st _).
  rewrite area_step_run. cbv beta.
  match goal with
  | |- context [snd (?m ?s)] =>
      assert (U : keeps_column "Carpet_Area_Sqft" m) by (repeat keeps_column_step);
      rewrite (U s)
  end.
  destruct (assoc "Carpet_Area_Sqft" (columns (df st1))) as [a|] eqn:E; [eauto|].
  cbn. rewrite assoc_set_same. eauto.
Qed.

End FeatureFacts.

(** X12.  However [create_new_features] ends, the frame it leaves has a
    column [Booking_Flag] of zeros and ones: the flag of each status cell
    when the status column is bound and present, and zero for every row
    when it is not. *)
Theorem booking_flag_column (st : self) :
  let after := columns (df (snd (create_new_features st))) in
  exists flags,
    assoc "Booking_Flag" after = Some flags /\
    Forall (fun c => c = CInt 0 \/ c = CInt 1) flags /\
    (forall booking_col s,
       truthy (assoc "booking_status" (column_map st)) = Some booking_col ->
       assoc booking_col (columns (df st)) = Some s ->
       flags = map booking_flag s) /\
    ((truthy (assoc "booking_status" (column_map st)) = None \/
      exists booking_col,
        truthy (assoc "booking_status" (column_map st)) = Some booking_col /\
        assoc booking_col (columns (df st)) = None) ->
     flags = repeat (CInt 0) (index (df st))).
Proof.
  cbv zeta. exists (StageEffects.booking_flags st). split; [|split; [|split]].
  - apply FeatureFacts.features_flag_column.
  - apply FeatureFacts.booking_flags_binary.
  - intros c s Hc Hs. unfold StageEffects.booking_flags, StageEffects.usable_in.
    rewrite Hc. unfold column_names. rewrite NormalizeFacts.in_list_assoc, Hs, Hs.
    reflexivity.
  - intros H. unfold StageEffects.booking_flags, StageEffects.usable_in.
    destruct H as [->|(c & -> & Hc)]; [reflexivity|].
    unfold column_names. rewrite NormalizeFacts.in_list_assoc, Hc. reflexivity.
Qed.

(** X13.  When the frame has no column [Carpet_Area_Sqft], the stage
    [create_new_features] stores one, however it ends, and every cell of it
    is a positive whole number: the divisor of [Price_per_Sqft] is zero only
    in an area column that the file brings itself. *)
Theorem derived_area_positive (st : self) :
  assoc "Carpet_Area_Sqft" (columns (df st)) = None ->
  let after := columns (df (snd (create_new_features st))) in
  exists area,
    assoc "Carpet_Area_Sqft" after = Some area /\
    Forall (fun c => exists z, 0 < z /\ as_float c = Ok (of_Z z)) area.
Proof.
  intros Hnone. cbv zeta.
  unfold create_new_features. rewrite FeatureFacts.flag_step_run. cbv beta.
  set (st1 := Vocabulary.with_columns st _).
  assert (H1 : assoc "Carpet_Area_Sqft" (columns (df st1)) = None).
  { unfold st1. cbn. now rewrite PriceFacts.assoc_set_other. }
  rewrite FeatureFacts.area_step_run. rewrite H1. cbv beta.
  set (area := StageEffects.carpet_areas st1).
  set (st2 := Vocabulary.with_columns st1 _).
  assert (Ha : assoc "Carpet_Area_Sqft" (columns (df st2)) = Some area).
  { unfold st2. cbn. apply PriceFacts.assoc_set_same. }
  pose proof (FeatureFacts.carpet_areas_positive st1) as Hpos. fold area in Hpos.
  exists area. split; [|exact Hpos].
  match goal with
  | |- context [snd (?m ?s)] =>
      assert (U : StageEffects.keeps_column "Carpet_Area_Sqft" m)
        by (repeat keeps_column_step);
      rewrite (U s)
  end.
  exact Ha.
Qed.

Lemma derived_area_positive_witness :
  exists area,
    assoc "Carpet_Area_Sqft"
      (columns (df (snd (create_new_features (loaded Examples.study_frame))))) = Some area /\
    Forall (fun c => exists z, 0 < z /\ as_float c = Ok (of_Z z)) area.
Proof.
  destruct (derived_area_positive (loaded Examples.study_frame) eq_refl)
    as (area & Ha & Hpos).
  exists area. split; [exact Ha|exact Hpos].
Defined.

(** ** Missing values *)

Module FillFacts.
Import PyStr Re Pandas HousingDataCleaner Vocabulary StageEffects ShapeFacts PriceFacts
  NormalizeFacts ColumnFacts.

Lemma null_count_fillna v s : isna v = false -> null_count (fillna v s) = 0%nat.
Proof.
  intros Hv. unfold null_count, fillna, Series.
  induction s as [|c s IH]; [reflexivity|]. cbn [map].
  rewrite filter_cons_False; [exact IH|].
  destruct (isna c) eqn:E; congruence.
Qed.

Lemma numbers_fillna_nan s : numbers (fillna (CFloat NaN) s) = numbers s.
Proof.
  induction s as [|c s IH]; [reflexivity|].
  cbn [fillna map numbers]. fold (fillna (CFloat NaN) s). rewrite IH.
  destruct c as [| | |[]]; reflexivity.
Qed.

Lemma insert_cell_In x l v : In v (insert_cell x l) -> v = x \/ In v l.
Proof.
  induction l as [|y l IH]; cbn [insert_cell].
  - intros [<-|[]]. now left.
  - destruct (cell_le x y).
    + destruct (cell_le y x); [now right|].
      intros [<-|H]; [now left|now right].
    + intros [<-|H]; [right; now left|].
      destruct (IH H); [now left|right; now right].
Qed.

Lemma fold_insert_In l v : In v (fold_right insert_cell [] l) -> In v l.
Proof.
  induction l as [|x l IH]; cbn [fold_right]; [auto|].
  intros H. apply insert_cell_In in H as [->|H]; [now left|right; auto].
Qed.

(** A mode of a column is a value of the column that is not missing. *)
Lemma mode_present s v : In v (mode s) -> isna v = false.
Proof.
  unfold mode. intros H. apply fold_insert_In in H.
  apply list_elem_of_In, list_elem_of_filter in H as [_ H].
  now apply list_elem_of_filter in H as [H _].
Qed.

(** What a fill leaves in its column. *)
Lemma settled_fill_median s m : median s = Ok m -> settled (fillna (CFloat m) s).
Proof.
  intros Hm. destruct (isnan m) eqn:E.
  - destruct m; try discriminate. right.
    unfold median in *. now rewrite numbers_fillna_nan.
  - left. apply null_count_fillna. now destruct m.
Qed.

Lemma settled_fill_value v s : isna v = false -> settled (fillna v s).
Proof. intros H. left. now apply null_count_fillna. Qed.

Lemma settled_at_set st name s :
  settled s ->
  settled_at (with_columns st (assoc_set name s (columns (df st)))) name.
Proof. intros Hs s'. cbn. rewrite assoc_set_same. now intros [= <-]. Qed.

Lemma settled_at_other st name k s :
  settled s -> settled_at st name ->
  settled_at (with_columns st (assoc_set k s (columns (df st)))) name.
Proof.
  intros Hs Hn s'. cbn. destruct (String.eqb name k) eqn:E.
  - apply String.eqb_eq in E as ->. rewrite assoc_set_same. now intros [= <-].
  - rewrite (assoc_set_other _ _ _ _ E). apply Hn.
Qed.

Lemma fill_outcome_same col st :
  (forall s, assoc col (columns (df st)) = Some s -> settled s) -> fill_outcome col st st.
Proof. intros H. repeat split; auto. Qed.

Lemma fill_outcome_set col st s s' :
  assoc col (columns (df st)) = Some s -> settled s' ->
  fill_outcome col st (with_columns st (assoc_set col s' (columns (df st)))).
Proof.
  intros Hs Hs'. repeat split.
  - unfold column_names. cbn. apply assoc_set_names. congruence.
  - now apply settled_at_set.
  - intros name Hn. now apply settled_at_other.
Qed.

Lemma fill_mapped_outcome standard_name actual_name st st' :
  fill_mapped standard_name actual_name st = (Ok tt, st') ->
  fill_outcome actual_name st st'.
Proof.
  unfold fill_mapped. rewrite bind_run, has_column_run.
  unfold column_names. rewrite in_list_assoc.
  destruct (assoc actual_name (columns (df st))) as [s|] eqn:Es; cbn [negb].
  2:{ intros [= <-]. apply fill_outcome_same. congruence. }
  rewrite bind_run, (df_get_run _ _ _ Es).
  destruct (null_count s =? 0)%nat eqn:En.
  { intros [= <-]. apply fill_outcome_same. intros s0. rewrite Es. intros [= <-].
    left. now apply Nat.eqb_eq. }
  destruct (in_list standard_name ["price"; "amenity"]).
  { destruct (median s) as [m|e] eqn:Em; [|discriminate].
    rewrite df_set_run. intros [= <-].
    apply (fill_outcome_set _ _ s); [exact Es|now apply settled_fill_median]. }
  destruct (String.eqb standard_name "booking_status").
  { rewrite df_set_run. intros [= <-].
    apply (fill_outcome_set _ _ s); [exact Es|now apply settled_fill_value]. }
  destruct (mode s) as [|mode_val rest] eqn:Emode.
  - rewrite df_set_run. intros [= <-].
    apply (fill_outcome_set _ _ s); [exact Es|now apply settled_fill_value].
  - rewrite df_set_run. intros [= <-].
    apply (fill_outcome_set _ _ s); [exact Es|]. apply settled_fill_value.
    apply (mode_present s). rewrite Emode. now left.
Qed.

Lemma fill_other_outcome col st st' :
  fill_other col st = (Ok tt, st') -> fill_outcome col st st'.
Proof.
  unfold fill_other. rewrite bind_run. unfold df_get at 1. rewrite bind_run. cbn [get_df].
  destruct (assoc col (columns (df st))) as [s|] eqn:Es; [|discriminate].
  change ((mret s : M Series) st) with (Ok s, st). cbv iota beta.
  destruct (null_count s =? 0)%nat eqn:En.
  { intros [= <-]. apply fill_outcome_same. intros s0. rewrite Es. intros [= <-].
    left. now apply Nat.eqb_eq. }
  destruct (numeric_dtype s).
  { destruct (median s) as [m|e] eqn:Em; [|discriminate].
    rewrite df_set_run. intros [= <-].
    apply (fill_outcome_set _ _ s); [exact Es|now apply settled_fill_median]. }
  rewrite df_set_run. intros [= <-].
  apply (fill_outcome_set _ _ s); [exact Es|now apply settled_fill_value].
Qed.

(** The first loop: the mapped columns. *)
Lemma mapped_loop_outcome (entries : list (string * string)) st st' :
  for_each entries (fun '(standard_name, actual_name) =>
    fill_mapped standard_name actual_name) st = (Ok tt, st') ->
  column_map st' = column_map st /\
  column_names (df st') = column_names (df st) /\
  (forall entry, In entry entries -> settled_at st' (snd entry)) /\
  (forall name, settled_at st name -> settled_at st' name).
Proof.
  revert st. induction entries as [|[std actual] entries IH]; intros st.
  - cbn. intros [= <-]. repeat split; auto. intros ? [].
  - cbn [for_each]. rewrite bind_run.
    destruct (fill_mapped std actual st) as [[[]|e] st1] eqn:E1; [|discriminate].
    intros E2. apply fill_mapped_outcome in E1 as (C1 & N1 & S1 & M1).
    destruct (IH st1 E2) as (C2 & N2 & S2 & M2).
    repeat split; try congruence.
    + intros entry [<-|Hin]; [cbn [snd]; auto|auto].
    + auto.
Qed.

(** The second loop: the columns outside the mapping. *)
Lemma other_loop_outcome (names mapped : list string) st st' :
  for_each names (fun col =>
    if in_list col mapped then mret tt else fill_other col) st = (Ok tt, st') ->
  column_map st' = column_map st /\
  column_names (df st') = column_names (df st) /\
  (forall col, In col names -> in_list col mapped = false -> settled_at st' col) /\
  (forall name, settled_at st name -> settled_at st' name).
Proof.
  revert st. induction names as [|col names IH]; intros st.
  - cbn. intros [= <-]. repeat split; auto. intros ? [].
  - cbn [for_each]. rewrite bind_run.
    destruct (in_list col mapped) eqn:Ec.
    + change ((mret tt : M unit) st) with (Ok tt, st). cbv iota beta.
      intros E2. destruct (IH st E2) as (C2 & N2 & S2 & M2).
      repeat split; auto.
      intros c [<-|Hin] Hc; [congruence|auto].
    + destruct (fill_other col st) as [[[]|e] st1] eqn:E1; [|discriminate].
      intros E2. apply fill_other_outcome in E1 as (C1 & N1 & S1 & M1).
      destruct (IH st1 E2) as (C2 & N2 & S2 & M2).
      repeat split; try congruence.
      * intros c [<-|Hin] Hc; auto.
      * auto.
Qed.

End FillFacts.

(** X14.  When [handle_missing_values] returns, the frame has the column
    names it had, and every column has no missing cell left or is one whose
    median is NaN: a column of numbers with no number in it (or with
    infinities of both signs), which the fill with the median leaves as it
    is. *)
Theorem missing_values_settled (st : self) :
  fst (handle_missing_values st) = Ok tt ->
  let st' := snd (handle_missing_values st) in
  column_names (df st') = column_names (df st) /\
  (forall name s, assoc name (columns (df st')) = Some s ->
     Pandas.null_count s = 0%nat \/ Pandas.median s = Ok NaN).
Proof.
  intros Hok. cbv zeta. revert Hok.
  unfold handle_missing_values. rewrite ShapeFacts.bind_run. cbn [get_column_map].
  rewrite ShapeFacts.bind_run.
  destruct (for_each (column_map st) _ st) as [[[]|e] st1] eqn:E1; [|discriminate].
  rewrite ShapeFacts.bind_run. cbn [get_df]. cbv iota beta.
  destruct (for_each (column_names (df st1)) _ st1) as [[[]|e] st2] eqn:E2; [|discriminate].
  intros _. cbn [snd].
  apply FillFacts.mapped_loop_outcome in E1 as (C1 & N1 & S1 & M1).
  apply FillFacts.other_loop_outcome in E2 as (C2 & N2 & S2 & M2).
  split; [congruence|].
  intros name s Hs.
  assert (Hin : In name (column_names (df st1))).
  { rewrite <- N2. unfold column_names. apply LoaderFacts.in_list_In.
    rewrite NormalizeFacts.in_list_assoc. now rewrite Hs. }
  destruct (PyStr.in_list name (map snd (column_map st))) eqn:Em.
  - apply LoaderFacts.in_list_In, in_map_iff in Em as (entry & <- & Hentry).
    exact (M2 _ (S1 entry Hentry) s Hs).
  - exact (S2 name Hin Em s Hs).
Qed.

Lemma missing_values_settled_witness :
  column_names (df (snd (handle_missing_values (loaded Examples.median_frame)))) = ["Price"].
Proof.
  refine (proj1 (missing_values_settled (loaded Examples.median_frame) _)).
  vm_compute. reflexivity.
Defined.

(** ** Plain numerals through the price stage *)

Module NumeralFacts.
Import PyStr Re Pandas HousingDataCleaner Vocabulary StageEffects TextFacts.

Lemma re_match_start r a s : may_start r a = false -> re_match r (String a s) = None.
Proof.
  unfold re_match. destruct r as [|[[c|c|c|c]|ps] r]; cbn [may_start]; try discriminate;
    intros H; cbn [pieces_of flat_map app match_pieces]; now rewrite H.
Qed.

Lemma match_alt_start alts a s :
  forallb (fun r => negb (may_start r a)) alts = true -> match_alt alts (String a s) = None.
Proof.
  induction alts as [|r alts IH]; [reflexivity|].
  cbn [forallb match_alt]. intros H. apply andb_prop in H as [H1 H2].
  rewrite re_match_start; [auto|]. now destruct (may_start r a).
Qed.

(** A substitution none of whose alternatives can start anywhere in the
    text leaves the text as it is. *)
Lemma re_sub_untouched alts repl t :
  all_chars (fun a => forallb (fun r => negb (may_start r a)) alts) t = true ->
  re_sub alts repl t = t.
Proof.
  unfold re_sub, all_chars. induction t as [|a t IH]; [reflexivity|].
  cbn [list_ascii_of_string forallb sub_from]. intros H. apply andb_prop in H as [H1 H2].
  rewrite (match_alt_start _ _ _ H1). now rewrite IH.
Qed.

(** No pattern of the price stage can start at a character of a plain
    numeral. *)
Lemma plain_passes a :
  plain a = true ->
  forallb (fun alts => forallb (fun r => negb (may_start r a)) alts)
    price_cleaning_patterns = true.
Proof.
  destruct a as [[] [] [] [] [] [] [] []]; vm_compute; intros H;
    first [reflexivity | discriminate H].
Qed.

Lemma all_chars_forall f t :
  all_chars f t = true <-> (forall a, In a (list_ascii_of_string t) -> f a = true).
Proof. unfold all_chars. apply forallb_forall. Qed.

Lemma price_text_plain t : all_chars plain t = true -> price_text t = t.
Proof.
  intros H. unfold price_text.
  assert (Hall : Forall (fun alts =>
            all_chars (fun a => forallb (fun r => negb (may_start r a)) alts) t = true)
            price_cleaning_patterns).
  { apply List.Forall_forall. intros alts Hin. apply all_chars_forall. intros a Ha.
    pose proof (plain_passes a (proj1 (all_chars_forall _ _) H a Ha)) as Hp.
    rewrite forallb_forall in Hp. now apply Hp. }
  induction Hall as [|alts l Ha _ IH]; [reflexivity|].
  cbn [fold_left]. rewrite (re_sub_untouched _ _ _ Ha). exact IH.
Qed.

End NumeralFacts.

Module DigitFacts.
Import PyStr Re Pandas HousingDataCleaner Vocabulary StageEffects TextFacts.

Lemma digit_char_digit d :
  0 <= d <= 9 ->
  is_digit (digit_char d) = true /\ digit_value (digit_char d) = d /\
  digit_char d <> "-"%char /\ digit_char d <> "+"%char.
Proof.
  intros H.
  assert (d = 0 \/ d = 1 \/ d = 2 \/ d = 3 \/ d = 4 \/ d = 5 \/ d = 6 \/ d = 7 \/
          d = 8 \/ d = 9) as Hd by lia.
  repeat (destruct Hd as [->|Hd]; [repeat split; discriminate|]).
  subst d. repeat split; discriminate.
Qed.

Lemma digits_value_app a s t :
  digits_value a (s +:+ t) = digits_value (digits_value a s) t.
Proof.
  revert a. induction s as [|c s IH]; intros a; sapp; [reflexivity|].
  cbn [digits_value]. apply IH.
Qed.

Lemma all_digits_app s t :
  all_chars is_digit s = true -> all_chars is_digit t = true ->
  all_chars is_digit (s +:+ t) = true.
Proof.
  unfold all_chars. induction s as [|c s IH]; intros Hs Ht; sapp; [exact Ht|].
  cbn [list_ascii_of_string forallb] in *. apply andb_prop in Hs as [H1 H2].
  rewrite H1. cbn. auto.
Qed.

(** The digits [nat_digits] puts before [acc], given fuel for them. *)
Lemma nat_digits_spec fuel z acc :
  (0 < fuel)%nat -> 0 <= z < 10 ^ Z.of_nat fuel ->
  exists ds c,
    nat_digits fuel z acc = String c ds +:+ acc /\
    all_chars is_digit (String c ds) = true /\
    forall a, digits_value a (String c ds) = a * 10 ^ Z.of_nat (String.length (String c ds)) + z.
Proof.
  revert z acc. induction fuel as [|fuel IH]; intros z acc Hf Hz; [lia|].
  cbn [nat_digits].
  assert (Hm : 0 <= z mod 10 <= 9) by (pose proof (Z.mod_pos_bound z 10); lia).
  destruct (digit_char_digit _ Hm) as (Hd & Hv & _).
  destruct (Z.ltb_spec z 10) as [Hlt|Hge].
  - exists EmptyString, (digit_char (z mod 10)). sapp. split; [reflexivity|].
    split; [unfold all_chars; cbn; now rewrite Hd|].
    intros a. cbn [digits_value String.length]. rewrite Hv.
    rewrite Z.mod_small by lia. change (10 ^ Z.of_nat 1) with 10. lia.
  - assert (Hq : 0 <= z / 10 < 10 ^ Z.of_nat fuel).
    { split; [apply Z.div_pos; lia|].
      apply Z.div_lt_upper_bound; [lia|].
      rewrite Nat2Z.inj_succ, Z.pow_succ_r in Hz by lia. lia. }
    assert (Hf' : (0 < fuel)%nat).
    { destruct fuel; [cbn in Hq; lia|lia]. }
    destruct (IH (z / 10) (String (digit_char (z mod 10)) acc) Hf' Hq)
      as (ds & c & E & Hall & Hval).
    exists (ds +:+ String (digit_char (z mod 10)) EmptyString), c.
    split; [|split].
    + rewrite E. sapp. f_equal. rewrite TextFacts.app_assoc. now sapp.
    + change (String c (ds +:+ String (digit_char (z mod 10)) ""))
        with (String c ds +:+ String (digit_char (z mod 10)) "") .
      apply all_digits_app; [exact Hall|]. unfold all_chars. cbn. now rewrite Hd.
    + intros a.
      change (String c (ds +:+ String (digit_char (z mod 10)) ""))
        with (String c ds +:+ String (digit_char (z mod 10)) "").
      rewrite digits_value_app, Hval. cbn [digits_value]. rewrite Hv.
      rewrite PriceFacts.length_append. cbn [String.length].
      rewrite Nat2Z.inj_add, Z.pow_add_r by lia. change (10 ^ Z.of_nat 1) with 10.
      pose proof (Z.div_mod z 10). lia.
Qed.

Lemma str_nat_spec z :
  0 <= z ->
  exists ds c,
    str_nat z = String c ds /\ all_chars is_digit (String c ds) = true /\
    digits_value 0 (String c ds) = z.
Proof.
  intros Hz. unfold str_nat.
  assert (Hb : 0 <= z < 10 ^ Z.of_nat (S (Z.to_nat (Z.log2 z)))).
  { split; [exact Hz|].
    rewrite Nat2Z.inj_succ, Z2Nat.id by apply Z.log2_nonneg.
    destruct (Z.eq_dec z 0) as [->|Hne]; [cbn; lia|].
    pose proof (Z.log2_spec z ltac:(lia)) as [_ H2].
    eapply Z.lt_le_trans; [exact H2|].
    apply Z.pow_le_mono_l. lia. }
  destruct (nat_digits_spec _ z EmptyString (Nat.lt_0_succ _) Hb)
    as (ds & c & E & Hall & Hval).
  exists ds, c. rewrite E. split; [|split; [exact Hall|]].
  - clear. generalize (String c ds). intros s. induction s as [|a s IH]; sapp; [reflexivity|].
    now rewrite IH.
  - rewrite Hval. lia.
Qed.

Lemma span_digits_all s :
  all_chars is_digit s = true -> span_digits s = (s, EmptyString).
Proof.
  unfold all_chars. induction s as [|c s IH]; [reflexivity|].
  cbn [list_ascii_of_string forallb span_digits]. intros H. apply andb_prop in H as [H1 H2].
  now rewrite H1, IH.
Qed.

Lemma Qred_whole n : Qred (n # 1) = n # 1.
Proof.
  unfold Qred.
  pose proof (Z.ggcd_gcd n 1) as Hg. pose proof (Z.ggcd_correct_divisors n 1) as Hd.
  destruct (Z.ggcd n 1) as [g [r1 r2]]. cbn [fst snd] in *.
  rewrite Z.gcd_1_r in Hg. subst g. destruct Hd as [H1 H2].
  rewrite Z.mul_1_l in H1, H2. subst. reflexivity.
Qed.

(** A run of digits parses to its value. *)
Lemma to_double_digits c ds :
  all_chars is_digit (String c ds) = true ->
  to_double (String c ds) = of_Z (digits_value 0 (String c ds)).
Proof.
  intros H. unfold to_double.
  assert (Hc : is_digit c = true).
  { unfold all_chars in H. cbn in H. now apply andb_prop in H as [H _]. }
  assert (c <> "-"%char /\ c <> "+"%char) as [Hm Hp].
  { split; intros ->; discriminate Hc. }
  assert (E : (match String c ds with
               | String "-" r => (true, r)
               | String "+" r => (false, r)
               | _ => (false, String c ds)
               end) = (false, String c ds)).
  { destruct c as [[] [] [] [] [] [] [] []]; try reflexivity; congruence. }
  rewrite E. rewrite (span_digits_all _ H).
  assert (String c ds +:+ "" = String c ds) as ->.
  { clear. generalize (String c ds). intros s. induction s as [|a s IH]; sapp; [reflexivity|].
    now rewrite IH. }
  cbn [String.length Z.of_nat Z.pow Z.to_pos]. change (Z.to_pos (10 ^ 0)) with 1%positive.
  now rewrite Qred_whole.
Qed.

Lemma to_double_negative c ds :
  all_chars is_digit (String c ds) = true ->
  to_double (String "-" (String c ds)) = of_Z (- digits_value 0 (String c ds)).
Proof.
  intros H. unfold to_double. rewrite (span_digits_all _ H).
  assert (String c ds +:+ "" = String c ds) as ->.
  { clear. generalize (String c ds). intros s. induction s as [|a s IH]; sapp; [reflexivity|].
    now rewrite IH. }
  cbn [String.length Z.of_nat]. change (Z.to_pos (10 ^ 0)) with 1%positive.
  now rewrite Qred_whole.
Qed.

Lemma digits_plain s : all_chars is_digit s = true -> all_chars plain s = true.
Proof.
  unfold all_chars. intros H. rewrite forallb_forall in *. intros a Ha.
  unfold plain. now rewrite (H a Ha).
Qed.

(** [str(z)] is a plain numeral, and parses back to [z]. *)
Lemma str_int_round_trip z :
  all_chars plain (str_int z) = true /\ to_double (str_int z) = of_Z z.
Proof.
  unfold str_int. destruct (Z.ltb_spec z 0) as [Hneg|Hpos].
  - destruct (str_nat_spec (- z) ltac:(lia)) as (ds & c & -> & Hall & Hval). split.
    + pose proof (digits_plain _ Hall) as Hp. unfold all_chars in *.
      cbn [list_ascii_of_string forallb] in *. now rewrite Hp.
    + rewrite (to_double_negative _ _ Hall), Hval. f_equal. f_equal. lia.
  - destruct (str_nat_spec z Hpos) as (ds & c & -> & Hall & Hval). split.
    + now apply digits_plain.
    + now rewrite (to_double_digits _ _ Hall), Hval.
Qed.

End DigitFacts.

(** X15.  A price written as a plain numeral (digits, a point, a sign) is
    left as it is by the five replacements of the price stage and parsed as
    it stands; an integer price goes through [astype(str)], the
    replacements and [pd.to_numeric] unchanged; so a column of integers
    leaves the price stage with the numbers it had. *)
Theorem plain_prices_pass :
  (forall t, PyStr.all_chars StageEffects.plain t = true ->
     Vocabulary.price_text t = t /\
     Vocabulary.parse_price (CStr t) = Pandas.to_double t) /\
  (forall z, Vocabulary.parse_price (CInt z) = of_Z z) /\
  (forall zs : list Z,
     Vocabulary.cleaned_prices (map CInt zs) = map (fun z => CFloat (of_Z z)) zs).
Proof.
  assert (Hint : forall z, Vocabulary.parse_price (CInt z) = of_Z z).
  { intros z. unfold Vocabulary.parse_price. cbn [py_str].
    destruct (DigitFacts.str_int_round_trip z) as [Hp Hd].
    now rewrite (NumeralFacts.price_text_plain _ Hp). }
  split; [|split; [exact Hint|]].
  - intros t H. unfold Vocabulary.parse_price. cbn [py_str].
    rewrite (NumeralFacts.price_text_plain t H). auto.
  - intros zs. unfold Vocabulary.cleaned_prices.
    generalize (Pandas.median_of (Vocabulary.parsed_values (map CInt zs))). intros m.
    rewrite map_map. apply map_ext. intros z. now rewrite Hint.
Qed.

(** ** The quarter columns *)

Module QuarterColumnFacts.
Import PyStr Re Pandas HousingDataCleaner Vocabulary StageEffects ShapeFacts PriceFacts
  NormalizeFacts ColumnFacts FeatureFacts QuietFacts TextFacts ReFacts PatternFacts
  LoaderFacts.

Lemma lookup_map {A B} (f : A -> B) (s : list A) i v :
  s !! i = Some v -> map f s !! i = Some (f v).
Proof.
  revert i. induction s as [|w s IH]; intros [|i]; cbn; try discriminate.
  - now intros [= ->].
  - apply IH.
Qed.

(** An outcome that is not an exception comes from a first part that
    returned. *)
Lemma bind_ok {A B} (m : M A) (k : A -> M B) st :
  (exists b, fst ((m ≫= k) st) = Ok b) ->
  exists a st1, m st = (Ok a, st1) /\ (m ≫= k) st = k a st1.
Proof.
  rewrite bind_run. destruct (m st) as [[a|e] st1]; cbn [fst].
  - eauto.
  - intros [b Hb]. discriminate.
Qed.

(** The cells of the quarter and year columns for a text the pattern
    matches, and for one it does not. *)
Lemma extract_match text :
  (exists q y, quarter_year_at text q y) ->
  exists q y,
    HousingDataLoader.extract_quarter_year (CStr text) = (digit_value q, digits_value 0 y) /\
    is_digit q = true /\ four_digits y /\
    option_map groups (re_search quarter_year_pattern text) = Some [String q EmptyString; y].
Proof.
  intros Hex.
  destruct (re_search pat_QY text) as [m|] eqn:Es.
  2:{ exfalso. now apply (search_qy_none text Es). }
  destruct (search_qy_some text m Es) as (q & y & Hat & Hg).
  exists q, y.
  assert (Hq : is_digit q = true /\ four_digits y).
  { destruct Hat as (? & ? & ? & _ & Hq & _ & Hy). auto. }
  destruct Hq as [Hq Hy]. split; [|split; [exact Hq|split; [exact Hy|]]].
  - unfold HousingDataLoader.extract_quarter_year, HousingDataLoader.extract_quarter_year_of,
      HousingDataLoader.extract_quarter_year_try.
    cbn [py_str res_bind]. rewrite pattern_loop_patterns, Es, Hg.
    rewrite (int_digit q Hq). cbn [res_bind]. now rewrite (int_year y Hy).
  - change quarter_year_pattern with pat_QY. rewrite Es. cbn [option_map]. now rewrite Hg.
Qed.

Lemma extract_no_match text :
  (~ exists q y, quarter_year_at text q y) -> re_search quarter_year_pattern text = None.
Proof.
  intros Hn. change quarter_year_pattern with pat_QY.
  destruct (re_search pat_QY text) as [m|] eqn:Es; [|reflexivity].
  exfalso. apply Hn. destruct (search_qy_some text m Es) as (q & y & Hat & _). eauto.
Qed.

Lemma to_double_digit q :
  is_digit q = true -> to_double (String q EmptyString) = of_Z (digit_value q).
Proof.
  intros Hq. rewrite DigitFacts.to_double_digits.
  - cbn [digits_value]. f_equal.
  - unfold all_chars. cbn. now rewrite Hq.
Qed.

Lemma to_double_year y :
  four_digits y -> to_double y = of_Z (digits_value 0 y).
Proof.
  intros (y0 & y1 & y2 & y3 & -> & H0 & H1 & H2 & H3).
  apply DigitFacts.to_double_digits. unfold all_chars. cbn. now rewrite H0, H1, H2, H3.
Qed.

(** The season of a quarter read from a digit is the loader's. *)
Lemma season_of_digit z :
  0 <= z <= 9 ->
  (if isna (season_of (CFloat (of_Z z))) then CStr "Winter" else season_of (CFloat (of_Z z)))
  = CStr (HousingDataLoader.determine_season z).
Proof.
  intros H.
  assert (z = 0 \/ z = 1 \/ z = 2 \/ z = 3 \/ z = 4 \/ z = 5 \/ z = 6 \/ z = 7 \/
          z = 8 \/ z = 9) as Hd by lia.
  repeat (destruct Hd as [->|Hd]; [reflexivity|]). subst z. reflexivity.
Qed.

End QuarterColumnFacts.

Module QuarterRun.
Import PyStr Re Pandas HousingDataCleaner Vocabulary StageEffects ShapeFacts PriceFacts
  NormalizeFacts ColumnFacts FeatureFacts QuietFacts QuarterColumnFacts.

Lemma usable_in_some st name c s :
  truthy name = Some c -> assoc c (columns (df st)) = Some s -> usable_in st name = Some c.
Proof.
  intros Ht Hs. unfold usable_in. rewrite Ht. unfold column_names.
  now rewrite in_list_assoc, Hs.
Qed.

Lemma quarter_columns_run st quarter_col s :
  fst (create_new_features st) = Ok tt ->
  truthy (assoc "purchase_quarter" (column_map st)) = Some quarter_col ->
  assoc quarter_col (columns (df st)) = Some s ->
  String.eqb quarter_col "Booking_Flag" = false ->
  String.eqb quarter_col "Carpet_Area_Sqft" = false ->
  String.eqb quarter_col "Price_per_Sqft" = false ->
  s <> [] ->
  let after := columns (df (snd (create_new_features st))) in
  let quarters := fillna (CInt 1) (to_numeric (str_extract quarter_year_pattern 0 s)) in
  assoc "Quarter_Number" after = Some quarters /\
  assoc "Year" after =
    Some (fillna (CInt 2023) (to_numeric (str_extract quarter_year_pattern 1 s))) /\
  assoc "Season" after = Some (fillna (CStr "Winter") (map season_of quarters)).
Proof.
  intros Hok Hq Hs N1 N2 N3 Hne. cbv zeta. revert Hok.
  unfold create_new_features.
  rewrite flag_step_run. cbv beta. set (st1 := with_columns st _).
  rewrite area_step_run. cbv beta.
  set (st2 := match assoc "Carpet_Area_Sqft" (columns (df st1)) with
              | Some _ => st1 | None => _ end).
  assert (C2 : column_map st2 = column_map st).
  { unfold st2, st1. now destruct (assoc "Carpet_Area_Sqft" _). }
  assert (S2 : assoc quarter_col (columns (df st2)) = Some s).
  { unfold st2, st1. destruct (assoc "Carpet_Area_Sqft" _); cbn;
      rewrite ?assoc_set_other; auto. }
  clearbody st2. clear st1.
  (* step 3 *)
  rewrite bind_run, has_column_run. cbv iota beta.
  rewrite bind_run, has_column_run. cbv iota beta.
  intros Hok. destruct (bind_ok _ _ _ (ex_intro _ tt Hok)) as ([] & st3 & E3 & Erun).
  revert Hok. rewrite Erun. clear Erun.
  assert (C3 : column_map st3 = column_map st2 /\
               assoc quarter_col (columns (df st3)) = assoc quarter_col (columns (df st2))).
  { match type of E3 with
    | ?m _ = _ =>
        assert (Q : quiet m) by (repeat quiet_step);
        assert (U : keeps_column quarter_col m) by (repeat keeps_column_step)
    end.
    specialize (Q st2). specialize (U st2). rewrite E3 in Q, U. cbn [snd] in Q, U.
    split; [apply Q|exact U]. }
  destruct C3 as [C3 S3]. rewrite C2 in C3. rewrite S2 in S3. clear E3 C2 S2 st2.
  (* step 4 *)
  rewrite bind_run, bind_run. cbn [get_column]. rewrite usable_run, C3.
  rewrite (usable_in_some st3 _ quarter_col s Hq S3). cbv iota beta.
  rewrite bind_run, bind_run, (df_get_run _ _ _ S3). cbv iota beta.
  rewrite bind_run.
  destruct (str_accessor s) as [r|e] eqn:Ea; cbn [lift].
  2:{ intros Hok. discriminate Hok. }
  apply str_accessor_same in Ea. subst r.
  change ((mret s : M Series) st3) with (Ok s, st3). cbv iota beta.
  destruct s as [|c0 s0] eqn:Es; [congruence|]. rewrite <- Es in *.
  rewrite bind_run, df_set_run. cbv iota beta. rewrite df_set_run. cbv iota beta.
  set (quarters := fillna (CInt 1) (to_numeric (str_extract quarter_year_pattern 0 s))).
  set (years := fillna (CInt 2023) (to_numeric (str_extract quarter_year_pattern 1 s))).
  set (st5 := with_columns (with_columns st3 _) _).
  assert (Q5 : assoc "Quarter_Number" (columns (df st5)) = Some quarters).
  { unfold st5. cbn. rewrite assoc_set_other by reflexivity. apply assoc_set_same. }
  assert (Y5 : assoc "Year" (columns (df st5)) = Some years).
  { unfold st5. cbn. apply assoc_set_same. }
  clearbody st5.
  (* step 5 *)
  rewrite bind_run, has_column_run. cbv iota beta.
  intros Hok. destruct (bind_ok _ _ _ (ex_intro _ tt Hok)) as ([] & st6 & E6 & Erun).
  revert Hok. rewrite Erun. clear Erun.
  assert (C6 : assoc "Quarter_Number" (columns (df st6)) = Some quarters /\
               assoc "Year" (columns (df st6)) = Some years).
  { match type of E6 with
    | ?m _ = _ =>
        assert (U1 : keeps_column "Quarter_Number" m) by (repeat keeps_column_step);
        assert (U2 : keeps_column "Year" m) by (repeat keeps_column_step)
    end.
    specialize (U1 st5). specialize (U2 st5). rewrite E6 in U1, U2. cbn [snd] in U1, U2.
    split; congruence. }
  destruct C6 as [Q6 Y6]. clear E6.
  (* step 6 *)
  rewrite bind_run, has_column_run. unfold column_names. rewrite in_list_assoc, Q6.
  cbv iota beta. rewrite bind_run, (df_get_run _ _ _ Q6). cbv iota beta.
  rewrite df_set_run. cbn [fst snd with_columns df columns]. intros _.
  rewrite !assoc_set_other by reflexivity. rewrite assoc_set_same. auto.
Qed.

End QuarterRun.

(** X16.  When [create_new_features] returns and the quarter column is
    bound, present and not empty, the stage stores [Quarter_Number], [Year]
    and [Season]; for each text cell that holds [Q], a digit, an optional
    separator and four digits, the three values are the quarter and the
    year that the loader's [extract_quarter_year] returns for that text and
    the season [determine_season] gives that quarter; for any other text
    cell they are 1, 2023 and Winter. *)
Theorem quarter_columns_agree (st : self) (quarter_col : string) (s : Pandas.Series) :
  fst (create_new_features st) = Ok tt ->
  truthy (assoc "purchase_quarter" (column_map st)) = Some quarter_col ->
  assoc quarter_col (columns (df st)) = Some s ->
  ~ In quarter_col ["Booking_Flag"; "Carpet_Area_Sqft"; "Price_per_Sqft"] ->
  s <> [] ->
  let after := columns (df (snd (create_new_features st))) in
  exists quarters years seasons,
    assoc "Quarter_Number" after = Some quarters /\
    assoc "Year" after = Some years /\
    assoc "Season" after = Some seasons /\
    forall (i : nat) (text : string), s !! i = Some (CStr text) ->
      ((exists q y, Vocabulary.quarter_year_at text q y) ->
       let '(quarter_number, year) := HousingDataLoader.extract_quarter_year (CStr text) in
       quarters !! i = Some (CFloat (of_Z quarter_number)) /\
       years !! i = Some (CFloat (of_Z year)) /\
       seasons !! i = Some (CStr (HousingDataLoader.determine_season quarter_number))) /\
      ((~ exists q y, Vocabulary.quarter_year_at text q y) ->
       quarters !! i = Some (CInt 1) /\ years !! i = Some (CInt 2023) /\
       seasons !! i = Some (CStr "Winter")).
Proof.
  intros Hok Hq Hs Hnot Hne. cbv zeta.
  assert (N : String.eqb quarter_col "Booking_Flag" = false /\
              String.eqb quarter_col "Carpet_Area_Sqft" = false /\
              String.eqb quarter_col "Price_per_Sqft" = false).
  { repeat split; apply String.eqb_neq; intros ->; apply Hnot; cbn; auto. }
  destruct N as (N1 & N2 & N3).
  destruct (QuarterRun.quarter_columns_run st quarter_col s Hok Hq Hs N1 N2 N3 Hne)
    as (HQ & HY & HS).
  eexists _, _, _. split; [exact HQ|]. split; [exact HY|]. split; [exact HS|].
  intros i text Hi. unfold Pandas.fillna, Pandas.to_numeric, str_extract, Pandas.Series in *.
  rewrite !map_map.
  rewrite !(QuarterColumnFacts.lookup_map _ s i (CStr text) Hi).
  split.
  - intros Hex.
    destruct (QuarterColumnFacts.extract_match text Hex) as (q & y & -> & Hdq & Hdy & Hg).
    destruct (Re.re_search quarter_year_pattern text) as [m|]; [|discriminate].
    cbn [option_map] in Hg. injection Hg as ->. cbn [lookup list_lookup].
    rewrite (QuarterColumnFacts.to_double_digit q Hdq),
            (QuarterColumnFacts.to_double_year y Hdy).
    cbn [isna of_Z]. repeat split.
    apply f_equal.
    apply (QuarterColumnFacts.season_of_digit (PyStr.digit_value q)).
    now apply RowFacts.digit_value_range.
  - intros Hn. rewrite (QuarterColumnFacts.extract_no_match text Hn). repeat split.
Qed.

Lemma quarter_columns_agree_witness :
  exists quarters,
    assoc "Quarter_Number"
      (columns (df (snd (create_new_features (loaded Examples.quarter_frame)))))
    = Some quarters /\
    quarters !! 1%nat = Some (CFloat (of_Z 1)).
Proof.
  assert (H1 : fst (create_new_features (loaded Examples.quarter_frame)) = Ok tt)
    by (vm_compute; reflexivity).
  assert (H2 : truthy (assoc "purchase_quarter" (column_map (loaded Examples.quarter_frame)))
               = Some "Quarter") by reflexivity.
  assert (H3 : assoc "Quarter" (columns (df (loaded Examples.quarter_frame)))
               = Some [CStr "2023-Q3"; CStr "Q1_2023"]) by reflexivity.
  assert (H4 : ~ In "Quarter" ["Booking_Flag"; "Carpet_Area_Sqft"; "Price_per_Sqft"]).
  { intros [H|[H|[H|[]]]]; discriminate H. }
  assert (H5 : [CStr "2023-Q3"; CStr "Q1_2023"] <> []) by discriminate.
  destruct (quarter_columns_agree (loaded Examples.quarter_frame) "Quarter" _ H1 H2 H3 H4 H5)
    as (quarters & years & seasons & HQ & _ & _ & Hcell).
  exists quarters. split; [exact HQ|].
  refine (proj1 (proj1 (Hcell 1%nat "Q1_2023" eq_refl) _)).
  exists "1"%char, "2023", "", "_", "".
  repeat split; [right; left; reflexivity|].
  exists "2"%char, "0"%char, "2"%char, "3"%char. repeat split.
Defined.

(** ** The frame a run ends with *)

Module OutputFacts.
Import PyStr Re Pandas HousingDataCleaner Vocabulary StageEffects ShapeFacts StageFacts
  PipelineFacts PriceFacts NormalizeFacts ColumnFacts FeatureFacts ReportFacts.

Lemma run_step_df name m st : df (snd (run_step (name, m) st)) = df (snd (m st)).
Proof. unfold run_step. now destruct (m st) as [[a|e] st']. Qed.

Lemma validate_data_df st : df (snd (validate_data st)) = df st.
Proof.
  unfold validate_data. rewrite bind_run. cbn [get_df]. rewrite bind_run.
  cbn [report_set]. rewrite bind_run. unfold report_get at 1.
  destruct (_ !! "initial_shape"); [|reflexivity].
  rewrite bind_run. unfold report_get.
  now destruct (_ !! "final_shape").
Qed.

(** The frame [clean_data] ends with is the one the feature stage leaves. *)
Lemma clean_data_df st :
  well_shaped (df st) ->
  exists st3, df (snd (clean_data st)) = df (snd (create_new_features st3)).
Proof.
  intros Hw. rewrite (clean_data_run st Hw).
  cbn [run_steps cleaning_steps].
  rewrite run_step_df, validate_data_df, run_step_df. eauto.
Qed.

End OutputFacts.

(** X17.  Whatever the file holds, as long as its columns have one cell for
    each row, and whichever steps fail, the frame [clean_data] ends with
    has a column [Booking_Flag] of zeros and ones and a column
    [Carpet_Area_Sqft], each with one cell for each row. *)
Theorem cleaned_frame_features (d : DataFrame) :
  Vocabulary.well_shaped d ->
  let final := df (snd (clean_data (loaded d))) in
  exists flags area,
    assoc "Booking_Flag" (columns final) = Some flags /\
    length flags = index d /\
    Forall (fun c => c = CInt 0 \/ c = CInt 1) flags /\
    assoc "Carpet_Area_Sqft" (columns final) = Some area /\
    length area = index d.
Proof.
  intros Hw. cbv zeta.
  assert (Hw0 : Vocabulary.well_shaped (df (loaded d))) by exact Hw.
  destruct (PipelineFacts.frames_after_keep cleaning_steps (Vocabulary.started (loaded d))
              PipelineFacts.all_steps_keep Hw0) as (_ & _ & Hlen & Hshape).
  rewrite <- (PipelineFacts.clean_data_run (loaded d) Hw0) in Hlen, Hshape.
  destruct (OutputFacts.clean_data_df (loaded d) Hw0) as [st3 E].
  destruct (FeatureFacts.features_area_column st3) as [area Ha].
  exists (StageEffects.booking_flags st3), area.
  rewrite E in *. rewrite FeatureFacts.features_flag_column.
  unfold Vocabulary.well_shaped in Hshape. unfold len in Hlen. cbn [loaded df] in Hlen.
  rewrite Hlen in Hshape.
  repeat match goal with |- _ /\ _ => split end.
  - reflexivity.
  - eapply ShapeFacts.assoc_well_shaped; [exact Hshape|].
    apply FeatureFacts.features_flag_column.
  - apply FeatureFacts.booking_flags_binary.
  - exact Ha.
  - eapply ShapeFacts.assoc_well_shaped; [exact Hshape|exact Ha].
Qed.

Lemma cleaned_frame_features_witness :
  exists flags,
    assoc "Booking_Flag" (columns (df (snd (clean_data (loaded Examples.status_frame)))))
    = Some flags /\ length flags = 3%nat.
Proof.
  assert (Hw : Vocabulary.well_shaped Examples.status_frame) by (repeat constructor).
  destruct (cleaned_frame_features Examples.status_frame Hw)
    as (flags & area & Hf & Hl & _).
  exists flags. split; [exact Hf|exact Hl].
Defined.
